(** * Negotiation agents: a shallow embedding of the buyer strategies,
      the mock seller and the negotiation driver

    Sources embedded here:
    - [negotiation_agent_code_warriors.py]: the deterministic
      [YourBuyerAgent], [MockSellerAgent], [run_negotiation_test];
    - [buyer_agent_team_code_warriors.py]: the [YourBuyerAgent] that
      consults the [ollama] chat service (its [MockSellerAgent] and driver
      are textually the same as in the first file).

    Python integers are unbounded, so prices are [Z].  Python floats are
    IEEE-754 binary64 numbers: they are modelled bit-exactly with the
    Standard Library's [SpecFloat] ([prec = 53], [emax = 1024]), and the
    Python conversions between [int] and [float] are written out. *)

From Stdlib Require Import ZArith List String Ascii Bool Lia.
From Stdlib Require Import SpecFloat DecimalString.
From Stdlib Require Decimal DecimalPos.
Import ListNotations.
Local Open Scope Z_scope.

(* ===================================================================== *)
(** * Python exceptions and the effect monad *)
(* ===================================================================== *)

(** The exceptions the embedded code can raise.  [ExternalServiceError]
    stands for whatever [import ollama] or [ollama.chat] raises
    (ModuleNotFoundError, ConnectionError, ResponseError, ...). *)
Inductive exn : Type :=
| OverflowError
| ValueError
| ZeroDivisionError
| TypeError
| ExternalServiceError.

(** Outcome of a Python computation: a value or a raised exception. *)
Inductive res (A : Type) : Type :=
| Ok (a : A)
| Raise (e : exn).
Arguments Ok {A} a.
Arguments Raise {A} e.

(* ===================================================================== *)
(** * Python floats *)
(* ===================================================================== *)

Module PyFloat.

Definition prec : Z := 53.
Definition emax : Z := 1024.

Definition float : Type := spec_float.

Definition fmul : float -> float -> float := SFmul prec emax.

(** [float(n)] for an [int] [n]: correctly rounded (nearest, ties to
    even); CPython raises OverflowError when the rounded value is not
    finite ("int too large to convert to float"). *)
Definition of_int (n : Z) : res float :=
  match binary_normalize prec emax n 0 false with
  | S754_infinity _ => Raise OverflowError
  | f => Ok f
  end.

(** A decimal literal [n / 10^k] of the source: the binary64 number
    nearest to it.  Both [n] and [10^k] are exact in binary64 and the
    division is correctly rounded, so the quotient is that number. *)
Definition literal (n : Z) (d : Z) : float :=
  SFdiv prec emax (binary_normalize prec emax n 0 false)
                  (binary_normalize prec emax d 0 false).

(** [int(x)] for a float [x]: truncation toward zero; OverflowError on
    an infinity, ValueError on a NaN. *)
Definition to_int (x : float) : res Z :=
  match x with
  | S754_zero _ => Ok 0
  | S754_infinity _ => Raise OverflowError
  | S754_nan => Raise ValueError
  | S754_finite s m e =>
      let a := if 0 <=? e then Z.shiftl (Zpos m) e
               else Z.shiftr (Zpos m) (- e) in
      Ok (if s then - a else a)
  end.

(** [n <= x] for an [int] [n] and a [float] [x].  CPython compares the
    exact mathematical values (no conversion of [n] to a float). *)
Definition int_le (n : Z) (x : float) : bool :=
  match x with
  | S754_nan => false
  | S754_infinity s => negb s
  | S754_zero _ => n <=? 0
  | S754_finite s m e =>
      let v := if s then Zneg m else Zpos m in
      if 0 <=? e then n <=? Z.shiftl v e
      else Z.shiftl n (- e) <=? v
  end.

(** [n >= x] for an [int] [n] and a [float] [x], exact as well. *)
Definition int_ge (n : Z) (x : float) : bool :=
  match x with
  | S754_nan => false
  | S754_infinity s => s
  | S754_zero _ => 0 <=? n
  | S754_finite s m e =>
      let v := if s then Zneg m else Zpos m in
      if 0 <=? e then Z.shiftl v e <=? n
      else v <=? Z.shiftl n (- e)
  end.

(** [a / b] for two [int]s (true division): ZeroDivisionError on a zero
    divisor; otherwise the exact quotient correctly rounded, and
    OverflowError when that is not finite. *)
Definition int_truediv (a b : Z) : res float :=
  if b =? 0 then Raise ZeroDivisionError
  else if a =? 0 then Ok (S754_zero (b <? 0))
  else
    let s := xorb (a <? 0) (b <? 0) in
    let '(q, e, l) := SFdiv_core_binary prec emax (Z.abs a) 0 (Z.abs b) 0 in
    match binary_round_aux prec emax s q e l with
    | S754_infinity _ => Raise OverflowError
    | f => Ok f
    end.

(** [n * x] (or [x * n]) for an [int] [n] and a [float] [x]. *)
Definition int_mul (n : Z) (x : float) : res float :=
  match of_int n with
  | Ok f => Ok (fmul f x)
  | Raise e => Raise e
  end.

(** [int(n * x)]. *)
Definition int_mul_trunc (n : Z) (x : float) : res Z :=
  match int_mul n x with
  | Ok f => to_int f
  | Raise e => Raise e
  end.

(** The float literals of the two source files. *)
Definition f0_05 : float := Eval vm_compute in literal 5 100.
Definition f0_1  : float := Eval vm_compute in literal 1 10.
Definition f0_15 : float := Eval vm_compute in literal 15 100.
Definition f0_65 : float := Eval vm_compute in literal 65 100.
Definition f0_8  : float := Eval vm_compute in literal 8 10.
Definition f0_9  : float := Eval vm_compute in literal 9 10.
Definition f1_05 : float := Eval vm_compute in literal 105 100.
Definition f1_1  : float := Eval vm_compute in literal 11 10.
Definition f1_15 : float := Eval vm_compute in literal 115 100.
Definition f1_5  : float := Eval vm_compute in literal 15 10.
Definition f100  : float := Eval vm_compute in literal 100 1.
Definition f0_6  : float := Eval vm_compute in literal 6 10.
Definition f0_82 : float := Eval vm_compute in literal 82 100.
Definition f0_85 : float := Eval vm_compute in literal 85 100.
Definition f0_95 : float := Eval vm_compute in literal 95 100.
Definition f1_0  : float := Eval vm_compute in literal 1 1.
Definition f1_2  : float := Eval vm_compute in literal 12 10.


(** ** The range on which the conversions are defined *)

(** [|n| < 2^k], the integers of at most [k] bits. *)
Definition fits (k : Z) (n : Z) : Prop := Z.abs n < 2 ^ k.

(** The shape of a rounded result. *)
Inductive rounded (s : bool) (bits : Z) : spec_float -> Prop :=
| rounded_zero : rounded s bits (S754_zero s)
| rounded_finite m e :
    e <= 971 -> Z.pos (digits2_pos m) + e <= bits -> rounded s bits (S754_finite s m e)
| rounded_infinity : 1022 < bits -> rounded s bits (S754_infinity s).

(** A positive float constant below [2^bits] whose exponent is negative. *)
Definition small_constant (bits : Z) (c : float) : Prop :=
  exists m e, c = S754_finite false m e /\ e <= -2
              /\ Z.pos (digits2_pos m) + e <= bits.

End PyFloat.

(* ===================================================================== *)
(** * Text *)
(* ===================================================================== *)

(** Python [str] values are modelled as UTF-8 byte strings.  The regular
    expressions of the source are compiled from [str] patterns, so their
    classes [\s] and [\d] are the Unicode ones, as are those of
    [str.strip] and [int]: the characters of a text are decoded from its
    bytes and classified by code point (the tables are those of Unicode
    14.0, the version of CPython 3.11).  [int] and [str] enforce CPython's
    limit of 4300 digits on conversions between [int] and [str].
    [str.lower], which the deterministic buyer applies before it looks
    for ASCII phrases, is modelled as far as such a search can tell. *)
Module Text.

Local Open Scope string_scope.

(** [str(n)] for an [int] of at most 4300 digits. *)
Definition str_of_int (n : Z) : string := NilZero.string_of_int (Z.to_int n).

(** [sys.int_info.default_max_str_digits], and the least [int] with more
    digits than that, [10 ** 4300]. *)
Definition max_str_digits : nat := 4300.

Definition int_str_limit : Z := Eval vm_compute in (10 ^ 4300)%Z.

(** Formatting the [int] fields [ns] of an f-string: [str] of an [int]
    of more than 4300 digits raises ValueError. *)
Definition format_ints (ns : list Z) : res unit :=
  if forallb (fun n => Z.abs n <? int_str_limit)%Z ns
  then Ok tt
  else Raise ValueError.

Definition lower_ascii (c : ascii) : ascii :=
  let n := nat_of_ascii c in
  if ((65 <=? n) && (n <=? 90))%nat then ascii_of_nat (n + 32) else c.

(** [s.lower()], as far as a search for an ASCII phrase can tell: the
    ASCII letters, and the two other characters whose lower case has an
    ASCII letter, U+0130 (lower case [i] and U+0307) and the Kelvin sign
    U+212A (lower case [k]).  The lower case of any other character has
    no ASCII character, and the character is left as it is. *)
Fixpoint lower (s : string) : string :=
  match s with
  | EmptyString => EmptyString
  | String c r =>
      match r with
      | String c2 r2 =>
          if Ascii.eqb c "196" && Ascii.eqb c2 "176"
          then String "i" (String "204" (String "135" (lower r2)))
          else
            match r2 with
            | String c3 r3 =>
                if Ascii.eqb c "226" && Ascii.eqb c2 "132"
                   && Ascii.eqb c3 "170"
                then String "k" (lower r3)
                else String (lower_ascii c) (lower r)
            | EmptyString => String (lower_ascii c) (lower r)
            end
      | EmptyString => String (lower_ascii c) (lower r)
      end
  end.

(** [s.startswith(p)], returning what follows the prefix. *)
Fixpoint strip_prefix (p s : string) : option string :=
  match p, s with
  | EmptyString, _ => Some s
  | String a p', String b s' =>
      if Ascii.eqb a b then strip_prefix p' s' else None
  | String _ _, EmptyString => None
  end.

(** [p in s]. *)
Fixpoint contains (p s : string) : bool :=
  match strip_prefix p s with
  | Some _ => true
  | None => match s with
            | EmptyString => false
            | String _ s' => contains p s'
            end
  end.

(** [sep.join(l)]. *)
Fixpoint join (sep : string) (l : list string) : string :=
  match l with
  | [] => EmptyString
  | [x] => x
  | x :: r => x ++ sep ++ join sep r
  end.

(** The payload of a UTF-8 continuation byte [10xxxxxx]. *)
Definition continuation (c : ascii) : option N :=
  let b := N_of_ascii c in
  if ((128 <=? b) && (b <? 192))%N then Some (b - 128)%N else None.

(** The characters of a text, each with its code point and its bytes.
    A byte that does not begin a well-formed UTF-8 sequence (which no
    encoded [str] contains) counts as a character of its own, with a
    code beyond the Unicode range, so that it belongs to no class. *)
Fixpoint chars (s : string) : list (N * string) :=
  match s with
  | EmptyString => []
  | String c1 r1 =>
      let b1 := N_of_ascii c1 in
      let single :=
        ((if b1 <? 128 then b1 else 0x110000 + b1)%N, String c1 EmptyString)
        :: chars r1 in
      if (b1 <? 0xC2)%N then single
      else
        match r1 with
        | EmptyString => single
        | String c2 r2 =>
            match continuation c2 with
            | None => single
            | Some x2 =>
                if (b1 <? 0xE0)%N
                then (((b1 - 0xC0) * 64 + x2)%N,
                      String c1 (String c2 EmptyString)) :: chars r2
                else
                  match r2 with
                  | EmptyString => single
                  | String c3 r3 =>
                      match continuation c3 with
                      | None => single
                      | Some x3 =>
                          if (b1 <? 0xF0)%N
                          then
                            let cp :=
                              ((b1 - 0xE0) * 4096 + x2 * 64 + x3)%N in
                            if (cp <? 0x800)%N then single
                            else (cp,
                                  String c1 (String c2 (String c3 EmptyString)))
                                 :: chars r3
                          else
                            match r3 with
                            | EmptyString => single
                            | String c4 r4 =>
                                match continuation c4 with
                                | None => single
                                | Some x4 =>
                                    let cp :=
                                      ((b1 - 0xF0) * 262144 + x2 * 4096
                                       + x3 * 64 + x4)%N in
                                    if ((0x10000 <=? cp) && (cp <? 0x110000))%N
                                    then (cp,
                                          String c1
                                            (String c2
                                               (String c3
                                                  (String c4 EmptyString))))
                                         :: chars r4
                                    else single
                                end
                            end
                      end
                  end
            end
        end
  end.

(** The text made of the characters [l]. *)
Definition text_of (l : list (N * string)) : string :=
  String.concat EmptyString (map snd l).

(** [str.isspace] of a character, which is also the class [\s]. *)
Definition is_space (cp : N) : bool :=
  (((0x09 <=? cp) && (cp <=? 0x0D)) || ((0x1C <=? cp) && (cp <=? 0x20))
   || (cp =? 0x85) || (cp =? 0xA0) || (cp =? 0x1680)
   || ((0x2000 <=? cp) && (cp <=? 0x200A))
   || (cp =? 0x2028) || (cp =? 0x2029) || (cp =? 0x202F)
   || (cp =? 0x205F) || (cp =? 0x3000))%N.

(** The code points of the digits zero of Unicode (category [Nd]); the
    nine characters after each are the digits one to nine. *)
Definition decimal_zeros : list N :=
  [0x30; 0x660; 0x6F0; 0x7C0; 0x966; 0x9E6; 0xA66; 0xAE6; 0xB66; 0xBE6;
   0xC66; 0xCE6; 0xD66; 0xDE6; 0xE50; 0xED0; 0xF20; 0x1040; 0x1090;
   0x17E0; 0x1810; 0x1946; 0x19D0; 0x1A80; 0x1A90; 0x1B50; 0x1BB0;
   0x1C40; 0x1C50; 0xA620; 0xA8D0; 0xA900; 0xA9D0; 0xA9F0; 0xAA50;
   0xABF0; 0xFF10; 0x104A0; 0x10D30; 0x11066; 0x110F0; 0x11136; 0x111D0;
   0x112F0; 0x11450; 0x114D0; 0x11650; 0x116C0; 0x11730; 0x118E0;
   0x11950; 0x11C50; 0x11D50; 0x11DA0; 0x16A60; 0x16AC0; 0x16B50;
   0x1D7CE; 0x1D7D8; 0x1D7E2; 0x1D7EC; 0x1D7F6; 0x1E140; 0x1E2F0;
   0x1E950; 0x1FBF0]%N.

(** The value of a decimal digit (the class [\d]), [None] for any other
    character. *)
Definition decimal_value (cp : N) : option Z :=
  match find (fun zero => (zero <=? cp) && (cp <? zero + 10))%N
             decimal_zeros with
  | Some zero => Some (Z.of_N (cp - zero))
  | None => None
  end.

Fixpoint lstrip_chars (l : list (N * string)) : list (N * string) :=
  match l with
  | (cp, bytes) :: r => if is_space cp then lstrip_chars r else l
  | [] => []
  end.

Definition rstrip_chars (l : list (N * string)) : list (N * string) :=
  rev (lstrip_chars (rev l)).

(** [s.strip()]. *)
Definition strip (s : string) : string :=
  text_of (rstrip_chars (lstrip_chars (chars s))).

(** The values of the longest run of decimal digits at the head of
    [l]. *)
Fixpoint read_digits (l : list (N * string)) : list Z :=
  match l with
  | (cp, bytes) :: r =>
      match decimal_value cp with
      | Some d => d :: read_digits r
      | None => []
      end
  | [] => []
  end.

(** [re.search(key + r"\s*(\d+)", text)]: the digits of the group, at
    the leftmost occurrence of [key] that is followed by optional white
    space and at least one digit. *)
Fixpoint search_digits (key text : string) : option (list Z) :=
  let here :=
    match strip_prefix key text with
    | Some after =>
        match read_digits (lstrip_chars (chars after)) with
        | [] => None
        | d :: ds => Some (d :: ds)
        end
    | None => None
    end in
  match here with
  | Some group => Some group
  | None => match text with
            | EmptyString => None
            | String _ r => search_digits key r
            end
  end.

(** [int(group)] for a group of decimal digits: ValueError when there
    are more than 4300 of them. *)
Definition int_of_digits (group : list Z) : res Z :=
  if (List.length group <=? max_str_digits)%nat
  then Ok (fold_left (fun acc d => 10 * acc + d)%Z group 0%Z)
  else Raise ValueError.

(** [m = re.search(key + r"\s*(\d+)", text)] followed, [if m], by
    [int(m.group(1))]. *)
Definition search_number (key text : string) : res (option Z) :=
  match search_digits key text with
  | Some group =>
      match int_of_digits group with
      | Ok n => Ok (Some n)
      | Raise e => Raise e
      end
  | None => Ok None
  end.

(** [re.search(key + r"\s*(.+)", text, re.DOTALL)] followed by
    [m.group(1).strip()]: the leftmost occurrence of [key] that is
    followed by at least one character; the group then runs to the end
    of the text (the greedy [\s*] gives a character back when only white
    space follows), and its [strip()] is the strip of everything after
    [key]. *)
Fixpoint search_rest (key text : string) : option string :=
  let here :=
    match strip_prefix key text with
    | Some (String c r) => Some (strip (String c r))
    | _ => None
    end in
  match here with
  | Some m => Some m
  | None => match text with
            | EmptyString => None
            | String _ r => search_rest key r
            end
  end.

End Text.

(* ===================================================================== *)
(** * The environment: ambient randomness and the chat service *)
(* ===================================================================== *)

(** What the chat service does for one call of a method of the
    chat-backed buyer: [import ollama] raises, or [ollama.chat] raises,
    or it returns a response whose [str(response)] is [text].  The text
    of the prompt is not modelled: the reply is chosen by the
    environment, and every statement below quantifies over all
    replies. *)
Inductive chat_reply : Type :=
| ImportRaises
| ChatRaises
| ChatReturns (text : string).

(** The world a session runs in: the draws of the global [random] module
    and the replies of the chat service, each with the number consumed. *)
Record World : Type := {
  random_draws : nat -> nat;
  draws_used : nat;
  chat_replies : nat -> chat_reply;
  chats_used : nat
}.

(** Computations that read the world and may raise. *)
Definition M (A : Type) : Type := World -> res (A * World).

Definition ret {A} (a : A) : M A := fun w => Ok (a, w).

Definition bind {A B} (c : M A) (k : A -> M B) : M B :=
  fun w => match c w with
           | Ok (a, w') => k a w'
           | Raise e => Raise e
           end.

Definition bind_res {A B} (c : res A) (k : A -> res B) : res B :=
  match c with
  | Ok a => k a
  | Raise e => Raise e
  end.

(** A computation that does not touch the world. *)
Definition lift {A} (c : res A) : M A :=
  fun w => match c with
           | Ok a => Ok (a, w)
           | Raise e => Raise e
           end.

Declare Scope py_scope.
Delimit Scope py_scope with py.
Notation "x <- c ;; k" := (bind c (fun x => k))
  (at level 61, c at next level, right associativity) : py_scope.
Notation "' p <- c ;; k" := (bind c (fun x => match x with p => k end))
  (at level 61, p pattern, c at next level, right associativity) : py_scope.
Notation "x <~ c ;; k" := (bind_res c (fun x => k))
  (at level 61, c at next level, right associativity) : py_scope.
Notation "' p <~ c ;; k" := (bind_res c (fun x => match x with p => k end))
  (at level 61, p pattern, c at next level, right associativity) : py_scope.
Local Open Scope py_scope.

(** [random.choice(x :: xs)]: one draw, reduced to an index. *)
Definition random_choice {A} (x : A) (xs : list A) : M A :=
  fun w =>
    let i := Nat.modulo (random_draws w (draws_used w)) (S (List.length xs)) in
    Ok (nth i (x :: xs) x,
        {| random_draws := random_draws w; draws_used := S (draws_used w);
           chat_replies := chat_replies w; chats_used := chats_used w |}).

(** [import ollama], the first statement of each method of the
    chat-backed buyer. *)
Definition import_ollama : M unit :=
  fun w =>
    match chat_replies w (chats_used w) with
    | ImportRaises => Raise ExternalServiceError
    | ChatRaises | ChatReturns _ => Ok (tt, w)
    end.

(** [str(ollama.chat(...))]. *)
Definition ollama_chat : M string :=
  fun w =>
    match chat_replies w (chats_used w) with
    | ImportRaises | ChatRaises => Raise ExternalServiceError
    | ChatReturns text =>
        Ok (text,
            {| random_draws := random_draws w; draws_used := draws_used w;
               chat_replies := chat_replies w; chats_used := S (chats_used w) |})
    end.

(* ===================================================================== *)
(** * PART 1: data structures *)
(* ===================================================================== *)

Record Product : Type := {
  name : string;
  category : string;
  quantity : Z;
  quality_grade : string;
  origin : string;
  base_market_price : Z;
  attributes : list (string * string)
}.

(** One entry of the conversation: [{"role": ..., "message": ...}]. *)
Record Message : Type := { role : string; message : string }.

Record NegotiationContext : Type := {
  product : Product;
  your_budget : Z;
  current_round : Z;
  seller_offers : list Z;
  your_offers : list Z;
  messages : list Message
}.

Inductive DealStatus : Type := ONGOING | ACCEPTED | REJECTED | TIMEOUT.

Definition DealStatus_eqb (a b : DealStatus) : bool :=
  match a, b with
  | ONGOING, ONGOING | ACCEPTED, ACCEPTED
  | REJECTED, REJECTED | TIMEOUT, TIMEOUT => true
  | _, _ => false
  end.

(* ===================================================================== *)
(** * PART 2: the buyer interface *)
(* ===================================================================== *)

(** The two decision methods of [BaseBuyerAgent]. *)
Record BaseBuyerAgent : Type := {
  generate_opening_offer : NegotiationContext -> M (Z * string);
  respond_to_seller_offer :
    NegotiationContext -> Z -> string -> M (DealStatus * Z * string)
}.

Definition rupees (n : Z) : string := ("₹" ++ Text.str_of_int n)%string.

(* ===================================================================== *)
(** * PART 3 of negotiation_agent_code_warriors.py: the deterministic buyer *)
(* ===================================================================== *)

Module NegotiationAgent.

Local Open Scope string_scope.
Local Open Scope Z_scope.

(** [anchor_opening_offer]: 65% of the market price, capped by the
    budget. *)
Definition anchor_opening_offer (context : NegotiationContext) : res Z :=
  anchor <~ PyFloat.int_mul_trunc (base_market_price (product context))
                                  PyFloat.f0_65 ;;
  Ok (Z.min anchor (your_budget context)).

(** [evaluate_batna]: at most 90% of the market price and within
    budget. *)
Definition evaluate_batna (context : NegotiationContext) (seller_price : Z)
  : res bool :=
  limit <~ PyFloat.int_mul (base_market_price (product context))
                           PyFloat.f0_9 ;;
  Ok (PyFloat.int_le seller_price limit
      && (seller_price <=? your_budget context)).

(** [concession_pattern]: the next counter-offer. *)
Definition concession_pattern (context : NegotiationContext) (seller_price : Z)
  : res Z :=
  let last_offer :=
    match your_offers context with
    | [] => your_budget context
    | _ :: _ => last (your_offers context) 0
    end in
  concession <~
    (if current_round context <? 3
     then PyFloat.int_mul_trunc seller_price PyFloat.f0_05
     else if current_round context <? 7
     then PyFloat.int_mul_trunc seller_price PyFloat.f0_1
     else PyFloat.int_mul_trunc seller_price PyFloat.f0_15) ;;
  let counter_offer := Z.min (last_offer + concession) (your_budget context) in
  Ok (Z.min counter_offer (seller_price - 1)).

Definition key_phrases : list string :=
  ["quality"; "market"; "best price"; "value"; "fair";
   "discount"; "offer"; "deal"; "partnership"].

(** [mirror_and_frame]: the text of a counter-offer; the only place
    where the ambient randomness is consulted. *)
Definition mirror_and_frame (seller_message : string) (counter_offer : Z)
  : M string :=
  let mirrored_phrases :=
    filter (fun phrase => Text.contains phrase (Text.lower seller_message))
           key_phrases in
  let mirrored :=
    match mirrored_phrases with
    | [] => EmptyString
    | _ :: _ => "I understand your focus on "
                ++ Text.join ", " mirrored_phrases ++ ". "
    end in
  random_choice
    (mirrored ++ "I believe " ++ rupees counter_offer
       ++ " reflects the true value considering all factors.")
    [mirrored ++ "My offer of " ++ rupees counter_offer
       ++ " is carefully calculated to benefit both parties.";
     mirrored ++ "Let's move forward with " ++ rupees counter_offer
       ++ " - a number that respects both market realities and our partnership."].

Definition generate_opening_offer (context : NegotiationContext)
  : M (Z * string) :=
  opening_price <- lift (anchor_opening_offer context) ;;
  ret (opening_price,
       "I'll begin with " ++ rupees opening_price ++ ". "
       ++ "It's a figure that respects the market, "
       ++ "yet leaves us room to grow this deal together.").

Definition respond_to_seller_offer (context : NegotiationContext)
    (seller_price : Z) (seller_message : string)
  : M (DealStatus * Z * string) :=
  batna <- lift (evaluate_batna context seller_price) ;;
  below <- lift (if batna
                 then limit <~ PyFloat.int_mul
                                 (base_market_price (product context))
                                 PyFloat.f0_9 ;;
                      Ok (PyFloat.int_le seller_price limit)
                 else Ok false) ;;
  if below
  then ret (ACCEPTED, seller_price,
            "Agreed. " ++ rupees seller_price
            ++ " is a wise foundation for partnership.")
  else
    counter_offer <- lift (concession_pattern context seller_price) ;;
    response_msg <- mirror_and_frame seller_message counter_offer ;;
    let response_msg :=
      if 8 <=? current_round context
      then response_msg
           ++ " Let us not lose time over what already feels inevitable."
      else response_msg in
    ret (ONGOING, counter_offer, response_msg).

Definition YourBuyerAgent : BaseBuyerAgent :=
  Build_BaseBuyerAgent generate_opening_offer respond_to_seller_offer.

End NegotiationAgent.

(* ===================================================================== *)
(** * PART 3 of buyer_agent_team_code_warriors.py: the buyer that consults
      the chat service *)
(* ===================================================================== *)

Module BuyerAgentTeam.

Local Open Scope string_scope.
Local Open Scope Z_scope.

(** The [int] fields of the two prompts. *)
Definition opening_prompt_fields (context : NegotiationContext) : list Z :=
  [base_market_price (product context); quantity (product context);
   your_budget context].

Definition response_prompt_fields (context : NegotiationContext)
    (seller_price : Z) : list Z :=
  [base_market_price (product context); quantity (product context);
   current_round context; seller_price] ++ your_offers context.

Definition generate_opening_offer (context : NegotiationContext)
  : M (Z * string) :=
  'tt <- import_ollama ;;
  'tt <- lift (Text.format_ints (opening_prompt_fields context)) ;;
  text <- ollama_chat ;;
  fallback <- lift (PyFloat.int_mul_trunc
                      (base_market_price (product context)) PyFloat.f0_8) ;;
  parsed <- lift (Text.search_number "offer_amount:" text) ;;
  let offer_amount :=
    match parsed with
    | Some n => Z.min n (your_budget context)
    | None => fallback
    end in
  let message :=
    match Text.search_rest "message:" text with
    | Some m => m
    | None => "Let's begin."
    end in
  ret (offer_amount, message).

Definition respond_to_seller_offer (context : NegotiationContext)
    (seller_price : Z) (seller_message : string)
  : M (DealStatus * Z * string) :=
  'tt <- import_ollama ;;
  'tt <- lift (Text.format_ints
                 (response_prompt_fields context seller_price)) ;;
  text <- ollama_chat ;;
  fallback <- lift (PyFloat.int_mul_trunc
                      (base_market_price (product context)) PyFloat.f0_9) ;;
  let market_price := base_market_price (product context) in
  (* Acceptance logic (strict early, flexible late) *)
  accept <- lift
    (if seller_price <=? your_budget context
     then if current_round context <? 8
          then limit <~ PyFloat.int_mul market_price PyFloat.f0_9 ;;
               Ok (PyFloat.int_le seller_price limit)
          else Ok (seller_price <=? market_price)
     else Ok false) ;;
  if accept
  then ret (ACCEPTED, seller_price,
            "Deal accepted at " ++ rupees seller_price
            ++ ". You’re lucky I’m closing now.")
  else
    (* Counter-offer extraction *)
    parsed <- lift (Text.search_number "counter_offer:" text) ;;
    let counter_offer :=
      match parsed with
      | Some n => Z.min n (your_budget context)
      | None => fallback
      end in
    let message :=
      match Text.search_rest "message:" text with
      | Some m => m
      | None => "I’ll consider my next move."
      end in
    (* Final fallback at round 10 *)
    if (10 <=? current_round context) && (seller_price <=? your_budget context)
    then ret (ACCEPTED, seller_price,
              "Fine, I’ll take " ++ rupees seller_price
              ++ ". Let’s close this now.")
    else ret (ONGOING, counter_offer, message).

Definition YourBuyerAgent : BaseBuyerAgent :=
  Build_BaseBuyerAgent generate_opening_offer respond_to_seller_offer.

End BuyerAgentTeam.

(* ===================================================================== *)
(** * PART 5: the mock seller and the driver (the same in both files) *)
(* ===================================================================== *)

Record MockSellerAgent : Type := {
  min_price : Z;
  personality : string
}.

Section Driver.

Local Open Scope string_scope.
Local Open Scope Z_scope.

(** [MockSellerAgent.get_opening_price]: 150% of the market price. *)
Definition get_opening_price (self : MockSellerAgent) (product : Product)
  : res (Z * string) :=
  price <~ PyFloat.int_mul_trunc (base_market_price product) PyFloat.f1_5 ;;
  Ok (price,
      "These are premium " ++ quality_grade product ++ " grade "
      ++ name product ++ ". I'm asking " ++ rupees price ++ ".").

(** [MockSellerAgent.respond_to_buyer]: (counter, message, accepted). *)
Definition respond_to_buyer (self : MockSellerAgent)
    (buyer_offer : Z) (round_num : Z) : res (Z * string * bool) :=
  threshold <~ PyFloat.int_mul (min_price self) PyFloat.f1_1 ;;
  if PyFloat.int_ge buyer_offer threshold
  then Ok (buyer_offer,
           "You have a deal at " ++ rupees buyer_offer ++ "!", true)
  else if 8 <=? round_num
  then grown <~ PyFloat.int_mul_trunc buyer_offer PyFloat.f1_05 ;;
       let counter := Z.max (min_price self) grown in
       Ok (counter,
           "Final offer: " ++ rupees counter ++ ". Take it or leave it.",
           false)
  else grown <~ PyFloat.int_mul_trunc buyer_offer PyFloat.f1_15 ;;
       let counter := Z.max (min_price self) grown in
       Ok (counter, "I can come down to " ++ rupees counter ++ ".", false).

(** The local variables of [run_negotiation_test] that live across the
    rounds. *)
Record Session : Type := {
  context : NegotiationContext;
  seller_price : Z;
  seller_msg : string;
  deal_made : bool;
  final_price : option Z
}.

Definition set_round (c : NegotiationContext) (r : Z) : NegotiationContext :=
  {| product := product c; your_budget := your_budget c; current_round := r;
     seller_offers := seller_offers c; your_offers := your_offers c;
     messages := messages c |}.

Definition append_buyer (c : NegotiationContext) (offer : Z) (msg : string)
  : NegotiationContext :=
  {| product := product c; your_budget := your_budget c;
     current_round := current_round c;
     seller_offers := seller_offers c;
     your_offers := your_offers c ++ [offer];
     messages := messages c ++ [{| role := "buyer"; message := msg |}] |}.

Definition append_seller_message (c : NegotiationContext) (msg : string)
  : NegotiationContext :=
  {| product := product c; your_budget := your_budget c;
     current_round := current_round c;
     seller_offers := seller_offers c;
     your_offers := your_offers c;
     messages := messages c ++ [{| role := "seller"; message := msg |}] |}.

Definition append_seller (c : NegotiationContext) (price : Z) (msg : string)
  : NegotiationContext :=
  {| product := product c; your_budget := your_budget c;
     current_round := current_round c;
     seller_offers := seller_offers c ++ [price];
     your_offers := your_offers c;
     messages := messages c ++ [{| role := "seller"; message := msg |}] |}.

Variable buyer_agent : BaseBuyerAgent.
Variable seller : MockSellerAgent.

(** The buyer's turn of a round: the opening offer in the first round,
    a response to the seller's latest price afterwards. *)
Definition buyer_turn (round_num : Z) (context : NegotiationContext)
    (s : Session) : M (DealStatus * Z * string) :=
  if round_num =? 0
  then '(buyer_offer, buyer_msg) <- generate_opening_offer buyer_agent context ;;
       ret (ONGOING, buyer_offer, buyer_msg)
  else respond_to_seller_offer buyer_agent context
         (seller_price s) (seller_msg s).

(** The session when the buyer has accepted the seller's price. *)
Definition buyer_accepted (context : NegotiationContext) (s : Session)
  : Session :=
  {| context := context;
     seller_price := seller_price s; seller_msg := seller_msg s;
     deal_made := true; final_price := Some (seller_price s) |}.

(** The session when the seller has accepted [buyer_offer]. *)
Definition seller_accepted (context : NegotiationContext)
    (buyer_offer seller_price' : Z) (seller_msg' : string) : Session :=
  {| context := append_seller_message context seller_msg';
     seller_price := seller_price'; seller_msg := seller_msg';
     deal_made := true; final_price := Some buyer_offer |}.

(** The session when the seller has countered. *)
Definition seller_countered (context : NegotiationContext) (s : Session)
    (seller_price' : Z) (seller_msg' : string) : Session :=
  {| context := append_seller context seller_price' seller_msg';
     seller_price := seller_price'; seller_msg := seller_msg';
     deal_made := deal_made s; final_price := final_price s |}.

(** The body of the [for] loop for one [round_num]; the boolean says
    whether the loop was left by [break]. *)
Definition round_body (round_num : Z) (s : Session) : M (Session * bool) :=
  let context := set_round (context s) (round_num + 1) in
  (* Buyer responds *)
  '(status, buyer_offer, buyer_msg) <- buyer_turn round_num context s ;;
  let context := append_buyer context buyer_offer buyer_msg in
  if DealStatus_eqb status ACCEPTED
  then ret (buyer_accepted context s, true)
  else
    (* Seller responds *)
    '(seller_price', seller_msg', seller_accepts) <-
      lift (respond_to_buyer seller buyer_offer round_num) ;;
    if (seller_accepts : bool)
    then ret (seller_accepted context buyer_offer seller_price' seller_msg',
              true)
    else ret (seller_countered context s seller_price' seller_msg', false).

(** [for round_num in rounds: ...]. *)
Fixpoint for_rounds (rounds : list Z) (s : Session) : M Session :=
  match rounds with
  | [] => ret s
  | round_num :: rest =>
      '(s', broke) <- round_body round_num s ;;
      if (broke : bool) then ret s' else for_rounds rest s'
  end.

End Driver.

(** [range(n)]. *)
Definition range (n : nat) : list Z := map Z.of_nat (seq 0 n).

(** A Python number that is an [int] or a [float]. *)
Inductive pynum : Type :=
| PyInt (n : Z)
| PyFloatNum (x : PyFloat.float).

(** The dictionary returned by [run_negotiation_test]. *)
Record Result : Type := {
  r_deal_made : bool;
  r_final_price : option Z;
  r_rounds : Z;
  r_savings : Z;
  r_savings_pct : pynum;
  r_below_market_pct : pynum;
  r_conversation : list Message
}.

Section RunNegotiationTest.

Local Open Scope string_scope.
Local Open Scope Z_scope.

Variable buyer_agent : BaseBuyerAgent.
Variable product : Product.
Variable buyer_budget : Z.
Variable seller_min : Z.

Definition the_seller : MockSellerAgent :=
  {| min_price := seller_min; personality := "standard" |}.

(** The session before the loop: fresh context, seller's opening price
    recorded. *)
Definition open_session : res Session :=
  '(seller_price, seller_msg) <~ get_opening_price the_seller product ;;
  Ok {| context :=
          Build_NegotiationContext product buyer_budget 0
            [seller_price] []
            [{| role := "seller"; message := seller_msg |}];
        seller_price := seller_price; seller_msg := seller_msg;
        deal_made := false; final_price := None |}.

(** The session after the rounds [rounds] (the driver runs [range 10]). *)
Definition negotiate (rounds : list Z) : M Session :=
  s <- lift open_session ;;
  for_rounds buyer_agent the_seller rounds s.

(** [(a - b) / a * 100]. *)
Definition percentage (a b : Z) : res pynum :=
  q <~ PyFloat.int_truediv (a - b) a ;;
  Ok (PyFloatNum (PyFloat.fmul q PyFloat.f100)).

(** The result dictionary computed from the final session.  The three
    arithmetic entries are evaluated only [if deal_made]; with
    [final_price] still [None] the subtraction would raise TypeError. *)
Definition summary (s : Session) : res Result :=
  if deal_made s
  then match final_price s with
       | Some price =>
           savings_pct <~ percentage buyer_budget price ;;
           below_market_pct <~ percentage (base_market_price product) price ;;
           Ok {| r_deal_made := true; r_final_price := Some price;
                 r_rounds := current_round (context s);
                 r_savings := buyer_budget - price;
                 r_savings_pct := savings_pct;
                 r_below_market_pct := below_market_pct;
                 r_conversation := messages (context s) |}
       | None => Raise TypeError
       end
  else Ok {| r_deal_made := false; r_final_price := final_price s;
             r_rounds := current_round (context s);
             r_savings := 0;
             r_savings_pct := PyInt 0;
             r_below_market_pct := PyInt 0;
             r_conversation := messages (context s) |}.

Definition run_negotiation_test : M Result :=
  s <- negotiate (range 10) ;;
  lift (summary s).

End RunNegotiationTest.

(* ===================================================================== *)
(** * The driver: one round as a step relation *)
(* ===================================================================== *)

Section RoundStep.

Variable buyer_agent : BaseBuyerAgent.
Variable seller : MockSellerAgent.

(** The three ways a round ends without an exception. *)
Inductive round_step (round_num : Z) (s : Session) (w : World)
  : Session -> bool -> World -> Prop :=
| BuyerAccepts : forall buyer_offer buyer_msg w',
    buyer_turn buyer_agent round_num
      (set_round (context s) (round_num + 1)) s w
      = Ok (ACCEPTED, buyer_offer, buyer_msg, w') ->
    round_step round_num s w
      (buyer_accepted
         (append_buyer (set_round (context s) (round_num + 1))
                       buyer_offer buyer_msg) s)
      true w'
| SellerAccepts : forall status buyer_offer buyer_msg w' price msg,
    buyer_turn buyer_agent round_num
      (set_round (context s) (round_num + 1)) s w
      = Ok (status, buyer_offer, buyer_msg, w') ->
    status <> ACCEPTED ->
    respond_to_buyer seller buyer_offer round_num = Ok (price, msg, true) ->
    round_step round_num s w
      (seller_accepted
         (append_buyer (set_round (context s) (round_num + 1))
                       buyer_offer buyer_msg)
         buyer_offer price msg)
      true w'
| SellerCounters : forall status buyer_offer buyer_msg w' price msg,
    buyer_turn buyer_agent round_num
      (set_round (context s) (round_num + 1)) s w
      = Ok (status, buyer_offer, buyer_msg, w') ->
    status <> ACCEPTED ->
    respond_to_buyer seller buyer_offer round_num = Ok (price, msg, false) ->
    round_step round_num s w
      (seller_countered
         (append_buyer (set_round (context s) (round_num + 1))
                       buyer_offer buyer_msg)
         s price msg)
      false w'.

End RoundStep.

(* ===================================================================== *)
(** * The helper methods of the deterministic buyer that no decision uses *)
(* ===================================================================== *)

Module NegotiationAgentHelpers.

Local Open Scope string_scope.
Local Open Scope Z_scope.

(** The dictionary returned by [analyze_negotiation_progress]. *)
Record Progress : Type := {
  seller_trend : Z;
  your_trend : Z;
  gap_closed : pynum;
  rounds_remaining : Z
}.

(** [l[-1] - l[0] if len(l) > 1 else 0]. *)
Definition trend (l : list Z) : Z :=
  if (1 <? List.length l)%nat then last l 0 - hd 0 l else 0.

(** [analyze_negotiation_progress]: [None] is the empty dictionary. *)
Definition analyze_negotiation_progress (context : NegotiationContext)
  : res (option Progress) :=
  match seller_offers context, your_offers context with
  | [], _ => Ok None
  | _ :: _, [] => Ok None
  | first :: _, _ :: _ =>
      let seller_trend := trend (seller_offers context) in
      let your_trend := trend (your_offers context) in
      gap_closed <~ percentage first (last (seller_offers context) 0) ;;
      Ok (Some {| seller_trend := seller_trend;
                  your_trend := your_trend;
                  gap_closed := gap_closed;
                  rounds_remaining := 10 - current_round context |})
  end.

(** [{'A': 1.0, 'B': 0.85, 'Export': 1.15}.get(quality_grade, 1.0)]. *)
Definition quality_multiplier (quality_grade : string) : PyFloat.float :=
  if String.eqb quality_grade "A" then PyFloat.f1_0
  else if String.eqb quality_grade "B" then PyFloat.f0_85
  else if String.eqb quality_grade "Export" then PyFloat.f1_15
  else PyFloat.f1_0.

(** [calculate_fair_price]:
    [int(base_price * quality_multiplier * quantity_discount)]. *)
Definition calculate_fair_price (product : Product) : res Z :=
  let base_price := base_market_price product in
  let quality_multiplier := quality_multiplier (quality_grade product) in
  let quantity_discount :=
    if 100 <? quantity product then PyFloat.f0_95 else PyFloat.f1_0 in
  graded <~ PyFloat.int_mul base_price quality_multiplier ;;
  PyFloat.to_int (PyFloat.fmul graded quantity_discount).

End NegotiationAgentHelpers.

(* ===================================================================== *)
(** * PART 4 of negotiation_agent_code_warriors.py: the example agent *)
(* ===================================================================== *)

Module ExampleAgent.

Local Open Scope string_scope.
Local Open Scope Z_scope.

Definition generate_opening_offer (context : NegotiationContext)
  : M (Z * string) :=
  (* Start at 60% of market price *)
  opening <- lift (PyFloat.int_mul_trunc (base_market_price (product context))
                                         PyFloat.f0_6) ;;
  let opening := Z.min opening (your_budget context) in
  ret (opening,
       "I'm interested, but " ++ rupees opening
       ++ " is what I can offer. Let me think about that...").

Definition respond_to_seller_offer (context : NegotiationContext)
    (seller_price : Z) (seller_message : string)
  : M (DealStatus * Z * string) :=
  (* Accept if within budget and below 85% of market *)
  accept <- lift
    (if seller_price <=? your_budget context
     then limit <~ PyFloat.int_mul (base_market_price (product context))
                                   PyFloat.f0_85 ;;
          Ok (PyFloat.int_le seller_price limit)
     else Ok false) ;;
  if accept
  then ret (ACCEPTED, seller_price,
            "Alright, " ++ rupees seller_price ++ " works for me!")
  else
    (* Counter with small increment *)
    let last_offer :=
      match your_offers context with
      | [] => 0
      | _ :: _ => last (your_offers context) 0
      end in
    grown <- lift (PyFloat.int_mul_trunc last_offer PyFloat.f1_1) ;;
    let counter := Z.min grown (your_budget context) in
    close <- lift (limit <~ PyFloat.int_mul seller_price PyFloat.f0_95 ;;
                   Ok (PyFloat.int_ge counter limit)) ;;
    if close
    then (* Close to agreement *)
      let counter := Z.min (seller_price - 1000) (your_budget context) in
      ret (ONGOING, counter,
           "That's a bit steep for me. How about " ++ rupees counter ++ "?")
    else
      ret (ONGOING, counter,
           "I can go up to " ++ rupees counter
           ++ ", but that's pushing my budget.").

Definition ExampleSimpleAgent : BaseBuyerAgent :=
  Build_BaseBuyerAgent generate_opening_offer respond_to_seller_offer.

End ExampleAgent.

(* ===================================================================== *)
(** * Vocabulary of the properties *)
(* ===================================================================== *)

(** No buyer offer recorded in the session and no agreed price exceeds
    [budget]. *)
Definition within_budget (budget : Z) (s : Session) : Prop :=
  Forall (fun offer => offer <= budget) (your_offers (context s))
  /\ forall price, final_price s = Some price -> price <= budget.

(** The result of a session that ran out of rounds. *)
Definition timeout_result (rounds : Z) (conversation : list Message) : Result :=
  {| r_deal_made := false; r_final_price := None; r_rounds := rounds;
     r_savings := 0; r_savings_pct := PyInt 0; r_below_market_pct := PyInt 0;
     r_conversation := conversation |}.

(** "At most 90% of the market price": the comparison
    [seller_price <= base_market_price * 0.9] of the source, evaluated in
    binary64. *)
Definition at_most_90_percent (market_price seller_price : Z) : Prop :=
  exists limit,
    PyFloat.int_mul market_price PyFloat.f0_9 = Ok limit
    /\ PyFloat.int_le seller_price limit = true.

(** The graduated threshold as the specification words it: at most 90% of
    the market price in early rounds, at most 100% in late rounds (from
    round 8). *)
Definition meets_graduated_threshold (context : NegotiationContext)
    (seller_price : Z) : Prop :=
  if current_round context <? 8
  then at_most_90_percent (base_market_price (product context)) seller_price
  else seller_price <= base_market_price (product context).

(** The counter-offer and the message the chat-backed buyer takes from a
    reply [text], with their local fallbacks. *)
Definition counter_from_reply (parsed : option Z) (budget fallback : Z) : Z :=
  match parsed with
  | Some n => Z.min n budget
  | None => fallback
  end.

Definition message_from_reply (text : string) (fallback : string) : string :=
  match Text.search_rest "message:" text with
  | Some m => m
  | None => fallback
  end.

(** An [int] that [str] can print: one of at most 4300 digits. *)
Definition printable (n : Z) : Prop := Z.abs n < Text.int_str_limit.

(** The numbers shown in the prompt of [generate_opening_offer], and in
    that of [respond_to_seller_offer], can be printed. *)
Definition printable_opening (context : NegotiationContext) : Prop :=
  printable (base_market_price (product context))
  /\ printable (quantity (product context))
  /\ printable (your_budget context).

Definition printable_response (context : NegotiationContext)
    (seller_price : Z) : Prop :=
  printable (base_market_price (product context))
  /\ printable (quantity (product context))
  /\ printable (current_round context)
  /\ printable seller_price
  /\ Forall printable (your_offers context).

(** Acceptance correctness as the specification states it: a strategy
    returns ACCEPTED only for a price within budget that meets the
    graduated threshold. *)
Definition accepts_only_below_threshold
    (respond : NegotiationContext -> Z -> string -> M (DealStatus * Z * string))
  : Prop :=
  forall context seller_price seller_message w counter msg w',
    respond context seller_price seller_message w
      = Ok (ACCEPTED, counter, msg, w') ->
    seller_price <= your_budget context
    /\ meets_graduated_threshold context seller_price.

(** The counter-offer bounds as the specification states them: an ONGOING
    answer carries a positive counter within budget and below the price
    countered. *)
Definition counters_within_bounds
    (respond : NegotiationContext -> Z -> string -> M (DealStatus * Z * string))
  : Prop :=
  forall context seller_price seller_message w counter msg w',
    respond context seller_price seller_message w
      = Ok (ONGOING, counter, msg, w') ->
    0 < counter /\ counter <= your_budget context /\ counter < seller_price.

(** The final-round fallback as the specification states it: in round 10
    an affordable price is accepted. *)
Definition accepts_affordable_final_offer
    (respond : NegotiationContext -> Z -> string -> M (DealStatus * Z * string))
  : Prop :=
  forall context seller_price seller_message w status counter msg w',
    current_round context = 10 ->
    seller_price <= your_budget context ->
    respond context seller_price seller_message w
      = Ok (status, counter, msg, w') ->
    status = ACCEPTED.

(** The seller's growth factor for the [round_num] it is given: 1.15,
    and 1.05 from [round_num = 8] on. *)
Definition growth_factor (round_num : Z) : PyFloat.float :=
  if 8 <=? round_num then PyFloat.f1_05 else PyFloat.f1_15.

(** Two computations end alike: both raise the same exception, or both
    return, with values related by [R]. *)
Definition res_rel {A B} (R : A -> B -> Prop) (r1 : res A) (r2 : res B)
  : Prop :=
  match r1, r2 with
  | Ok a, Ok b => R a b
  | Raise e1, Raise e2 => e1 = e2
  | _, _ => False
  end.

(** Two contexts that agree on everything but the texts exchanged. *)
Definition same_numbers (c1 c2 : NegotiationContext) : Prop :=
  product c1 = product c2
  /\ your_budget c1 = your_budget c2
  /\ current_round c1 = current_round c2
  /\ seller_offers c1 = seller_offers c2
  /\ your_offers c1 = your_offers c2.

(** Two sessions that agree on everything but the texts exchanged. *)
Definition same_prices (s1 s2 : Session) : Prop :=
  same_numbers (context s1) (context s2)
  /\ seller_price s1 = seller_price s2
  /\ deal_made s1 = deal_made s2
  /\ final_price s1 = final_price s2.

(** The numeric entries of the result dictionary. *)
Record Outcome : Type := {
  o_deal_made : bool;
  o_final_price : option Z;
  o_rounds : Z;
  o_savings : Z;
  o_savings_pct : pynum;
  o_below_market_pct : pynum
}.

Definition outcome_of (r : Result) : Outcome :=
  {| o_deal_made := r_deal_made r; o_final_price := r_final_price r;
     o_rounds := r_rounds r; o_savings := r_savings r;
     o_savings_pct := r_savings_pct r;
     o_below_market_pct := r_below_market_pct r |}.

(** What an observer of the numbers sees of a run: the numeric entries of
    the result, or the exception raised. *)
Definition outcome (r : res (Result * World)) : res Outcome :=
  match r with
  | Ok (result, _) => Ok (outcome_of result)
  | Raise e => Raise e
  end.

(** The numbers of a session have at most [k] bits, its budget, market
    price and seller floor at most 700, and a deal has a final price. *)
Definition bounded_session (seller : MockSellerAgent) (k : Z) (s : Session)
  : Prop :=
  PyFloat.fits 700 (base_market_price (product (context s)))
  /\ PyFloat.fits 700 (your_budget (context s))
  /\ PyFloat.fits 700 (min_price seller)
  /\ PyFloat.fits k (seller_price s)
  /\ Forall (PyFloat.fits k) (your_offers (context s))
  /\ (deal_made s = true ->
      exists price, final_price s = Some price /\ PyFloat.fits k price).

(** Configuration validation as the specification states it: a session
    whose budget or market price is not positive yields no result
    record. *)
Definition rejects_invalid_configuration (buyer_agent : BaseBuyerAgent)
  : Prop :=
  forall item buyer_budget seller_min w r w',
    buyer_budget <= 0 \/ base_market_price item <= 0 ->
    run_negotiation_test buyer_agent item buyer_budget seller_min w
      <> Ok (r, w').

(** The Alphonso product of [test_your_agent]. *)
Definition alphonso : Product :=
  {| name := "Alphonso Mangoes"; category := "Mangoes"; quantity := 100;
     quality_grade := "A"; origin := "Ratnagiri"; base_market_price := 180000;
     attributes := [("ripeness", "optimal"); ("export_grade", "True")]%string |}.

(** A context of round [round] on the Alphonso product, with the buyer's
    earlier offers [offers].  The seller's offers and the messages, which
    no decision of the strategies reads, are left empty. *)
Definition alphonso_context (budget round : Z) (offers : list Z)
  : NegotiationContext :=
  {| product := alphonso; your_budget := budget; current_round := round;
     seller_offers := []; your_offers := offers; messages := [] |}.

(** A world whose random draws are all [draw] and whose chat service
    always answers [reply]. *)
Definition constant_world (draw : nat) (reply : chat_reply) : World :=
  {| random_draws := fun _ => draw; draws_used := 0;
     chat_replies := fun _ => reply; chats_used := 0 |}.

(** A world without a reachable chat service. *)
Definition offline_world : World := constant_world 0 ChatRaises.

(* ===================================================================== *)
(** * PART 6: the test harness *)
(* ===================================================================== *)

(** The second product of [test_your_agent] (the first is [alphonso]). *)
Definition kesar : Product :=
  {| name := "Kesar Mangoes"; category := "Mangoes"; quantity := 150;
     quality_grade := "B"; origin := "Gujarat"; base_market_price := 150000;
     attributes := [("ripeness", "semi-ripe"); ("export_grade", "False")]%string |}.

Section TestYourAgent.

Local Open Scope string_scope.
Local Open Scope Z_scope.

Variable your_agent : BaseBuyerAgent.

(** The budget and the seller's floor of a scenario:
    [(buyer_budget, seller_min)]. *)
Definition scenario_parameters (scenario : string) (product : Product)
  : res (Z * Z) :=
  let price := base_market_price product in
  if String.eqb scenario "easy"
  then buyer_budget <~ PyFloat.int_mul_trunc price PyFloat.f1_2 ;;
       seller_min <~ PyFloat.int_mul_trunc price PyFloat.f0_8 ;;
       Ok (buyer_budget, seller_min)
  else if String.eqb scenario "medium"
  then buyer_budget <~ PyFloat.int_mul_trunc price PyFloat.f1_0 ;;
       seller_min <~ PyFloat.int_mul_trunc price PyFloat.f0_85 ;;
       Ok (buyer_budget, seller_min)
  else buyer_budget <~ PyFloat.int_mul_trunc price PyFloat.f0_9 ;;
       seller_min <~ PyFloat.int_mul_trunc price PyFloat.f0_82 ;;
       Ok (buyer_budget, seller_min).

(** The body of the inner loop, on the two counters
    [(total_savings, deals_made)].  What the function prints is not
    modelled. *)
Definition test_scenario (product : Product) (scenario : string)
    (totals : Z * Z) : M (Z * Z) :=
  '(buyer_budget, seller_min) <- lift (scenario_parameters scenario product) ;;
  result <- run_negotiation_test your_agent product buyer_budget seller_min ;;
  let '(total_savings, deals_made) := totals in
  if r_deal_made result
  then ret (total_savings + r_savings result, deals_made + 1)
  else ret (total_savings, deals_made).

(** [for scenario in scenarios: ...]. *)
Fixpoint for_scenarios (product : Product) (scenarios : list string)
    (totals : Z * Z) : M (Z * Z) :=
  match scenarios with
  | [] => ret totals
  | scenario :: rest =>
      totals' <- test_scenario product scenario totals ;;
      for_scenarios product rest totals'
  end.

(** [for product in products: for scenario in ["easy", "medium", "hard"]]. *)
Fixpoint for_products (products : list Product) (totals : Z * Z)
  : M (Z * Z) :=
  match products with
  | [] => ret totals
  | product :: rest =>
      totals' <- for_scenarios product ["easy"; "medium"; "hard"] totals ;;
      for_products rest totals'
  end.

Definition test_products : list Product := [alphonso; kesar].

(** [test_your_agent], returning [(total_savings, deals_made)]. *)
Definition test_your_agent : M (Z * Z) := for_products test_products (0, 0).

End TestYourAgent.

(* ===================================================================== *)
(** * Vocabulary of the further properties *)
(* ===================================================================== *)

(** ** The values of floats *)

(** Every finite binary64 number is an integer multiple of [2^-1074];
    [quanta x] is that integer: [x = quanta x / 2^1074]. *)
Definition quanta (x : PyFloat.float) : Z :=
  match x with
  | S754_finite s m e => (if s then Z.neg m else Z.pos m) * 2 ^ (e + 1074)
  | _ => 0
  end.

(** The non-negative finite binary64 numbers. *)
Definition nonneg_finite (x : PyFloat.float) : Prop :=
  match x with
  | S754_zero false => True
  | S754_finite false m e => Z.pos m < 2 ^ 53 /\ -1074 <= e
  | _ => False
  end.

(** A positive literal [c] with a non-positive exponent is the fraction
    [num c / den c]. *)
Definition num (c : PyFloat.float) : Z :=
  match c with
  | S754_finite false m _ => Z.pos m
  | _ => 0
  end.

Definition den (c : PyFloat.float) : Z :=
  match c with
  | S754_finite _ _ e => 2 ^ (- e)
  | _ => 1
  end.

Definition literal_constant (c : PyFloat.float) : Prop :=
  exists m e, c = S754_finite false m e /\ Z.pos m < 2 ^ 53 /\ -60 <= e <= 0.

(** ** Sessions *)

(** [n] roles in turn, beginning with [first]. *)
Fixpoint alternating (first second : string) (n : nat) : list string :=
  match n with
  | O => []
  | S n' => first :: alternating second first n'
  end.

(** The session after [j] rounds none of which closed the deal. *)
Record ongoing (item : Product) (budget : Z) (seller : MockSellerAgent)
    (j : nat) (s : Session) : Prop := {
  ongoing_product : product (context s) = item;
  ongoing_budget : your_budget (context s) = budget;
  ongoing_round : current_round (context s) = Z.of_nat j;
  ongoing_your_offers : List.length (your_offers (context s)) = j;
  ongoing_seller_offers : List.length (seller_offers (context s)) = S j;
  ongoing_opening :
    exists msg,
      get_opening_price seller item
        = Ok (hd 0 (seller_offers (context s)), msg);
  ongoing_roles :
    map role (messages (context s))
      = alternating "seller" "buyer" (2 * j + 1);
  ongoing_seller_price :
    seller_price s = last (seller_offers (context s)) 0;
  ongoing_floor :
    Forall (fun price => min_price seller <= price)
           (tl (seller_offers (context s)));
  ongoing_no_deal : deal_made s = false;
  ongoing_no_price : final_price s = None
}.

(** A buyer that never offers more than its budget and accepts no price
    above it. *)
Definition respects_budget (agent : BaseBuyerAgent) : Prop :=
  (forall context w offer msg w',
     generate_opening_offer agent context w = Ok (offer, msg, w') ->
     offer <= your_budget context)
  /\ (forall context seller_price seller_message w status offer msg w',
        respond_to_seller_offer agent context seller_price seller_message w
          = Ok (status, offer, msg, w') ->
        offer <= your_budget context
        /\ (status = ACCEPTED -> seller_price <= your_budget context)).

(** The same for the contexts of one product and one budget. *)
Definition respects_budget_of (item : Product) (budget : Z)
    (agent : BaseBuyerAgent) : Prop :=
  (forall context w offer msg w',
     product context = item -> your_budget context = budget ->
     generate_opening_offer agent context w = Ok (offer, msg, w') ->
     offer <= budget)
  /\ (forall context seller_price seller_message w status offer msg w',
        product context = item -> your_budget context = budget ->
        respond_to_seller_offer agent context seller_price seller_message w
          = Ok (status, offer, msg, w') ->
        offer <= budget
        /\ (status = ACCEPTED -> seller_price <= budget)).

(** [l] is non-decreasing. *)
Fixpoint nondecreasing (l : list Z) : Prop :=
  match l with
  | [] => True
  | a :: rest =>
      match rest with
      | [] => True
      | b :: _ => a <= b /\ nondecreasing rest
      end
  end.

(** ** The fair price *)

(** The percentages [calculate_fair_price] applies: 85 for grade "B", 115
    for "Export", 100 for "A" and for every other grade; 95 for more than
    100 units. *)
Definition grade_percent (quality_grade : string) : Z :=
  if String.eqb quality_grade "B" then 85
  else if String.eqb quality_grade "Export" then 115
  else 100.

Definition quantity_percent (quantity : Z) : Z :=
  if 100 <? quantity then 95 else 100.

(* ===================================================================== *)
(** * The models of floats and text on concrete values *)
(* ===================================================================== *)

(** [0.65] is [0x1.4cccccccccccdp-1] and [1.1] is [0x1.199999999999ap+0]. *)
Example literal_0_65 :
  PyFloat.f0_65 = S754_finite false 0x14cccccccccccd (-53).
Proof. reflexivity. Qed.

Example literal_1_1 :
  PyFloat.f1_1 = S754_finite false 0x1199999999999a (-52).
Proof. reflexivity. Qed.

(** [int(180000 * 0.65) = 117000], [int(117000 * 1.15) = 134550] and
    [int(-7 * 0.65) = -4] (truncation toward zero). *)
Example int_mul_trunc_values :
  PyFloat.int_mul_trunc 180000 PyFloat.f0_65 = Ok 117000
  /\ PyFloat.int_mul_trunc 117000 PyFloat.f1_15 = Ok 134550
  /\ PyFloat.int_mul_trunc (-7) PyFloat.f0_65 = Ok (-4).
Proof. repeat split; vm_compute; reflexivity. Qed.

(** [158400 >= 144000 * 1.1] holds: the product is exactly 158400.0. *)
Example seller_threshold_of_144000 :
  exists threshold,
    PyFloat.int_mul 144000 PyFloat.f1_1 = Ok threshold
    /\ PyFloat.int_ge 158400 threshold = true
    /\ PyFloat.int_ge 158399 threshold = false.
Proof. eexists. repeat split; vm_compute; reflexivity. Qed.

(** [1 / 3] is [0x1.5555555555555p-2]; [1 / 0] raises; [2**1024 * 0.9]
    raises, since the integer is too large for a float. *)
Example int_truediv_values :
  PyFloat.int_truediv 1 3 = Ok (S754_finite false 0x15555555555555 (-54))
  /\ PyFloat.int_truediv 1 0 = Raise ZeroDivisionError
  /\ PyFloat.int_mul (2 ^ 1024) PyFloat.f0_9 = Raise OverflowError.
Proof. repeat split; vm_compute; reflexivity. Qed.

(** The searches on a reply of the chat service: white space and digits
    of any script are read as [re] and [int] read them, and a number of
    more than 4300 digits raises. *)
Example search_in_reply :
  let text := "deal_status: ONGOING counter_offer:  0150000 rupees message:  Hurry up.  "%string in
  Text.search_number "counter_offer:" text = Ok (Some 150000)
  /\ Text.search_rest "message:" text = Some "Hurry up."%string
  /\ Text.search_number "offer_amount:" text = Ok None
  /\ Text.search_number "counter_offer:" "counter_offer: -5"%string = Ok None
  /\ Text.search_number "counter_offer:" "counter_offer: 12٣"%string
     = Ok (Some 123)
  /\ Text.search_number "offer_amount:" "offer_amount: ١٢٣"%string
     = Ok (Some 123)
  /\ Text.search_rest "message:" "message: 　Hm. 　"%string
     = Some "Hm."%string
  /\ Text.search_number "counter_offer:"
       ("counter_offer: "
        ++ string_of_list_ascii (repeat "1"%char 4301))%string
     = Raise ValueError
  /\ Text.search_number "counter_offer:"
       ("counter_offer: "
        ++ string_of_list_ascii (repeat "0"%char 4299) ++ "7")%string
     = Ok (Some 7).
Proof. repeat split; vm_compute; reflexivity. Qed.

(* ===================================================================== *)
(** * Facts about the float model *)
(* ===================================================================== *)

Module PyFloatFacts.

Lemma digits2_pos_size p : digits2_pos p = Pos.size p.
Proof. induction p; simpl; congruence. Qed.

Lemma Zdigits2_log2 m : 0 < m -> Zdigits2 m = Z.log2 m + 1.
Proof.
  destruct m as [|p|p]; try lia. intros _. simpl.
  rewrite digits2_pos_size. destruct p; simpl; lia.
Qed.

Lemma Zdigits2_nonneg m : 0 <= Zdigits2 m.
Proof. destruct m; simpl; lia. Qed.

Lemma Zdigits2_lt_pow m k : 0 <= k -> 0 <= m < 2 ^ k -> Zdigits2 m <= k.
Proof.
  intros Hk [H0 H]. destruct (Z.eq_dec m 0) as [->|Hm]; [simpl; lia|].
  rewrite Zdigits2_log2 by lia.
  assert (Z.log2 m < k) by (apply Z.log2_lt_pow2; lia). lia.
Qed.

Lemma Zdigits2_gt m : 0 <= m -> m < 2 ^ Zdigits2 m.
Proof.
  intros H. destruct (Z.eq_dec m 0) as [->|Hm]; [simpl; lia|].
  rewrite Zdigits2_log2 by lia.
  apply Z.log2_spec. lia.
Qed.

Lemma Zdigits2_div_pow2 m n :
  0 <= m -> 0 <= n -> Zdigits2 (m / 2 ^ n) <= Z.max 0 (Zdigits2 m - n).
Proof.
  intros Hm Hn.
  destruct (Z_lt_le_dec (Zdigits2 m) n) as [Hlt|Hge].
  - assert (m / 2 ^ n = 0) as ->.
    { apply Z.div_small. split; [lia|].
      eapply Z.lt_le_trans; [apply Zdigits2_gt; lia|].
      apply Z.pow_le_mono_r; lia. }
    simpl. lia.
  - apply Z.le_trans with (Zdigits2 m - n); [|lia].
    apply Zdigits2_lt_pow; [lia|]. split.
    + apply Z.div_pos; [lia|]. apply Z.pow_pos_nonneg; lia.
    + apply Z.div_lt_upper_bound; [apply Z.pow_pos_nonneg; lia|].
      rewrite <- Z.pow_add_r by lia.
      replace (n + (Zdigits2 m - n)) with (Zdigits2 m) by lia.
      apply Zdigits2_gt; lia.
Qed.

Lemma Zdigits2_succ m : 0 <= m -> Zdigits2 (m + 1) <= Zdigits2 m + 1.
Proof.
  intros H. apply Zdigits2_lt_pow; [pose proof (Zdigits2_nonneg m); lia|].
  split; [lia|]. rewrite Z.pow_add_r by (pose proof (Zdigits2_nonneg m); lia).
  pose proof (Zdigits2_gt m H). lia.
Qed.

Lemma Zdigits2_mul a b : 0 <= a -> 0 <= b -> Zdigits2 (a * b) <= Zdigits2 a + Zdigits2 b.
Proof.
  intros Ha Hb. pose proof (Zdigits2_nonneg a). pose proof (Zdigits2_nonneg b).
  apply Zdigits2_lt_pow; [lia|]. split; [nia|].
  rewrite Z.pow_add_r by lia.
  pose proof (Zdigits2_gt a Ha). pose proof (Zdigits2_gt b Hb). nia.
Qed.

Lemma shr_1_m r : 0 <= shr_m r -> shr_m (shr_1 r) = shr_m r / 2.
Proof.
  destruct r as [m rr ss]. simpl. intros H.
  destruct m as [|p|p]; try lia; try reflexivity.
  destruct p; simpl; try reflexivity.
  - rewrite Pos2Z.inj_xI. apply Z.div_unique with 1; lia.
  - rewrite Pos2Z.inj_xO. apply Z.div_unique with 0; lia.
Qed.

Lemma iter_pos_shr_1_m p : forall r,
  0 <= shr_m r -> shr_m (iter_pos shr_1 p r) = shr_m r / 2 ^ Zpos p.
Proof.
  induction p as [p IH|p IH|]; intros r Hr; simpl iter_pos.
  - assert (H1 : 0 <= shr_m (shr_1 r)) by (rewrite shr_1_m by lia; apply Z.div_pos; lia).
    assert (H2 : 0 <= shr_m (iter_pos shr_1 p (shr_1 r))).
    { rewrite IH by lia. apply Z.div_pos; [lia|]. apply Z.pow_pos_nonneg; lia. }
    rewrite IH by lia. rewrite IH by lia. rewrite shr_1_m by lia.
    rewrite !Z.div_div by (try apply Z.pow_pos_nonneg; lia).
    f_equal.
    replace (Z.pos p~1) with (1 + Z.pos p + Z.pos p) by lia.
    rewrite (Z.pow_add_r 2 (1 + Z.pos p) (Z.pos p)) by lia.
    rewrite (Z.pow_add_r 2 1 (Z.pos p)) by lia. change (2 ^ 1) with 2. lia.
  - assert (H2 : 0 <= shr_m (iter_pos shr_1 p r)).
    { rewrite IH by lia. apply Z.div_pos; [lia|]. apply Z.pow_pos_nonneg; lia. }
    rewrite IH by lia. rewrite IH by lia.
    rewrite !Z.div_div by (try apply Z.pow_pos_nonneg; lia).
    f_equal.
    replace (Z.pos p~0) with (Z.pos p + Z.pos p) by lia.
    rewrite (Z.pow_add_r 2 (Z.pos p) (Z.pos p)) by lia. lia.
  - rewrite shr_1_m by lia. reflexivity.
Qed.


Lemma fexp_eq x : fexp PyFloat.prec PyFloat.emax x = Z.max (x - 53) (-1074).
Proof. reflexivity. Qed.

(** shr_fexp on a non-negative mantissa *)
Lemma shr_fexp_spec m e l :
  0 <= m ->
  let '(r, e') := shr_fexp PyFloat.prec PyFloat.emax m e l in
  0 <= shr_m r /\ Zdigits2 (shr_m r) <= 53
  /\ e' = Z.max e (fexp PyFloat.prec PyFloat.emax (Zdigits2 m + e))
  /\ Zdigits2 (shr_m r) + e' <= Z.max (Zdigits2 m + e) e'.
Proof.
  intros Hm. unfold shr_fexp, shr.
  pose proof (Zdigits2_nonneg m) as Hd.
  rewrite fexp_eq.
  destruct (Z.max (Zdigits2 m + e - 53) (-1074) - e) as [|n|n] eqn:En.
  - assert (shr_m (shr_record_of_loc m l) = m) as -> by (destruct l as [|[]]; reflexivity).
    repeat split; lia.
  - rewrite iter_pos_shr_1_m;
      assert (Hs : shr_m (shr_record_of_loc m l) = m) by (destruct l as [|[]]; reflexivity);
      rewrite ?Hs; try lia.
    pose proof (Zdigits2_div_pow2 m (Z.pos n) Hm ltac:(lia)) as Hdiv.
    assert (0 <= m / 2 ^ Z.pos n) by (apply Z.div_pos; [lia | apply Z.pow_pos_nonneg; lia]).
    repeat split; lia.
  - assert (shr_m (shr_record_of_loc m l) = m) as -> by (destruct l as [|[]]; reflexivity).
    repeat split; lia.
Qed.

Lemma round_nearest_even_bounds m l :
  0 <= m -> m <= round_nearest_even m l <= m + 1.
Proof.
  intros H. unfold round_nearest_even.
  destruct l as [|[]]; try lia. destruct (Z.even m); lia.
Qed.

Lemma Zdigits2_mono a b : 0 <= a <= b -> Zdigits2 a <= Zdigits2 b.
Proof.
  intros [Ha Hab]. apply Zdigits2_lt_pow; [apply Zdigits2_nonneg|].
  split; [lia|]. pose proof (Zdigits2_gt b ltac:(lia)). lia.
Qed.

Lemma binary_round_aux_rounded s m e l :
  0 <= m -> e <= 969 -> 
  PyFloat.rounded s (Z.max (Zdigits2 m + e) (-1074) + 1) (binary_round_aux PyFloat.prec PyFloat.emax s m e l).
Proof.
  intros Hm He. unfold binary_round_aux.
  pose proof (shr_fexp_spec m e l Hm) as H1.
  destruct (shr_fexp PyFloat.prec PyFloat.emax m e l) as [r1 e1].
  destruct H1 as (Hr1 & Hd1 & He1 & Hb1).
  set (mr := round_nearest_even (shr_m r1) (loc_of_shr_record r1)).
  pose proof (round_nearest_even_bounds (shr_m r1) (loc_of_shr_record r1) Hr1) as Hmr.
  fold mr in Hmr.
  assert (Hmr0 : 0 <= mr) by lia.
  pose proof (shr_fexp_spec mr e1 loc_Exact Hmr0) as H2.
  destruct (shr_fexp PyFloat.prec PyFloat.emax mr e1 loc_Exact) as [r2 e2].
  destruct H2 as (Hr2 & Hd2 & He2 & Hb2).
  assert (Hdmr : Zdigits2 mr <= Zdigits2 (shr_m r1) + 1).
  { eapply Z.le_trans; [apply Zdigits2_mono; split; [exact Hmr0 | apply Hmr]|].
    apply Zdigits2_succ; lia. }
  rewrite fexp_eq in He1, He2.
  pose proof (Zdigits2_nonneg m). pose proof (Zdigits2_nonneg mr).
  pose proof (Zdigits2_nonneg (shr_m r1)).
  destruct (shr_m r2) as [|p|p] eqn:Ep.
  - constructor.
  - change (Zdigits2 (Z.pos p)) with (Z.pos (digits2_pos p)) in *.
    unfold PyFloat.emax, PyFloat.prec.
    destruct (Z.leb_spec e2 (1024 - 53)) as [Hle|Hgt].
    + apply PyFloat.rounded_finite; lia.
    + apply PyFloat.rounded_infinity. lia.
  - lia.
Qed.


Lemma digits2_pos_iter_xO m d :
  digits2_pos (Pos.iter xO m d) = (digits2_pos m + d)%positive.
Proof.
  induction d as [|d IH] using Pos.peano_ind.
  - simpl. lia.
  - rewrite Pos.iter_succ. simpl. rewrite IH. lia.
Qed.

Lemma Zdigits2_abs n : Zdigits2 (Z.abs n) = Zdigits2 n.
Proof. destruct n; reflexivity. Qed.

Lemma fits_mono k k' n : 0 <= k <= k' -> PyFloat.fits k n -> PyFloat.fits k' n.
Proof.
  unfold PyFloat.fits. intros Hk H.
  eapply Z.lt_le_trans; [exact H|]. apply Z.pow_le_mono_r; lia.
Qed.

Lemma fits_digits k n : 0 <= k -> PyFloat.fits k n -> Zdigits2 n <= k.
Proof.
  intros Hk H. rewrite <- Zdigits2_abs. apply Zdigits2_lt_pow; [lia|].
  unfold PyFloat.fits in H. lia.
Qed.

(** [float(n)] does not overflow on integers of at most 1021 bits. *)
Lemma of_int_rounded n k :
  0 <= k <= 1021 -> PyFloat.fits k n ->
  exists f, PyFloat.of_int n = Ok f /\ PyFloat.rounded (n <? 0) (k + 1) f
            /\ f <> S754_infinity (n <? 0).
Proof.
  intros Hk Hn. apply fits_digits in Hn; [|lia].
  unfold PyFloat.of_int, binary_normalize.
  assert (Hpos : forall s p, Zdigits2 (Z.pos p) <= k ->
            exists f, match binary_round PyFloat.prec PyFloat.emax s p 0 with
                      | S754_infinity _ => Raise OverflowError
                      | f => Ok f
                      end = Ok f /\ PyFloat.rounded s (k + 1) f /\ f <> S754_infinity s).
  { intros s p Hp. unfold binary_round, shl_align. rewrite fexp_eq.
    change (Zdigits2 (Z.pos p)) with (Z.pos (digits2_pos p)) in Hp.
    assert (Hr : forall mz ez, Z.pos (digits2_pos mz) + ez = Z.pos (digits2_pos p) ->
              ez <= 969 ->
              exists f, match binary_round_aux PyFloat.prec PyFloat.emax s (Z.pos mz) ez loc_Exact with
                        | S754_infinity _ => Raise OverflowError
                        | f => Ok f
                        end = Ok f /\ PyFloat.rounded s (k + 1) f /\ f <> S754_infinity s).
    { intros mz ez Hd He.
      pose proof (binary_round_aux_rounded s (Z.pos mz) ez loc_Exact ltac:(lia) He) as R.
      change (Zdigits2 (Z.pos mz)) with (Z.pos (digits2_pos mz)) in R.
      inversion R as [Hz | m e He' Hb Hf | Hb Hi].
      - eexists; repeat split; [apply PyFloat.rounded_zero | discriminate].
      - eexists; repeat split; [apply PyFloat.rounded_finite; lia | discriminate].
      - lia. }
    destruct (Z.max (Z.pos (digits2_pos p) + 0 - 53) (-1074) - 0) as [|d|d] eqn:Ed.
    - apply Hr; lia.
    - apply Hr; lia.
    - apply Hr; [rewrite digits2_pos_iter_xO|]; lia. }
  destruct n as [|p|p].
  - exists (S754_zero false). repeat split; [apply PyFloat.rounded_zero | discriminate].
  - apply Hpos. exact Hn.
  - apply Hpos. exact Hn.
Qed.

Lemma fmul_rounded s f c k bits :
  PyFloat.rounded s k f -> f <> S754_infinity s -> PyFloat.small_constant bits c ->
  -1074 <= k + bits ->
  PyFloat.rounded s (k + bits + 1) (PyFloat.fmul f c)
  /\ (k + bits + 1 <= 1022 -> PyFloat.fmul f c <> S754_infinity s).
Proof.
  intros R Hf (mc & ec & -> & Hec & Hbits) Hk.
  inversion R as [Hz | m e He Hb Hz | Hb Hz]; subst.
  - simpl. rewrite xorb_false_r. split; [apply PyFloat.rounded_zero | discriminate].
  - unfold PyFloat.fmul, SFmul. rewrite xorb_false_r.
    pose proof (binary_round_aux_rounded s (Z.pos (m * mc)) (e + ec) loc_Exact
                  ltac:(lia) ltac:(lia)) as R'.
    pose proof (Zdigits2_mul (Z.pos m) (Z.pos mc) ltac:(lia) ltac:(lia)) as Hmul.
    change (Z.pos m * Z.pos mc) with (Z.pos (m * mc)) in Hmul.
    change (Zdigits2 (Z.pos m)) with (Z.pos (digits2_pos m)) in Hmul.
    change (Zdigits2 (Z.pos mc)) with (Z.pos (digits2_pos mc)) in Hmul.
    inversion R' as [Hz | m' e' He' Hb' Hz | Hb' Hz].
    + split; [apply PyFloat.rounded_zero | discriminate].
    + split; [apply PyFloat.rounded_finite; lia | discriminate].
    + split; [apply PyFloat.rounded_infinity; lia | lia].
  - congruence.
Qed.

Lemma to_int_rounded s k f :
  PyFloat.rounded s k f -> f <> S754_infinity s -> 0 <= k ->
  exists z, PyFloat.to_int f = Ok z /\ PyFloat.fits k z
            /\ (if s then z <= 0 else 0 <= z).
Proof.
  intros R Hf Hk. inversion R as [Hz | m e He Hb Hz | Hb Hz]; subst.
  - exists 0. unfold PyFloat.fits. simpl. repeat split; [apply Z.pow_pos_nonneg; lia | destruct s; lia].
  - unfold PyFloat.to_int.
    set (a := if 0 <=? e then Z.shiftl (Z.pos m) e else Z.shiftr (Z.pos m) (- e)).
    assert (Ha : 0 <= a < 2 ^ k).
    { pose proof (Zdigits2_gt (Z.pos m) ltac:(lia)) as Hm.
      change (Zdigits2 (Z.pos m)) with (Z.pos (digits2_pos m)) in Hm.
      unfold a. destruct (Z.leb_spec 0 e).
      - rewrite Z.shiftl_mul_pow2 by lia. split; [apply Z.mul_nonneg_nonneg; [lia|apply Z.pow_nonneg; lia]|].
        apply Z.lt_le_trans with (2 ^ (Z.pos (digits2_pos m) + e)).
        + rewrite Z.pow_add_r by lia. apply Z.mul_lt_mono_pos_r; [apply Z.pow_pos_nonneg; lia | exact Hm].
        + apply Z.pow_le_mono_r; lia.
      - rewrite Z.shiftr_div_pow2 by lia.
        pose proof (Zdigits2_div_pow2 (Z.pos m) (- e) ltac:(lia) ltac:(lia)) as Hd.
        assert (H0 : 0 <= Z.pos m / 2 ^ (- e)) by (apply Z.div_pos; [lia | apply Z.pow_pos_nonneg; lia]).
        split; [exact H0|].
        eapply Z.lt_le_trans; [apply Zdigits2_gt; exact H0|].
        apply Z.pow_le_mono_r; [lia|].
        change (Zdigits2 (Z.pos m)) with (Z.pos (digits2_pos m)) in Hd. lia. }
    exists (if s then - a else a). unfold PyFloat.fits.
    repeat split; destruct s; lia.
  - congruence.
Qed.

(** [int(n * c)] is defined on integers of at most [k] bits, and has at
    most [k + bits + 2] bits and the sign of [n]. *)
Lemma int_mul_trunc_defined n c k bits :
  0 <= k <= 1000 -> -8 <= bits <= 8 -> PyFloat.fits k n -> PyFloat.small_constant bits c ->
  exists z, PyFloat.int_mul_trunc n c = Ok z /\ PyFloat.fits (k + 10) z
            /\ (0 <= n -> 0 <= z) /\ (n <= 0 -> z <= 0).
Proof.
  intros Hk Hbits Hn Hc.
  destruct (of_int_rounded n k ltac:(lia) Hn) as (f & Hf & Rf & Hfin).
  destruct (fmul_rounded (n <? 0) f c (k + 1) bits Rf Hfin Hc ltac:(lia)) as [Rp Hp].
  destruct (to_int_rounded (n <? 0) (k + 10) (PyFloat.fmul f c)) as (z & Hz & Hfit & Hsign).
  - inversion Rp as [Hz | m e He Hb Hz | Hb Hz].
    + apply PyFloat.rounded_zero.
    + apply PyFloat.rounded_finite; lia.
    + lia.
  - apply Hp. lia.
  - lia.
  - exists z. unfold PyFloat.int_mul_trunc, PyFloat.int_mul. rewrite Hf.
    repeat split; auto.
    + intros H0. destruct (Z.ltb_spec n 0); [lia | exact Hsign].
    + intros H0. destruct (Z.ltb_spec n 0); [exact Hsign|].
      assert (n = 0) as -> by lia.
      unfold PyFloat.of_int in Hf. simpl in Hf. inversion Hf; subst f.
      destruct Hc as (mc & ec & -> & _). simpl in Hz. inversion Hz. lia.
Qed.

Lemma int_mul_defined n c k bits :
  0 <= k <= 1000 -> -8 <= bits <= 8 -> PyFloat.fits k n -> PyFloat.small_constant bits c ->
  exists f, PyFloat.int_mul n c = Ok f.
Proof.
  intros Hk Hbits Hn Hc.
  destruct (of_int_rounded n k ltac:(lia) Hn) as (f & Hf & _).
  unfold PyFloat.int_mul. rewrite Hf. eauto.
Qed.


(** [a / b] is defined whenever [b] is not zero and [a] has at most 1000
    bits. *)
Lemma int_truediv_defined a b k :
  0 <= k <= 1000 -> PyFloat.fits k a -> b <> 0 ->
  exists f, PyFloat.int_truediv a b = Ok f.
Proof.
  intros Hk Ha Hb. unfold PyFloat.int_truediv.
  destruct (Z.eqb_spec b 0) as [|_]; [contradiction|].
  destruct (Z.eqb_spec a 0) as [|Ha0]; [eauto|].
  unfold SFdiv_core_binary.
  set (d1 := Zdigits2 (Z.abs a)). set (d2 := Zdigits2 (Z.abs b)).
  set (e' := Z.min (fexp PyFloat.prec PyFloat.emax (d1 + 0 - (d2 + 0))) (0 - 0)).
  set (m' := match 0 - 0 - e' with
             | 0 => Z.abs a
             | Z.pos _ => Z.shiftl (Z.abs a) (0 - 0 - e')
             | Z.neg _ => 0
             end).
  assert (Hd1 : d1 <= k) by (unfold d1; rewrite Zdigits2_abs; apply fits_digits; [lia | exact Ha]).
  assert (He' : e' <= 0) by (unfold e'; lia).
  assert (Hm' : 0 <= m' < 2 ^ (d1 - e')).
  { pose proof (Zdigits2_gt (Z.abs a) ltac:(lia)) as Hgt. fold d1 in Hgt.
    assert (0 <= d1) by apply Zdigits2_nonneg.
    unfold m'. destruct (0 - 0 - e') as [|p|p] eqn:Es.
    - replace (d1 - e') with d1 by lia. lia.
    - rewrite Z.shiftl_mul_pow2 by lia.
      replace (d1 - e') with (d1 + Z.pos p) by lia.
      rewrite Z.pow_add_r by lia.
      assert (0 < 2 ^ Z.pos p) by (apply Z.pow_pos_nonneg; lia). nia.
    - lia. }
  pose proof (Z.div_eucl_eq m' (Z.abs b) ltac:(lia)) as Heq.
  pose proof (Z.mod_pos_bound m' (Z.abs b) ltac:(lia)) as Hmod.
  unfold Z.modulo in Hmod.
  destruct (Z.div_eucl m' (Z.abs b)) as [q r].
  assert (HB : 0 < Z.abs b) by lia.
  assert (Hq : 0 <= q <= m').
  { clearbody m' e'. generalize dependent (Z.abs b). intros B. intros.
    destruct Hm' as [Hm0 _]. clear - Heq Hmod HB Hm0.
    assert (Hq0 : 0 <= q).
    { destruct (Z_lt_le_dec q 0) as [Hneg|]; [exfalso | assumption].
      assert (B * q <= B * (-1)) by (apply Z.mul_le_mono_nonneg_l; lia). lia. }
    split; [assumption|].
    assert (1 * q <= B * q) by (apply Z.mul_le_mono_nonneg_r; lia). lia. }
  pose proof (binary_round_aux_rounded (xorb (a <? 0) (b <? 0)) q e'
                (new_location (Z.abs b) r) ltac:(lia) ltac:(lia)) as R.
  assert (Hd0 : 0 <= d1) by apply Zdigits2_nonneg.
  assert (Hdq : Zdigits2 q <= d1 - e').
  { apply Zdigits2_lt_pow; lia. }
  inversion R as [Hz | m e He Hbits Hz | Hbits Hz]; eauto.
  lia.
Qed.

Lemma small_f0_05 : PyFloat.small_constant 0 PyFloat.f0_05.
Proof. do 2 eexists. split; [reflexivity | simpl; lia]. Qed.
Lemma small_f0_1 : PyFloat.small_constant 0 PyFloat.f0_1.
Proof. do 2 eexists. split; [reflexivity | simpl; lia]. Qed.
Lemma small_f0_15 : PyFloat.small_constant 0 PyFloat.f0_15.
Proof. do 2 eexists. split; [reflexivity | simpl; lia]. Qed.
Lemma small_f0_65 : PyFloat.small_constant 0 PyFloat.f0_65.
Proof. do 2 eexists. split; [reflexivity | simpl; lia]. Qed.
Lemma small_f0_8 : PyFloat.small_constant 0 PyFloat.f0_8.
Proof. do 2 eexists. split; [reflexivity | simpl; lia]. Qed.
Lemma small_f0_9 : PyFloat.small_constant 0 PyFloat.f0_9.
Proof. do 2 eexists. split; [reflexivity | simpl; lia]. Qed.
Lemma small_f1_05 : PyFloat.small_constant 1 PyFloat.f1_05.
Proof. do 2 eexists. split; [reflexivity | simpl; lia]. Qed.
Lemma small_f1_1 : PyFloat.small_constant 1 PyFloat.f1_1.
Proof. do 2 eexists. split; [reflexivity | simpl; lia]. Qed.
Lemma small_f1_15 : PyFloat.small_constant 1 PyFloat.f1_15.
Proof. do 2 eexists. split; [reflexivity | simpl; lia]. Qed.
Lemma small_f1_5 : PyFloat.small_constant 1 PyFloat.f1_5.
Proof. do 2 eexists. split; [reflexivity | simpl; lia]. Qed.

(** Rounding keeps the sign it is given. *)
Lemma binary_round_aux_sign s m e l :
  match binary_round_aux PyFloat.prec PyFloat.emax s m e l with
  | S754_zero s' | S754_infinity s' | S754_finite s' _ _ => s' = s
  | S754_nan => True
  end.
Proof.
  unfold binary_round_aux.
  destruct (shr_fexp PyFloat.prec PyFloat.emax m e l) as [r1 e1].
  destruct (shr_fexp PyFloat.prec PyFloat.emax _ e1 loc_Exact) as [r2 e2].
  destruct (shr_m r2); [reflexivity | | exact I].
  destruct (e2 <=? PyFloat.emax - PyFloat.prec); reflexivity.
Qed.

(** [int(n * c)] of a non-negative [n] and a positive constant is not
    negative. *)
Lemma int_mul_trunc_nonneg n c bits z :
  PyFloat.small_constant bits c -> 0 <= n ->
  PyFloat.int_mul_trunc n c = Ok z -> 0 <= z.
Proof.
  intros (mc & ec & -> & _) Hn.
  unfold PyFloat.int_mul_trunc, PyFloat.int_mul, PyFloat.of_int.
  destruct n as [|p|p]; [| | lia].
  - simpl. intros H. inversion H. lia.
  - unfold binary_normalize, binary_round.
    destruct (shl_align p 0 _) as [mz ez].
    pose proof (binary_round_aux_sign false (Z.pos mz) ez loc_Exact) as Hs.
    destruct (binary_round_aux PyFloat.prec PyFloat.emax false (Z.pos mz) ez
                loc_Exact) as [s1|s1| |s1 m1 e1]; subst;
      try (simpl; discriminate).
    + simpl. intros H. inversion H. lia.
    + unfold PyFloat.fmul, SFmul. simpl xorb.
      pose proof (binary_round_aux_sign false (Z.pos (m1 * mc)) (e1 + ec)
                    loc_Exact) as Hp.
      destruct (binary_round_aux PyFloat.prec PyFloat.emax false
                  (Z.pos (m1 * mc)) (e1 + ec) loc_Exact)
        as [s2|s2| |s2 m2 e2]; subst; simpl; try discriminate.
      * intros H. inversion H. lia.
      * intros H. inversion H. subst.
        destruct (0 <=? e2).
        -- apply Z.shiftl_nonneg. lia.
        -- apply Z.shiftr_nonneg. lia.
Qed.

Lemma fits_min k a b :
  PyFloat.fits k a -> PyFloat.fits k b -> PyFloat.fits k (Z.min a b).
Proof. unfold PyFloat.fits. lia. Qed.

Lemma fits_max k a b :
  PyFloat.fits k a -> PyFloat.fits k b -> PyFloat.fits k (Z.max a b).
Proof. unfold PyFloat.fits. lia. Qed.

Lemma fits_add k a b :
  0 <= k -> PyFloat.fits k a -> PyFloat.fits k b -> PyFloat.fits (k + 1) (a + b).
Proof.
  unfold PyFloat.fits. intros Hk Ha Hb.
  rewrite Z.pow_add_r by lia. change (2 ^ 1) with 2. lia.
Qed.

Lemma fits_pred k a :
  0 <= k -> PyFloat.fits k a -> PyFloat.fits (k + 1) (a - 1).
Proof.
  unfold PyFloat.fits. intros Hk Ha.
  rewrite Z.pow_add_r by lia. change (2 ^ 1) with 2.
  assert (0 < 2 ^ k) by (apply Z.pow_pos_nonneg; lia). lia.
Qed.

Lemma fits_sub k a b :
  0 <= k -> PyFloat.fits k a -> PyFloat.fits k b -> PyFloat.fits (k + 1) (a - b).
Proof.
  unfold PyFloat.fits. intros Hk Ha Hb.
  rewrite Z.pow_add_r by lia. change (2 ^ 1) with 2. lia.
Qed.

End PyFloatFacts.

(* ===================================================================== *)
(** * Reasoning about the effect monad *)
(* ===================================================================== *)

Lemma bind_res_Ok {A B} (c : res A) (k : A -> res B) (b : B) :
  bind_res c k = Ok b -> exists a, c = Ok a /\ k a = Ok b.
Proof.
  destruct c as [a|e]; simpl; intros H; [eauto | discriminate].
Qed.

Lemma bind_Ok {A B} (c : M A) (k : A -> M B) (w : World) (r : B * World) :
  bind c k w = Ok r -> exists a w1, c w = Ok (a, w1) /\ k a w1 = Ok r.
Proof.
  unfold bind. destruct (c w) as [[a w1]|e]; intros H; [eauto | discriminate].
Qed.

Lemma lift_Ok {A} (c : res A) (w : World) (a : A) (w' : World) :
  lift c w = Ok (a, w') -> c = Ok a /\ w' = w.
Proof.
  unfold lift. destruct c; intros H; inversion H; auto.
Qed.

Lemma ret_Ok {A} (a b : A) (w w' : World) :
  ret a w = Ok (b, w') -> b = a /\ w' = w.
Proof. unfold ret. intros H; inversion H; auto. Qed.

(** Decompose a hypothesis saying that a computation returned. *)
Ltac invert_run :=
  repeat match goal with
    | H : bind _ _ _ = Ok _ |- _ =>
        let a := fresh "a" in let w := fresh "w" in
        let H1 := fresh "Hrun" in let H2 := fresh "Hrun" in
        apply bind_Ok in H; destruct H as (a & w & H1 & H2)
    | H : lift _ _ = Ok (_, _) |- _ =>
        let H1 := fresh "Hres" in let H2 := fresh "Hw" in
        apply lift_Ok in H; destruct H as (H1 & H2); subst
    | H : ret _ _ = Ok (_, _) |- _ =>
        let H1 := fresh "Hval" in let H2 := fresh "Hw" in
        apply ret_Ok in H; destruct H as (H1 & H2); subst
    | H : bind_res _ _ = Ok _ |- _ =>
        let a := fresh "a" in
        let H1 := fresh "Hres" in let H2 := fresh "Hres" in
        apply bind_res_Ok in H; destruct H as (a & H1 & H2)
    | H : Ok _ = Ok _ |- _ => inversion H; clear H; subst
    | H : (_, _) = (_, _) |- _ => inversion H; clear H; subst
    | H : Raise _ = Ok _ |- _ => discriminate H
    end.

(* ===================================================================== *)
(** * The deterministic buyer: what its methods return *)
(* ===================================================================== *)

Module NegotiationAgentFacts.
Import NegotiationAgent.

Lemma anchor_opening_offer_le_budget context offer :
  anchor_opening_offer context = Ok offer -> offer <= your_budget context.
Proof.
  unfold anchor_opening_offer. intros H. invert_run. lia.
Qed.

Lemma concession_pattern_bounds context seller_price counter :
  concession_pattern context seller_price = Ok counter ->
  counter <= your_budget context /\ counter < seller_price.
Proof.
  unfold concession_pattern. intros H. invert_run. lia.
Qed.

(** The two ways [respond_to_seller_offer] returns. *)
Lemma deterministic_respond_cases context seller_price seller_message
    w status counter msg w' :
  respond_to_seller_offer context seller_price seller_message w
    = Ok (status, counter, msg, w') ->
  (status = ACCEPTED /\ counter = seller_price
   /\ seller_price <= your_budget context
   /\ exists limit,
        PyFloat.int_mul (base_market_price (product context)) PyFloat.f0_9
          = Ok limit
        /\ PyFloat.int_le seller_price limit = true)
  \/ (status = ONGOING
      /\ concession_pattern context seller_price = Ok counter).
Proof.
  unfold respond_to_seller_offer, evaluate_batna. intros H. invert_run.
  match goal with
  | H : (if ?b then _ else _) = Ok ?below |- _ =>
      destruct b eqn:Ebatna; destruct below; invert_run; try discriminate
  end.
  - left. apply andb_prop in Ebatna. destruct Ebatna as [_ Hbudget].
    repeat split; try reflexivity; [lia | eauto].
  - right. auto.
  - right. auto.
Qed.

(** [mirror_and_frame] always returns. *)
Lemma mirror_and_frame_returns seller_message counter_offer w :
  exists text w',
    mirror_and_frame seller_message counter_offer w = Ok (text, w').
Proof. unfold mirror_and_frame, random_choice. eauto. Qed.

End NegotiationAgentFacts.

(* ===================================================================== *)
(** * The driver: facts about one round *)
(* ===================================================================== *)

Section RoundStepFacts.

Variable buyer_agent : BaseBuyerAgent.
Variable seller : MockSellerAgent.

Lemma round_body_step round_num s w s' broke w' :
  round_body buyer_agent seller round_num s w = Ok (s', broke, w') ->
  round_step buyer_agent seller round_num s w s' broke w'.
Proof.
  unfold round_body. intros H.
  apply bind_Ok in H. destruct H as ([[status offer] bmsg] & w1 & Hturn & H).
  destruct status; simpl in H;
    try (apply bind_Ok in H;
         destruct H as ([[price msg] accepts] & w2 & Hseller & H);
         apply lift_Ok in Hseller; destruct Hseller as [Hseller ->];
         destruct accepts; apply ret_Ok in H; destruct H as [H ->];
         inversion H; subst;
         [ eapply SellerAccepts | eapply SellerCounters ]; eauto; discriminate).
  apply ret_Ok in H. destruct H as [H ->]. inversion H; subst.
  eapply BuyerAccepts; eauto.
Qed.

(** What a round leaves untouched, and how it extends the histories. *)
Lemma round_step_context round_num s w s' broke w' :
  round_step buyer_agent seller round_num s w s' broke w' ->
  product (context s') = product (context s)
  /\ your_budget (context s') = your_budget (context s)
  /\ current_round (context s') = round_num + 1
  /\ exists buyer_offer,
       your_offers (context s') = your_offers (context s) ++ [buyer_offer].
Proof.
  intros H. destruct H; simpl; repeat split; eauto.
Qed.

End RoundStepFacts.

(* ===================================================================== *)
(** * The driver: invariants of the round loop *)
(* ===================================================================== *)

Section LoopFacts.

Variable buyer_agent : BaseBuyerAgent.
Variable seller : MockSellerAgent.

Lemma for_rounds_nil s w : for_rounds buyer_agent seller [] s w = Ok (s, w).
Proof. reflexivity. Qed.

Lemma for_rounds_cons round_num rest s w s' w' :
  for_rounds buyer_agent seller (round_num :: rest) s w = Ok (s', w') ->
  exists s1 broke w1,
    round_step buyer_agent seller round_num s w s1 broke w1
    /\ (if broke then s' = s1 /\ w' = w1
        else for_rounds buyer_agent seller rest s1 w1 = Ok (s', w')).
Proof.
  simpl. intros H. apply bind_Ok in H.
  destruct H as ([s1 broke] & w1 & Hbody & H).
  exists s1, broke, w1. split; [apply round_body_step; exact Hbody|].
  destruct broke; [apply ret_Ok in H; destruct H; auto | exact H].
Qed.

(** A [break] happens exactly when a deal is made. *)
Lemma round_step_deal round_num s w s' broke w' :
  round_step buyer_agent seller round_num s w s' broke w' ->
  deal_made s = false -> final_price s = None ->
  if broke then deal_made s' = true
  else deal_made s' = false /\ final_price s' = None.
Proof.
  intros H Hd Hf. destruct H; simpl; auto.
Qed.

(** Rounds [k, k+1, ..., k+n-1] started in a session that has played [k]
    rounds: the counter ends between [k+1] and [k+n], it counts the buyer
    offers, and without a deal all [n] rounds were played. *)
Lemma for_rounds_counter n : forall k s w s' w',
  for_rounds buyer_agent seller (map Z.of_nat (seq k n)) s w = Ok (s', w') ->
  (0 < n)%nat ->
  Z.of_nat (List.length (your_offers (context s))) = Z.of_nat k ->
  deal_made s = false -> final_price s = None ->
  Z.of_nat k + 1 <= current_round (context s') <= Z.of_nat k + Z.of_nat n
  /\ Z.of_nat (List.length (your_offers (context s')))
     = current_round (context s')
  /\ (deal_made s' = false ->
      final_price s' = None
      /\ current_round (context s') = Z.of_nat k + Z.of_nat n).
Proof.
  induction n as [|n IH]; intros k s w s' w' Hrun Hn Hlen Hd Hf; [lia|].
  simpl in Hrun. apply for_rounds_cons in Hrun.
  destruct Hrun as (s1 & broke & w1 & Hstep & Hrest).
  pose proof (round_step_context _ _ _ _ _ _ _ _ Hstep)
    as (_ & _ & Hround & offer & Hoffers).
  pose proof (round_step_deal _ _ _ _ _ _ Hstep Hd Hf) as Hdeal.
  assert (Hlen1 : Z.of_nat (List.length (your_offers (context s1)))
                  = Z.of_nat (S k)).
  { rewrite Hoffers, length_app. simpl. lia. }
  destruct broke.
  - destruct Hrest as [-> ->]. split; [lia | split; [lia|]].
    intros Hno. congruence.
  - destruct Hdeal as [Hd1 Hf1]. destruct n as [|n].
    + simpl in Hrest. inversion Hrest; subst.
      split; [lia | split; [lia|]]. intros _. split; [assumption | lia].
    + apply IH in Hrest; try assumption; try lia.
      destruct Hrest as (Hr & Hl & Hno).
      split; [lia | split; [lia|]]. intros Hnodeal.
      apply Hno in Hnodeal. split; [tauto | lia].
Qed.

End LoopFacts.

Lemma negotiate_Ok buyer_agent item buyer_budget seller_min rounds w s w' :
  negotiate buyer_agent item buyer_budget seller_min rounds w = Ok (s, w') ->
  exists s0,
    open_session item buyer_budget seller_min = Ok s0
    /\ for_rounds buyer_agent (the_seller seller_min) rounds s0 w = Ok (s, w')
    /\ product (context s0) = item
    /\ your_budget (context s0) = buyer_budget
    /\ current_round (context s0) = 0
    /\ your_offers (context s0) = []
    /\ deal_made s0 = false /\ final_price s0 = None.
Proof.
  unfold negotiate. intros H. apply bind_Ok in H.
  destruct H as (s0 & w0 & Hopen & Hloop).
  apply lift_Ok in Hopen. destruct Hopen as [Hopen ->].
  exists s0. split; [exact Hopen | split; [exact Hloop|]].
  unfold open_session in Hopen. apply bind_res_Ok in Hopen.
  destruct Hopen as ([price msg] & _ & Hs0). inversion Hs0; subst.
  simpl. repeat split.
Qed.

(* ===================================================================== *)
(** * Round cap and timeout *)
(* ===================================================================== *)

(** C3.  For every buyer strategy and every configuration: after the
    first [n] rounds of a session ([1 <= n <= 10]; the driver runs
    [range(10)]), the round counter [current_round] lies in [[1, 10]] and
    equals the number of rounds played (one buyer offer is recorded per
    round), so no session plays more than 10 rounds.  If no party has
    accepted, no final price is set and all [n] rounds were played; the
    summary is then computed without raising, and after the 10 rounds
    [run_negotiation_test] returns the no-deal record ([deal_made] false,
    [final_price] None, [rounds] 10) as an ordinary result. *)
Theorem round_cap_and_timeout buyer_agent product buyer_budget seller_min
    n w s w' :
  (1 <= n <= 10)%nat ->
  negotiate buyer_agent product buyer_budget seller_min (range n) w
    = Ok (s, w') ->
  1 <= current_round (context s) <= 10
  /\ Z.of_nat (List.length (your_offers (context s)))
     = current_round (context s)
  /\ (deal_made s = false ->
      final_price s = None
      /\ current_round (context s) = Z.of_nat n
      /\ summary product buyer_budget s
         = Ok (timeout_result (Z.of_nat n) (messages (context s)))
      /\ (n = 10%nat ->
          run_negotiation_test buyer_agent product buyer_budget seller_min w
          = Ok (timeout_result 10 (messages (context s)), w'))).
Proof.
  intros Hn Hrun.
  pose proof Hrun as Hneg.
  apply negotiate_Ok in Hrun.
  destruct Hrun as (s0 & Hopen & Hloop & _ & _ & Hr0 & Ho0 & Hd0 & Hf0).
  unfold range in Hloop.
  apply for_rounds_counter in Hloop; try assumption; try lia;
    [| rewrite Ho0; reflexivity].
  destruct Hloop as (Hround & Hlen & Hnodeal).
  split; [lia | split; [exact Hlen|]].
  intros Hd. destruct (Hnodeal Hd) as [Hf Hr].
  assert (Hsum : summary product buyer_budget s
                 = Ok (timeout_result (Z.of_nat n) (messages (context s)))).
  { unfold summary, timeout_result. rewrite Hd, Hf. f_equal. f_equal. lia. }
  split; [exact Hf | split; [lia | split; [exact Hsum|]]].
  intros ->. unfold run_negotiation_test, bind. rewrite Hneg.
  unfold lift. rewrite Hsum. reflexivity.
Qed.

(** Witness for C3: Scenario C, a seller whose floor (243000) exceeds the
    budget (162000); the ten rounds are played and no deal is made. *)
Lemma round_cap_and_timeout_witness :
  exists s w',
    negotiate NegotiationAgent.YourBuyerAgent alphonso 162000 243000
      (range 10) offline_world = Ok (s, w')
    /\ deal_made s = false
    /\ 1 <= current_round (context s) <= 10
    /\ run_negotiation_test NegotiationAgent.YourBuyerAgent alphonso
         162000 243000 offline_world
       = Ok (timeout_result 10 (messages (context s)), w').
Proof.
  eexists. eexists.
  assert (Hrun : negotiate NegotiationAgent.YourBuyerAgent alphonso 162000
                   243000 (range 10) offline_world = Ok (_, _))
    by (vm_compute; reflexivity).
  split; [exact Hrun|].
  split; [reflexivity|].
  pose proof (round_cap_and_timeout _ _ _ _ 10%nat _ _ _ ltac:(lia) Hrun)
    as (Hround & _ & Hnodeal).
  split; [exact Hround|].
  apply Hnodeal; reflexivity.
Defined.

(* ===================================================================== *)
(** * Budget invariant of the deterministic buyer *)
(* ===================================================================== *)

Section BudgetInvariant.

Import NegotiationAgent NegotiationAgentFacts.

Variable seller : MockSellerAgent.

(** What the deterministic buyer puts on the table in its turn. *)
Lemma buyer_turn_within_budget round_num context0 s w status offer msg w' :
  buyer_turn YourBuyerAgent round_num context0 s w
    = Ok (status, offer, msg, w') ->
  offer <= your_budget context0
  /\ (status = ACCEPTED -> seller_price s <= your_budget context0).
Proof.
  unfold buyer_turn. destruct (round_num =? 0).
  - intros H. apply bind_Ok in H.
    destruct H as ([opening text] & w1 & Hopen & H).
    apply ret_Ok in H. destruct H as [H _]. inversion H; subst.
    simpl in Hopen. unfold generate_opening_offer in Hopen.
    apply bind_Ok in Hopen. destruct Hopen as (price & w2 & Hanchor & Hopen).
    apply lift_Ok in Hanchor. destruct Hanchor as [Hanchor _].
    apply ret_Ok in Hopen. destruct Hopen as [Hopen _]. inversion Hopen; subst.
    split; [eapply anchor_opening_offer_le_budget; eauto | discriminate].
  - intros H. simpl in H.
    apply deterministic_respond_cases in H.
    destruct H as [(-> & -> & Hle & _) | (-> & Hcounter)].
    + split; [exact Hle | intros _; exact Hle].
    + apply concession_pattern_bounds in Hcounter.
      split; [tauto | discriminate].
Qed.

Lemma round_step_within_budget round_num s w s' broke w' :
  round_step YourBuyerAgent seller round_num s w s' broke w' ->
  within_budget (your_budget (context s)) s ->
  within_budget (your_budget (context s)) s'.
Proof.
  intros Hstep [Hoffers Hfinal].
  destruct Hstep as [offer msg w' Hturn
                    | status offer msg w' price smsg Hturn Hst Hseller
                    | status offer msg w' price smsg Hturn Hst Hseller];
    apply buyer_turn_within_budget in Hturn; simpl in Hturn;
    destruct Hturn as [Hoffer Haccept];
    split; simpl;
    try (apply Forall_app; split; [exact Hoffers | constructor; [exact Hoffer | constructor]]).
  - intros price Hp. inversion Hp; subst. apply Haccept. reflexivity.
  - intros p Hp. inversion Hp; subst. exact Hoffer.
  - exact Hfinal.
Qed.

Lemma for_rounds_within_budget rounds : forall s w s' w',
  for_rounds YourBuyerAgent seller rounds s w = Ok (s', w') ->
  within_budget (your_budget (context s)) s ->
  within_budget (your_budget (context s)) s'.
Proof.
  induction rounds as [|round_num rest IH]; intros s w s' w' Hrun Hinv.
  - simpl in Hrun. inversion Hrun; subst. exact Hinv.
  - apply for_rounds_cons in Hrun.
    destruct Hrun as (s1 & broke & w1 & Hstep & Hrest).
    pose proof (round_step_within_budget _ _ _ _ _ _ Hstep Hinv) as Hinv1.
    pose proof (round_step_context _ _ _ _ _ _ _ _ Hstep) as (_ & Hb & _).
    destruct broke.
    + destruct Hrest as [-> ->]. exact Hinv1.
    + rewrite <- Hb. eapply IH; [exact Hrest|]. rewrite Hb. exact Hinv1.
Qed.

End BudgetInvariant.

(** C1.  Budget invariant.  In every session of [run_negotiation_test]
    with the deterministic [YourBuyerAgent], after any number [n] of
    rounds (the driver plays [range(10)]): every offer the buyer has
    appended to [your_offers] is at most the budget, and so is the final
    price of a deal, whichever party accepted; the final price reported in
    the result record is that price. *)
Theorem budget_invariant product buyer_budget seller_min n w s w' :
  negotiate NegotiationAgent.YourBuyerAgent product buyer_budget seller_min
    (range n) w = Ok (s, w') ->
  Forall (fun offer => offer <= buyer_budget) (your_offers (context s))
  /\ (forall price, final_price s = Some price -> price <= buyer_budget)
  /\ (forall r price,
        summary product buyer_budget s = Ok r ->
        r_final_price r = Some price -> price <= buyer_budget).
Proof.
  intros Hrun. apply negotiate_Ok in Hrun.
  destruct Hrun as (s0 & _ & Hloop & _ & Hb & _ & Ho0 & _ & Hf0).
  apply for_rounds_within_budget in Hloop.
  - rewrite Hb in Hloop. destruct Hloop as [Hoffers Hfinal].
    split; [exact Hoffers | split; [exact Hfinal|]].
    intros r price Hsum Hr. apply Hfinal.
    unfold summary in Hsum.
    destruct (deal_made s); [destruct (final_price s) as [p|] |];
      [ apply bind_res_Ok in Hsum; destruct Hsum as (a & _ & Hsum);
        apply bind_res_Ok in Hsum; destruct Hsum as (b & _ & Hsum);
        inversion Hsum; subst; exact Hr
      | discriminate
      | inversion Hsum; subst; exact Hr ].
  - split; [rewrite Ho0; constructor | rewrite Hf0; discriminate].
Qed.

(** Witness for C1: the "easy" scenario of [test_your_agent]. *)
Lemma budget_invariant_witness :
  exists s w',
    negotiate NegotiationAgent.YourBuyerAgent alphonso 216000 144000
      (range 10) offline_world = Ok (s, w')
    /\ Forall (fun offer => offer <= 216000) (your_offers (context s))
    /\ (forall price, final_price s = Some price -> price <= 216000).
Proof.
  eexists. eexists.
  assert (Hrun : negotiate NegotiationAgent.YourBuyerAgent alphonso 216000
                   144000 (range 10) offline_world = Ok (_, _))
    by (vm_compute; reflexivity).
  split; [exact Hrun|].
  pose proof (budget_invariant _ _ _ _ _ _ _ Hrun) as (Hoffers & Hfinal & _).
  split; [exact Hoffers | exact Hfinal].
Defined.

(* ===================================================================== *)
(** * The chat-backed buyer: what its methods return *)
(* ===================================================================== *)

Module BuyerAgentTeamFacts.
Import BuyerAgentTeam.

Lemma import_ollama_Ok w x w' :
  import_ollama w = Ok (x, w') ->
  w' = w /\ chat_replies w (chats_used w) <> ImportRaises.
Proof.
  unfold import_ollama. destruct (chat_replies w (chats_used w));
    intros H; inversion H; split; (reflexivity || discriminate).
Qed.

Lemma ollama_chat_Ok w text w' :
  ollama_chat w = Ok (text, w') ->
  chat_replies w (chats_used w) = ChatReturns text.
Proof.
  unfold ollama_chat. destruct (chat_replies w (chats_used w));
    intros H; inversion H; reflexivity.
Qed.

(** The prompt can be written exactly when its numbers can be
    printed. *)
Lemma format_ints_Ok ns :
  Text.format_ints ns = Ok tt <-> Forall printable ns.
Proof.
  unfold Text.format_ints, printable.
  destruct (forallb (fun n => Z.abs n <? Text.int_str_limit) ns) eqn:E.
  - split; [intros _ | reflexivity].
    rewrite forallb_forall in E. apply Forall_forall.
    intros n Hn. apply Z.ltb_lt. apply E. exact Hn.
  - split; [discriminate|]. intros H. exfalso.
    assert (forallb (fun n => Z.abs n <? Text.int_str_limit) ns = true);
      [|congruence].
    apply forallb_forall. intros n Hn. apply Z.ltb_lt.
    rewrite Forall_forall in H. apply H. exact Hn.
Qed.

Lemma format_ints_cases ns :
  Text.format_ints ns = Ok tt \/ Text.format_ints ns = Raise ValueError.
Proof.
  unfold Text.format_ints.
  destruct (forallb _ ns); [left | right]; reflexivity.
Qed.

(** The first steps of both methods: the import, the prompt and the
    call. *)
Lemma chat_call_Ok {A} fields (k : string -> M A) w r :
  ('tt <- import_ollama ;;
   'tt <- lift (Text.format_ints fields) ;;
   text <- ollama_chat ;;
   k text)%py w = Ok r ->
  exists text w1,
    chat_replies w (chats_used w) = ChatReturns text
    /\ Forall printable fields
    /\ ollama_chat w = Ok (text, w1)
    /\ k text w1 = Ok r.
Proof.
  intros H. apply bind_Ok in H. destruct H as ([] & w0 & Himport & H).
  apply import_ollama_Ok in Himport. destruct Himport as [-> _].
  apply bind_Ok in H. destruct H as ([] & w0 & Hprompt & H).
  apply lift_Ok in Hprompt. destruct Hprompt as [Hprompt ->].
  apply bind_Ok in H. destruct H as (text & w1 & Hchat & H).
  exists text, w1. split; [apply ollama_chat_Ok in Hchat; exact Hchat|].
  split; [apply format_ints_Ok; exact Hprompt|].
  split; assumption.
Qed.

(** The same steps when the service replies and the prompt can be
    written. *)
Lemma chat_call_returns {A} fields (k : string -> M A) w text :
  chat_replies w (chats_used w) = ChatReturns text ->
  Forall printable fields ->
  ('tt <- import_ollama ;;
   'tt <- lift (Text.format_ints fields) ;;
   text <- ollama_chat ;;
   k text)%py w
  = k text {| random_draws := random_draws w; draws_used := draws_used w;
              chat_replies := chat_replies w;
              chats_used := S (chats_used w) |}.
Proof.
  intros Hreply Hfields. apply format_ints_Ok in Hfields.
  unfold bind at 1. unfold import_ollama. rewrite Hreply.
  unfold bind at 1. unfold lift at 1. rewrite Hfields.
  unfold bind at 1. unfold ollama_chat. rewrite Hreply. reflexivity.
Qed.

(** The ways [respond_to_seller_offer] returns: acceptance by the
    graduated threshold, acceptance by the final fallback, or a counter
    taken from the reply. *)
Lemma chat_respond_cases context seller_price seller_message
    w status counter msg w' :
  respond_to_seller_offer context seller_price seller_message w
    = Ok (status, counter, msg, w') ->
  exists text fallback,
    chat_replies w (chats_used w) = ChatReturns text
    /\ PyFloat.int_mul_trunc (base_market_price (product context))
         PyFloat.f0_9 = Ok fallback
    /\ ((status = ACCEPTED /\ counter = seller_price
         /\ seller_price <= your_budget context
         /\ (meets_graduated_threshold context seller_price
             \/ 10 <= current_round context))
        \/ (status = ONGOING
            /\ (exists parsed,
                  Text.search_number "counter_offer:" text = Ok parsed
                  /\ counter = counter_from_reply parsed
                                 (your_budget context) fallback)
            /\ msg = message_from_reply text "I’ll consider my next move."
            /\ ~ (10 <= current_round context
                  /\ seller_price <= your_budget context))).
Proof.
  unfold respond_to_seller_offer. intros H.
  apply chat_call_Ok in H. destruct H as (text & w1 & Hchat & _ & _ & H).
  apply bind_Ok in H. destruct H as (fallback & w2 & Hfb & H).
  apply lift_Ok in Hfb. destruct Hfb as [Hfb ->].
  apply bind_Ok in H. destruct H as (accept & w3 & Hacc & H).
  apply lift_Ok in Hacc. destruct Hacc as [Hacc ->].
  exists text, fallback. split; [exact Hchat | split; [exact Hfb|]].
  destruct accept.
  - apply ret_Ok in H. destruct H as [H _]. inversion H; subst. left.
    destruct (Z.leb_spec seller_price (your_budget context)) as [Hle|];
      [| discriminate].
    repeat split; try assumption. left.
    unfold meets_graduated_threshold, at_most_90_percent.
    destruct (current_round context <? 8).
    + apply bind_res_Ok in Hacc. destruct Hacc as (limit & Hlimit & Hacc).
      exists limit. split; [exact Hlimit | congruence].
    + injection Hacc as Hacc. lia.
  - apply bind_Ok in H. destruct H as (parsed & w4 & Hparsed & H).
    apply lift_Ok in Hparsed. destruct Hparsed as [Hparsed ->].
    destruct ((10 <=? current_round context)
              && (seller_price <=? your_budget context)) eqn:Efinal;
      apply ret_Ok in H; destruct H as [H _]; inversion H; subst.
    + apply andb_prop in Efinal. destruct Efinal as [E1 E2]. left.
      split; [reflexivity | split; [reflexivity | split; [lia | right; lia]]].
    + right. split; [reflexivity|].
      split; [exists parsed; split; [exact Hparsed | reflexivity]|].
      split; [reflexivity|].
      intros [H10 Hle]. apply andb_false_iff in Efinal. lia.
Qed.

(** The limit of [str] is [10 ** 4300]. *)
Lemma int_str_limit_value : Text.int_str_limit = 10 ^ 4300.
Proof. vm_compute. reflexivity. Qed.

(** Numbers within the range of the float conversions can be printed. *)
Lemma fits_printable k n : k <= 14000 -> PyFloat.fits k n -> printable n.
Proof.
  unfold PyFloat.fits, printable. intros Hk Hn.
  apply Z.lt_le_trans with (2 ^ k); [exact Hn|].
  apply Z.le_trans with (2 ^ 14000);
    [destruct (Z.le_gt_cases 0 k) as [H0|H0];
       [apply Z.pow_le_mono_r; lia
       |rewrite (Z.pow_neg_r 2 k) by lia; apply Z.pow_nonneg; lia]|].
  apply Z.leb_le. vm_compute. reflexivity.
Qed.

Lemma printable_opening_fields context :
  printable_opening context ->
  Forall printable (opening_prompt_fields context).
Proof.
  intros (H1 & H2 & H3). unfold opening_prompt_fields.
  repeat constructor; assumption.
Qed.

Lemma printable_response_fields context seller_price :
  printable_response context seller_price ->
  Forall printable (response_prompt_fields context seller_price).
Proof.
  intros (H1 & H2 & H3 & H4 & H5). unfold response_prompt_fields.
  cbn [app]. repeat (constructor; [assumption|]). exact H5.
Qed.

(** The acceptance test of [respond_to_seller_offer], which does not
    read the reply. *)
Lemma acceptance_test_defined context seller_price :
  PyFloat.fits 1000 (base_market_price (product context)) ->
  exists accept,
    (if seller_price <=? your_budget context
     then if current_round context <? 8
          then (limit <~ PyFloat.int_mul (base_market_price (product context))
                           PyFloat.f0_9 ;;
                Ok (PyFloat.int_le seller_price limit))%py
          else Ok (seller_price <=? base_market_price (product context))
     else Ok false) = Ok accept
    /\ (8 <= current_round context -> seller_price <= your_budget context ->
        accept = (seller_price <=? base_market_price (product context))).
Proof.
  intros Hfits.
  destruct (PyFloatFacts.int_mul_defined
              (base_market_price (product context)) PyFloat.f0_9 1000 0
              ltac:(lia) ltac:(lia) Hfits PyFloatFacts.small_f0_9)
    as (limit & Hlimit).
  rewrite Hlimit. cbn [bind_res].
  destruct (Z.leb_spec seller_price (your_budget context)) as [Hb|Hb];
    [destruct (Z.ltb_spec (current_round context) 8) as [Hr|Hr]|];
    eexists; (split; [reflexivity|]); intros; (lia || reflexivity).
Qed.

(** The run of [respond_to_seller_offer] once the service has replied:
    the acceptance test [accept] decides first, then the number of the
    reply is converted, then the final fallback applies. *)
Lemma chat_respond_returns context seller_price seller_message w text
    fallback accept :
  chat_replies w (chats_used w) = ChatReturns text ->
  printable_response context seller_price ->
  PyFloat.int_mul_trunc (base_market_price (product context)) PyFloat.f0_9
    = Ok fallback ->
  (if seller_price <=? your_budget context
   then if current_round context <? 8
        then (limit <~ PyFloat.int_mul (base_market_price (product context))
                         PyFloat.f0_9 ;;
              Ok (PyFloat.int_le seller_price limit))%py
        else Ok (seller_price <=? base_market_price (product context))
   else Ok false) = Ok accept ->
  exists w',
    chats_used w' = S (chats_used w)
    /\ respond_to_seller_offer context seller_price seller_message w
       = if accept
         then Ok (ACCEPTED, seller_price,
                  ("Deal accepted at " ++ rupees seller_price
                   ++ ". You’re lucky I’m closing now.")%string, w')
         else
           match Text.search_number "counter_offer:" text with
           | Raise e => Raise e
           | Ok parsed =>
               if (10 <=? current_round context)
                  && (seller_price <=? your_budget context)
               then Ok (ACCEPTED, seller_price,
                        ("Fine, I’ll take " ++ rupees seller_price
                         ++ ". Let’s close this now.")%string, w')
               else Ok (ONGOING,
                        counter_from_reply parsed (your_budget context)
                          fallback,
                        message_from_reply text
                          "I’ll consider my next move.", w')
           end.
Proof.
  intros Hreply Hprint Hfallback Haccept.
  eexists. split; [|unfold respond_to_seller_offer;
                    rewrite (chat_call_returns _ _ w text Hreply
                               (printable_response_fields _ _ Hprint));
                    unfold bind, lift; rewrite Hfallback, Haccept;
                    destruct accept; [reflexivity|];
                    destruct (Text.search_number "counter_offer:" text)
                      as [parsed|e]; [|reflexivity];
                    destruct ((10 <=? current_round context)
                              && (seller_price <=? your_budget context));
                    reflexivity].
  reflexivity.
Qed.

(** The run of [generate_opening_offer] once the service has replied. *)
Lemma chat_opening_returns context w text fallback :
  chat_replies w (chats_used w) = ChatReturns text ->
  printable_opening context ->
  PyFloat.int_mul_trunc (base_market_price (product context)) PyFloat.f0_8
    = Ok fallback ->
  exists w',
    chats_used w' = S (chats_used w)
    /\ generate_opening_offer context w
       = match Text.search_number "offer_amount:" text with
         | Raise e => Raise e
         | Ok parsed =>
             Ok (counter_from_reply parsed (your_budget context) fallback,
                 message_from_reply text "Let's begin.", w')
         end.
Proof.
  intros Hreply Hprint Hfallback.
  eexists. split; [|unfold generate_opening_offer;
                    rewrite (chat_call_returns _ _ w text Hreply
                               (printable_opening_fields _ Hprint));
                    unfold bind, lift; rewrite Hfallback;
                    destruct (Text.search_number "offer_amount:" text)
                      as [parsed|e]; reflexivity].
  reflexivity.
Qed.

(** Without a reply both methods raise. *)
Lemma chat_call_raises {A} fields (k : string -> M A) w :
  chat_replies w (chats_used w) = ImportRaises
  \/ (chat_replies w (chats_used w) = ChatRaises
      /\ Forall printable fields) ->
  ('tt <- import_ollama ;;
   'tt <- lift (Text.format_ints fields) ;;
   text <- ollama_chat ;;
   k text)%py w = Raise ExternalServiceError.
Proof.
  intros [Hreply | [Hreply Hfields]].
  - unfold bind at 1. unfold import_ollama. rewrite Hreply. reflexivity.
  - apply format_ints_Ok in Hfields.
    unfold bind at 1. unfold import_ollama. rewrite Hreply.
    unfold bind at 1. unfold lift at 1. rewrite Hfields.
    unfold bind at 1. unfold ollama_chat. rewrite Hreply. reflexivity.
Qed.

End BuyerAgentTeamFacts.

(** Concrete numbers that can be printed. *)
Ltac solve_printable :=
  repeat match goal with
    | |- printable_opening _ => unfold printable_opening
    | |- printable_response _ _ => unfold printable_response
    | |- _ /\ _ => split
    | |- Forall _ _ => constructor
    | |- printable _ => vm_compute; reflexivity
    end.

(* ===================================================================== *)
(** * Acceptance correctness *)
(* ===================================================================== *)

(** C2, as stated, fails for the chat-backed buyer: in round 10 its final
    fallback accepts 200000 although the market price is 180000. *)
Lemma acceptance_correctness_counterexample :
  ~ accepts_only_below_threshold BuyerAgentTeam.respond_to_seller_offer.
Proof.
  intros Hclaim.
  assert (Hrun : exists msg w',
             BuyerAgentTeam.respond_to_seller_offer
               (alphonso_context 216000 10 [117000]) 200000
               "Final offer."%string
               (constant_world 0 (ChatReturns "no fields"%string))
             = Ok (ACCEPTED, 200000, msg, w'))
    by (do 2 eexists; vm_compute; reflexivity).
  destruct Hrun as (msg & w' & Hrun).
  apply Hclaim in Hrun. destruct Hrun as [_ Hthreshold].
  vm_compute in Hthreshold. apply Hthreshold. reflexivity.
Qed.

(** C2, amended.  A returned ACCEPTED implies that the seller's price is
    within budget, and
    - for the deterministic buyer, that it is at most 90% of the market
      price, in every round;
    - for the chat-backed buyer, that it meets the graduated threshold
      (at most 90% of the market price before round 8, at most the market
      price from round 8 on) or that the round is the final one
      ([current_round >= 10]), where any affordable price is accepted. *)
Theorem acceptance_correctness context seller_price seller_message
    w counter msg w' :
  (NegotiationAgent.respond_to_seller_offer context seller_price
     seller_message w = Ok (ACCEPTED, counter, msg, w') ->
   seller_price <= your_budget context
   /\ at_most_90_percent (base_market_price (product context)) seller_price)
  /\ (BuyerAgentTeam.respond_to_seller_offer context seller_price
        seller_message w = Ok (ACCEPTED, counter, msg, w') ->
      seller_price <= your_budget context
      /\ (meets_graduated_threshold context seller_price
          \/ 10 <= current_round context)).
Proof.
  split; intros H.
  - apply NegotiationAgentFacts.deterministic_respond_cases in H.
    destruct H as [(_ & _ & Hle & Hlimit) | (Hst & _)];
      [split; assumption | discriminate].
  - apply BuyerAgentTeamFacts.chat_respond_cases in H.
    destruct H as (text & fallback & _ & _
                   & [(_ & _ & Hle & Hthr) | (Hst & _)]);
      [split; assumption | discriminate].
Qed.

(** Witness for C2: the deterministic buyer accepts 144000 in round 2 of
    the "easy" scenario; the chat-backed buyer accepts 200000 in round
    10. *)
Lemma acceptance_correctness_witness :
  (144000 <= 216000 /\ at_most_90_percent 180000 144000)
  /\ (200000 <= 216000
      /\ (meets_graduated_threshold
            (alphonso_context 216000 10 [117000]) 200000
          \/ 10 <= 10)).
Proof.
  split.
  - eapply (proj1 (acceptance_correctness
                    (alphonso_context 216000 2 [117000]) 144000
                    "I can come down."%string offline_world
                    144000 _ _)).
    vm_compute. reflexivity.
  - eapply (proj2 (acceptance_correctness
                    (alphonso_context 216000 10 [117000]) 200000
                    "Final offer."%string
                    (constant_world 0 (ChatReturns "no fields"%string))
                    200000 _ _)).
    vm_compute. reflexivity.
Defined.

(* ===================================================================== *)
(** * Facts about the text searches *)
(* ===================================================================== *)

Module TextFacts.

Lemma decimal_value_range cp d :
  Text.decimal_value cp = Some d -> 0 <= d <= 9.
Proof.
  unfold Text.decimal_value.
  destruct (find _ Text.decimal_zeros) as [zero|] eqn:E; [|discriminate].
  apply find_some in E. destruct E as [_ E].
  apply andb_prop in E. destruct E as [E1 E2].
  apply N.leb_le in E1. apply N.ltb_lt in E2.
  intros H. injection H as <-. lia.
Qed.

Lemma read_digits_range l :
  Forall (fun d => 0 <= d <= 9) (Text.read_digits l).
Proof.
  induction l as [|[cp bytes] r IH]; cbn [Text.read_digits]; [constructor|].
  destruct (Text.decimal_value cp) as [d|] eqn:E; [|constructor].
  constructor; [eapply decimal_value_range; exact E | exact IH].
Qed.

Lemma digits_value_nonneg group : forall acc,
  Forall (fun d => 0 <= d <= 9) group -> 0 <= acc ->
  0 <= fold_left (fun acc d => 10 * acc + d) group acc.
Proof.
  induction group as [|d ds IH]; intros acc Hds Hacc; cbn [fold_left];
    [exact Hacc|].
  inversion Hds; subst. apply IH; [assumption | lia].
Qed.

(** The group of a match is a non-empty run of digits. *)
Lemma search_digits_range key text : forall group,
  Text.search_digits key text = Some group ->
  group <> [] /\ Forall (fun d => 0 <= d <= 9) group.
Proof.
  induction text as [|c r IH]; intros group; cbn [Text.search_digits].
  - destruct (Text.strip_prefix key EmptyString) as [after|]; [|discriminate].
    pose proof (read_digits_range (Text.lstrip_chars (Text.chars after)))
      as Hrange.
    destruct (Text.read_digits (Text.lstrip_chars (Text.chars after)))
      as [|d ds]; [discriminate|].
    intros H. injection H as <-. split; [discriminate | exact Hrange].
  - destruct (Text.strip_prefix key (String c r)) as [after|]; [|apply IH].
    pose proof (read_digits_range (Text.lstrip_chars (Text.chars after)))
      as Hrange.
    destruct (Text.read_digits (Text.lstrip_chars (Text.chars after)))
      as [|d ds]; [apply IH|].
    intros H. injection H as <-. split; [discriminate | exact Hrange].
Qed.

(** What [search_number] returns: nothing without a match, the value of
    a group of at most 4300 digits, and ValueError for a longer one. *)
Lemma search_number_cases key text :
  (Text.search_digits key text = None
   /\ Text.search_number key text = Ok None)
  \/ (exists group,
        Text.search_digits key text = Some group
        /\ (List.length group <= 4300)%nat
        /\ Text.search_number key text
           = Ok (Some (fold_left (fun acc d => 10 * acc + d) group 0)))
  \/ (exists group,
        Text.search_digits key text = Some group
        /\ (4300 < List.length group)%nat
        /\ Text.search_number key text = Raise ValueError).
Proof.
  unfold Text.search_number, Text.int_of_digits, Text.max_str_digits.
  destruct (Text.search_digits key text) as [group|]; [|left; auto].
  right. destruct (Nat.leb_spec (List.length group) 4300) as [Hle|Hgt];
    [left | right]; exists group; auto.
Qed.

(** A number found by [re.search(key + r"\s*(\d+)", text)] is not
    negative. *)
Lemma search_number_nonneg key text n :
  Text.search_number key text = Ok (Some n) -> 0 <= n.
Proof.
  destruct (search_number_cases key text)
    as [(_ & ->) | [(group & Hgroup & _ & ->) | (group & _ & _ & ->)]];
    intros H; [discriminate | | discriminate].
  injection H as <-. apply search_digits_range in Hgroup.
  apply digits_value_nonneg; [apply Hgroup | lia].
Qed.

(** The only exception of [search_number] is the ValueError of [int]. *)
Lemma search_number_raises key text e :
  Text.search_number key text = Raise e -> e = ValueError.
Proof.
  destruct (search_number_cases key text)
    as [(_ & ->) | [(group & _ & _ & ->) | (group & _ & _ & ->)]];
    intros H; [discriminate | discriminate | congruence].
Qed.

End TextFacts.

(* ===================================================================== *)
(** * Counter-offer bounds *)
(* ===================================================================== *)

(** C4, as stated, fails for the chat-backed buyer: a counter read from
    the reply is only capped by the budget, so it can be at or above the
    price being countered (here 210000 against 200000). *)
Lemma counter_offer_bounds_counterexample :
  ~ counters_within_bounds BuyerAgentTeam.respond_to_seller_offer.
Proof.
  intros Hclaim.
  assert (Hrun : exists msg w',
             BuyerAgentTeam.respond_to_seller_offer
               (alphonso_context 216000 2 [117000]) 200000
               "I can come down."%string
               (constant_world 0
                  (ChatReturns "counter_offer: 210000 message: Hm."%string))
             = Ok (ONGOING, 210000, msg, w'))
    by (do 2 eexists; vm_compute; reflexivity).
  destruct Hrun as (msg & w' & Hrun).
  apply Hclaim in Hrun. lia.
Qed.

(** The deterministic buyer's counter is not positive when the budget is
    not: with budget 0 it counters 144000 with 0. *)
Lemma deterministic_counter_not_positive :
  exists msg w',
    NegotiationAgent.respond_to_seller_offer
      (alphonso_context 0 2 [0]) 144000 "I can come down."%string
      offline_world
    = Ok (ONGOING, 0, msg, w').
Proof. do 2 eexists. vm_compute. reflexivity. Qed.

(** C4, amended.  When [respond_to_seller_offer] returns ONGOING:
    - the deterministic buyer's counter is at most the budget and
      strictly below the seller's price; it is positive whenever the
      budget is at least 1, the seller's price at least 2 and the buyer's
      earlier offers at least 1;
    - the chat-backed buyer, when the reply has a [counter_offer] field
      that [int] reads as [n] (white space and digits of any script, at
      most 4300 digits), counters with [min(n, budget)], where [n >= 0]:
      a number capped by the budget, not compared with the seller's
      price. *)
Theorem counter_offer_bounds context seller_price seller_message
    w counter msg w' :
  (NegotiationAgent.respond_to_seller_offer context seller_price
     seller_message w = Ok (ONGOING, counter, msg, w') ->
   counter <= your_budget context /\ counter < seller_price
   /\ (1 <= your_budget context -> 2 <= seller_price ->
       Forall (fun offer => 1 <= offer) (your_offers context) ->
       0 < counter))
  /\ (BuyerAgentTeam.respond_to_seller_offer context seller_price
        seller_message w = Ok (ONGOING, counter, msg, w') ->
      forall text n,
        chat_replies w (chats_used w) = ChatReturns text ->
        Text.search_number "counter_offer:" text = Ok (Some n) ->
        0 <= n /\ counter = Z.min n (your_budget context)
        /\ counter <= your_budget context).
Proof.
  split; intros H.
  - apply NegotiationAgentFacts.deterministic_respond_cases in H.
    destruct H as [(Hst & _) | (_ & Hcounter)]; [discriminate|].
    pose proof (NegotiationAgentFacts.concession_pattern_bounds _ _ _ Hcounter)
      as [Hb Hs].
    split; [exact Hb | split; [exact Hs|]].
    intros Hbudget Hprice Hoffers.
    unfold NegotiationAgent.concession_pattern in Hcounter.
    apply bind_res_Ok in Hcounter.
    destruct Hcounter as (concession & Hconc & Hcounter).
    injection Hcounter as <-.
    assert (Hc0 : 0 <= concession).
    { destruct (current_round context <? 3);
        [| destruct (current_round context <? 7)];
        eapply PyFloatFacts.int_mul_trunc_nonneg; try exact Hconc; try lia.
      - apply PyFloatFacts.small_f0_05.
      - apply PyFloatFacts.small_f0_1.
      - apply PyFloatFacts.small_f0_15. }
    assert (Hlast : 1 <= match your_offers context with
                         | [] => your_budget context
                         | _ :: _ => last (your_offers context) 0
                         end).
    { destruct (your_offers context) as [|o l] eqn:Eo; [exact Hbudget|].
      assert (Hin : In (last (o :: l) 0) (o :: l)).
      { destruct (exists_last (l:=o :: l) ltac:(discriminate)) as (l' & a & ->).
        rewrite last_last. apply in_or_app. right. left. reflexivity. }
      rewrite Forall_forall in Hoffers. apply Hoffers. exact Hin. }
    lia.
  - intros text n Hreply Hparse.
    apply BuyerAgentTeamFacts.chat_respond_cases in H.
    destruct H as (text' & fallback & Hreply' & _
                   & [(Hst & _) | (_ & (parsed & Hparsed & Hcounter) & _)]);
      [discriminate|].
    rewrite Hreply in Hreply'. injection Hreply' as <-.
    rewrite Hparse in Hparsed. injection Hparsed as <-.
    cbn [counter_from_reply] in Hcounter.
    split; [eapply TextFacts.search_number_nonneg; exact Hparse|].
    split; [exact Hcounter | lia].
Qed.

(** Witness for C4: the deterministic buyer counters 170000 with 125500
    in round 2; the chat-backed buyer takes 150000 from the reply. *)
Lemma counter_offer_bounds_witness :
  (125500 <= 216000 /\ 125500 < 170000)
  /\ (0 <= 150000 /\ 150000 = Z.min 150000 216000 /\ 150000 <= 216000).
Proof.
  split.
  - assert (Hrun : exists msg w',
               NegotiationAgent.respond_to_seller_offer
                 (alphonso_context 216000 2 [117000]) 170000
                 "I can come down."%string offline_world
               = Ok (ONGOING, 125500, msg, w'))
      by (do 2 eexists; vm_compute; reflexivity).
    destruct Hrun as (msg & w' & Hrun).
    apply (proj1 (counter_offer_bounds _ _ _ _ _ _ _)) in Hrun.
    destruct Hrun as (Hbudget & Hbelow & _). split; assumption.
  - assert (Hrun : exists msg w',
               BuyerAgentTeam.respond_to_seller_offer
                 (alphonso_context 216000 2 [117000]) 200000
                 "I can come down."%string
                 (constant_world 0
                    (ChatReturns "counter_offer: 150000"%string))
               = Ok (ONGOING, 150000, msg, w'))
      by (do 2 eexists; vm_compute; reflexivity).
    destruct Hrun as (msg & w' & Hrun).
    apply (proj2 (counter_offer_bounds _ _ _ _ _ _ _) Hrun
             "counter_offer: 150000"%string 150000);
      vm_compute; reflexivity.
Defined.

(* ===================================================================== *)
(** * The seller's response *)
(* ===================================================================== *)

Lemma small_growth_factor round_num :
  PyFloat.small_constant 1 (growth_factor round_num).
Proof.
  unfold growth_factor. destruct (8 <=? round_num);
    [apply PyFloatFacts.small_f1_05 | apply PyFloatFacts.small_f1_15].
Qed.

(** What a returned answer of the seller is made of. *)
Lemma respond_to_buyer_Ok self buyer_offer round_num counter msg accepted :
  respond_to_buyer self buyer_offer round_num = Ok (counter, msg, accepted) ->
  exists threshold,
    PyFloat.int_mul (min_price self) PyFloat.f1_1 = Ok threshold
    /\ accepted = PyFloat.int_ge buyer_offer threshold
    /\ (accepted = true -> counter = buyer_offer)
    /\ (accepted = false ->
        exists grown,
          PyFloat.int_mul_trunc buyer_offer (growth_factor round_num)
            = Ok grown
          /\ counter = Z.max (min_price self) grown).
Proof.
  unfold respond_to_buyer, growth_factor. intros H.
  apply bind_res_Ok in H. destruct H as (threshold & Hthr & H).
  exists threshold. split; [exact Hthr|].
  destruct (PyFloat.int_ge buyer_offer threshold).
  - injection H as <- <- <-.
    split; [reflexivity | split; [reflexivity | discriminate]].
  - destruct (8 <=? round_num);
      apply bind_res_Ok in H; destruct H as (grown & Hgrown & H);
      injection H as <- <- <-;
      (split; [reflexivity | split; [discriminate | eauto]]).
Qed.

(** The driver hands the seller its loop index: in the round where
    [current_round] is [r], the seller computes with
    [growth_factor (r - 1)]. *)
Lemma seller_counter_in_round buyer_agent seller round_num s w s' w' :
  round_step buyer_agent seller round_num s w s' false w' ->
  current_round (context s') = round_num + 1
  /\ exists buyer_offer grown,
       PyFloat.int_mul_trunc buyer_offer
         (growth_factor (current_round (context s') - 1)) = Ok grown
       /\ seller_price s' = Z.max (min_price seller) grown.
Proof.
  intros H. inversion H as [ | | status offer bmsg w1 price msg Hturn Hst Hseller];
    subst. simpl. split; [reflexivity|].
  apply respond_to_buyer_Ok in Hseller.
  destruct Hseller as (threshold & _ & _ & _ & Hcounter).
  destruct (Hcounter eq_refl) as (grown & Hgrown & ->).
  exists offer, grown. replace (round_num + 1 - 1) with round_num by lia.
  split; [exact Hgrown | reflexivity].
Qed.

(** On numbers within the range of the float conversions the seller
    returns. *)
Lemma respond_to_buyer_defined self buyer_offer round_num :
  PyFloat.fits 1000 (min_price self) -> PyFloat.fits 1000 buyer_offer ->
  exists counter msg accepted,
    respond_to_buyer self buyer_offer round_num = Ok (counter, msg, accepted).
Proof.
  intros Hmin Hoffer.
  destruct (PyFloatFacts.int_mul_defined (min_price self) PyFloat.f1_1 1000 1
              ltac:(lia) ltac:(lia) Hmin PyFloatFacts.small_f1_1)
    as (threshold & Hthr).
  destruct (PyFloatFacts.int_mul_trunc_defined buyer_offer
              (growth_factor round_num) 1000 1
              ltac:(lia) ltac:(lia) Hoffer (small_growth_factor round_num))
    as (grown & Hgrown & _).
  unfold respond_to_buyer. rewrite Hthr. simpl bind_res.
  unfold growth_factor in Hgrown.
  destruct (PyFloat.int_ge buyer_offer threshold); [eauto|].
  destruct (8 <=? round_num); rewrite Hgrown; simpl bind_res; eauto.
Qed.

(* ===================================================================== *)
(** * The final-round fallback *)
(* ===================================================================== *)

(** C6, as stated, fails for the deterministic buyer: in round 10 it
    answers the affordable price 170000 (budget 216000) with a counter,
    because 170000 is above 90% of the market price. *)
Lemma final_round_fallback_counterexample :
  ~ accepts_affordable_final_offer NegotiationAgent.respond_to_seller_offer.
Proof.
  intros Hclaim.
  assert (Hrun : exists counter msg w',
             NegotiationAgent.respond_to_seller_offer
               (alphonso_context 216000 10 [169999]) 170000
               "Final offer."%string offline_world
             = Ok (ONGOING, counter, msg, w'))
    by (do 3 eexists; vm_compute; reflexivity).
  destruct Hrun as (counter & msg & w' & Hrun).
  apply Hclaim in Hrun; [discriminate | reflexivity | simpl; lia].
Qed.

(** C6, amended.  The fallback belongs to the chat-backed buyer only.
    In the final round ([current_round >= 10]), for a seller price within
    budget:
    - whenever its [respond_to_seller_offer] returns, it returns
      ACCEPTED at the seller's price, whatever the reply says;
    - it does return when the service replies, the numbers shown in the
      prompt can be printed and the market price is in the range of the
      float conversions, provided the price is at most the market price
      or the number of the reply's [counter_offer] field, which is
      converted before the fallback is reached, has at most 4300 digits
      (or there is no such field);
    - with a price above the market price and a [counter_offer] field of
      more than 4300 digits it raises ValueError instead.
    The deterministic buyer has no fallback: in every round, the final
    one included, it accepts exactly the prices that are within budget
    and at most 90% of the market price. *)
Theorem final_round_fallback context seller_price seller_message w :
  (10 <= current_round context ->
   seller_price <= your_budget context ->
   (forall status counter msg w',
      BuyerAgentTeam.respond_to_seller_offer context seller_price
        seller_message w = Ok (status, counter, msg, w') ->
      status = ACCEPTED /\ counter = seller_price)
   /\ (forall text,
         chat_replies w (chats_used w) = ChatReturns text ->
         printable_response context seller_price ->
         PyFloat.fits 1000 (base_market_price (product context)) ->
         (seller_price <= base_market_price (product context)
          \/ exists parsed,
               Text.search_number "counter_offer:" text = Ok parsed) ->
         exists msg w',
           BuyerAgentTeam.respond_to_seller_offer context seller_price
             seller_message w = Ok (ACCEPTED, seller_price, msg, w'))
   /\ (forall text,
         chat_replies w (chats_used w) = ChatReturns text ->
         printable_response context seller_price ->
         PyFloat.fits 1000 (base_market_price (product context)) ->
         base_market_price (product context) < seller_price ->
         Text.search_number "counter_offer:" text = Raise ValueError ->
         BuyerAgentTeam.respond_to_seller_offer context seller_price
           seller_message w = Raise ValueError))
  /\ (forall status counter msg w',
        NegotiationAgent.respond_to_seller_offer context seller_price
          seller_message w = Ok (status, counter, msg, w') ->
        (status = ACCEPTED <->
         at_most_90_percent (base_market_price (product context)) seller_price
         /\ seller_price <= your_budget context)).
Proof.
  split.
  - intros Hround Hbudget.
    assert (Hruns : forall text,
              chat_replies w (chats_used w) = ChatReturns text ->
              printable_response context seller_price ->
              PyFloat.fits 1000 (base_market_price (product context)) ->
              exists w',
                BuyerAgentTeam.respond_to_seller_offer context seller_price
                  seller_message w
                = if seller_price <=? base_market_price (product context)
                  then Ok (ACCEPTED, seller_price,
                           ("Deal accepted at " ++ rupees seller_price
                            ++ ". You’re lucky I’m closing now.")%string, w')
                  else
                    match Text.search_number "counter_offer:" text with
                    | Raise e => Raise e
                    | Ok parsed =>
                        Ok (ACCEPTED, seller_price,
                            ("Fine, I’ll take " ++ rupees seller_price
                             ++ ". Let’s close this now.")%string, w')
                    end).
    { intros text Hreply Hprint Hfits.
      destruct (PyFloatFacts.int_mul_trunc_defined
                  (base_market_price (product context)) PyFloat.f0_9 1000 0
                  ltac:(lia) ltac:(lia) Hfits PyFloatFacts.small_f0_9)
        as (fallback & Hfallback & _).
      destruct (BuyerAgentTeamFacts.acceptance_test_defined context
                  seller_price Hfits) as (accept & Haccept & Hlate).
      destruct (BuyerAgentTeamFacts.chat_respond_returns context seller_price
                  seller_message w text fallback accept Hreply Hprint
                  Hfallback Haccept) as (w' & _ & Hrun).
      exists w'. rewrite Hrun, (Hlate ltac:(lia) Hbudget).
      destruct (seller_price <=? base_market_price (product context));
        [reflexivity|].
      destruct (Text.search_number "counter_offer:" text); [|reflexivity].
      assert (Hfinal : (10 <=? current_round context)
                       && (seller_price <=? your_budget context) = true)
        by (apply andb_true_intro; split; apply Z.leb_le; assumption).
      rewrite Hfinal. reflexivity. }
    split; [|split].
    + intros status counter msg w' H.
      apply BuyerAgentTeamFacts.chat_respond_cases in H.
      destruct H as (text & fallback & _ & _
                     & [(Hst & Hc & _) | (_ & _ & _ & Hnot)]);
        [split; assumption | exfalso; apply Hnot; split; assumption].
    + intros text Hreply Hprint Hfits Hcase.
      destruct (Hruns text Hreply Hprint Hfits) as (w' & Hrun).
      rewrite Hrun.
      destruct (Z.leb_spec seller_price (base_market_price (product context)))
        as [Hle|Hgt]; [eauto|].
      destruct Hcase as [Hle | (parsed & Hparsed)]; [lia|].
      rewrite Hparsed. eauto.
    + intros text Hreply Hprint Hfits Hgt Hparse.
      destruct (Hruns text Hreply Hprint Hfits) as (w' & Hrun).
      rewrite Hrun, Hparse.
      destruct (Z.leb_spec seller_price (base_market_price (product context)))
        as [Hle|_]; [lia | reflexivity].
  - intros status counter msg w' H.
    unfold NegotiationAgent.respond_to_seller_offer,
      NegotiationAgent.evaluate_batna in H.
    apply bind_Ok in H. destruct H as (batna & w1 & Hbatna & H).
    apply lift_Ok in Hbatna. destruct Hbatna as [Hbatna ->].
    apply bind_res_Ok in Hbatna. destruct Hbatna as (limit & Hlimit & Hbatna).
    injection Hbatna as <-.
    apply bind_Ok in H. destruct H as (below & w2 & Hbelow & H).
    apply lift_Ok in Hbelow. destruct Hbelow as [Hbelow ->].
    rewrite Hlimit in Hbelow. simpl in Hbelow.
    unfold at_most_90_percent. rewrite Hlimit.
    destruct (PyFloat.int_le seller_price limit) eqn:Ele;
      destruct (Z.leb_spec seller_price (your_budget context)) as [Hb|Hb];
      simpl in Hbelow; injection Hbelow as <-.
    + apply ret_Ok in H. destruct H as [H _]. injection H as -> _ _.
      split; [intros _; split; [eauto | exact Hb] | reflexivity].
    + apply bind_Ok in H. destruct H as (c & w3 & _ & H).
      apply bind_Ok in H. destruct H as (m & w4 & _ & H).
      apply ret_Ok in H. destruct H as [H _]. injection H as -> _ _.
      split; [discriminate | intros [_ Hle]; lia].
    + apply bind_Ok in H. destruct H as (c & w3 & _ & H).
      apply bind_Ok in H. destruct H as (m & w4 & _ & H).
      apply ret_Ok in H. destruct H as [H _]. injection H as -> _ _.
      split; [discriminate|].
      intros [(limit' & Hl & Hle) _]. injection Hl as <-. congruence.
    + apply bind_Ok in H. destruct H as (c & w3 & _ & H).
      apply bind_Ok in H. destruct H as (m & w4 & _ & H).
      apply ret_Ok in H. destruct H as [H _]. injection H as -> _ _.
      split; [discriminate | intros [_ Hle]; lia].
Qed.

(** Witness for C6: round 10, budget 216000; the chat-backed buyer takes
    the seller's 200000 although it is above the market price. *)
Lemma final_round_fallback_witness :
  exists msg w',
    BuyerAgentTeam.respond_to_seller_offer
      (alphonso_context 216000 10 [169999]) 200000 "Final offer."%string
      (constant_world 0 (ChatReturns "counter_offer: 150000"%string))
    = Ok (ACCEPTED, 200000, msg, w').
Proof.
  apply (proj1 (proj2 (proj1 (final_round_fallback
                  (alphonso_context 216000 10 [169999]) 200000
                  "Final offer."%string
                  (constant_world 0
                     (ChatReturns "counter_offer: 150000"%string)))
               ltac:(simpl; lia) ltac:(simpl; lia)))
           "counter_offer: 150000"%string).
  - reflexivity.
  - solve_printable.
  - apply (PyFloatFacts.fits_mono 18); [lia | reflexivity].
  - right. eexists. vm_compute. reflexivity.
Defined.

(* ===================================================================== *)
(** * The chat service and the buyer's decisions *)
(* ===================================================================== *)

(** C7, as stated, fails: when the chat service is unavailable, the
    buyer's first call raises and the whole session fails with it; and
    when the service replies, the counter price is the one found in the
    reply (two replies, two counters). *)
Lemma external_service_independence_counterexample :
  run_negotiation_test BuyerAgentTeam.YourBuyerAgent alphonso 216000 144000
    offline_world = Raise ExternalServiceError
  /\ (exists msg w',
        BuyerAgentTeam.respond_to_seller_offer
          (alphonso_context 216000 2 [117000]) 200000 "I can come down."%string
          (constant_world 0 (ChatReturns "counter_offer: 150000"%string))
        = Ok (ONGOING, 150000, msg, w'))
  /\ (exists msg w',
        BuyerAgentTeam.respond_to_seller_offer
          (alphonso_context 216000 2 [117000]) 200000 "I can come down."%string
          (constant_world 0 (ChatReturns "counter_offer: 120000"%string))
        = Ok (ONGOING, 120000, msg, w')).
Proof.
  split; [vm_compute; reflexivity|].
  split; do 2 eexists; vm_compute; reflexivity.
Qed.

(** C7, amended.  For a market price within the range of the float
    conversions and numbers that the prompts can print, the chat-backed
    buyer behaves as follows.
    - If [import ollama] or the chat call raises,
      [respond_to_seller_offer] and [generate_opening_offer] raise: there
      is no local recovery.
    - If the call returns, the accept-or-counter decision is the same for
      every reply; an acceptance is at the seller's price.
    - A counter is [min(n, budget)] when the reply has a [counter_offer]
      field that [int] reads as [n], and a local fallback price, the same
      for every reply, when it has none; the message is the reply's
      [message] field or a fixed text.  A field of more than 4300 digits
      makes the method raise ValueError, unless the price was accepted
      before the field was read.  Likewise the opening offer is
      [min(n, budget)] for an [offer_amount] field and a local fallback
      price otherwise, and ValueError for a field of more than 4300
      digits. *)
Theorem external_service_dependence context seller_price seller_message :
  PyFloat.fits 1000 (base_market_price (product context)) ->
  printable_response context seller_price ->
  printable_opening context ->
  (forall w,
     chat_replies w (chats_used w) = ImportRaises
     \/ chat_replies w (chats_used w) = ChatRaises ->
     BuyerAgentTeam.respond_to_seller_offer context seller_price
       seller_message w = Raise ExternalServiceError
     /\ BuyerAgentTeam.generate_opening_offer context w
        = Raise ExternalServiceError)
  /\ (exists status fallback,
        (status = ACCEPTED \/ status = ONGOING)
        /\ forall w text,
             chat_replies w (chats_used w) = ChatReturns text ->
             (forall parsed,
                Text.search_number "counter_offer:" text = Ok parsed ->
                exists counter msg w',
                  BuyerAgentTeam.respond_to_seller_offer context seller_price
                    seller_message w = Ok (status, counter, msg, w')
                  /\ (status = ACCEPTED -> counter = seller_price)
                  /\ (status = ONGOING ->
                      counter = counter_from_reply parsed
                                  (your_budget context) fallback
                      /\ msg = message_from_reply text
                                 "I’ll consider my next move."))
             /\ (Text.search_number "counter_offer:" text = Raise ValueError ->
                 BuyerAgentTeam.respond_to_seller_offer context seller_price
                   seller_message w = Raise ValueError
                 \/ (status = ACCEPTED
                     /\ exists msg w',
                          BuyerAgentTeam.respond_to_seller_offer context
                            seller_price seller_message w
                          = Ok (ACCEPTED, seller_price, msg, w'))))
  /\ (exists fallback,
        forall w text,
          chat_replies w (chats_used w) = ChatReturns text ->
          (forall parsed,
             Text.search_number "offer_amount:" text = Ok parsed ->
             exists w',
               BuyerAgentTeam.generate_opening_offer context w
               = Ok (counter_from_reply parsed (your_budget context) fallback,
                     message_from_reply text "Let's begin.", w'))
          /\ (Text.search_number "offer_amount:" text = Raise ValueError ->
              BuyerAgentTeam.generate_opening_offer context w
              = Raise ValueError)).
Proof.
  intros Hfits Hresponse Hopening.
  destruct (PyFloatFacts.int_mul_trunc_defined
              (base_market_price (product context)) PyFloat.f0_9 1000 0
              ltac:(lia) ltac:(lia) Hfits PyFloatFacts.small_f0_9)
    as (fallback9 & Hfallback9 & _).
  destruct (PyFloatFacts.int_mul_trunc_defined
              (base_market_price (product context)) PyFloat.f0_8 1000 0
              ltac:(lia) ltac:(lia) Hfits PyFloatFacts.small_f0_8)
    as (fallback8 & Hfallback8 & _).
  destruct (BuyerAgentTeamFacts.acceptance_test_defined context seller_price
              Hfits) as (accept & Haccept & _).
  split; [| split].
  - intros w Hreply.
    split; [unfold BuyerAgentTeam.respond_to_seller_offer
           |unfold BuyerAgentTeam.generate_opening_offer];
      apply BuyerAgentTeamFacts.chat_call_raises;
      (destruct Hreply as [Hreply|Hreply]; [left; exact Hreply | right]);
      (split; [exact Hreply|]).
    + apply BuyerAgentTeamFacts.printable_response_fields. exact Hresponse.
    + apply BuyerAgentTeamFacts.printable_opening_fields. exact Hopening.
  - set (final := (10 <=? current_round context)
                  && (seller_price <=? your_budget context)).
    exists (if accept then ACCEPTED else if final then ACCEPTED else ONGOING),
           fallback9.
    split; [destruct accept, final; auto|].
    intros w text Hreply.
    destruct (BuyerAgentTeamFacts.chat_respond_returns context seller_price
                seller_message w text fallback9 accept Hreply Hresponse
                Hfallback9 Haccept) as (w' & _ & Hrun).
    fold final in Hrun. rewrite Hrun. split.
    + intros parsed Hparsed. rewrite Hparsed.
      destruct accept; [| destruct final]; do 3 eexists;
        (split; [reflexivity|]); split; try discriminate; auto.
    + intros Hparse. rewrite Hparse.
      destruct accept; [right; split; [reflexivity | eauto] | left; reflexivity].
  - exists fallback8. intros w text Hreply.
    destruct (BuyerAgentTeamFacts.chat_opening_returns context w text
                fallback8 Hreply Hopening Hfallback8) as (w' & _ & Hrun).
    rewrite Hrun. split.
    + intros parsed Hparsed. rewrite Hparsed. eauto.
    + intros Hparse. rewrite Hparse. reflexivity.
Qed.

(** Witness for C7: round 2 of a session on the Alphonso product. *)
Lemma external_service_dependence_witness :
  BuyerAgentTeam.respond_to_seller_offer
    (alphonso_context 216000 2 [117000]) 200000 "I can come down."%string
    offline_world = Raise ExternalServiceError.
Proof.
  apply (proj1 (external_service_dependence
                  (alphonso_context 216000 2 [117000]) 200000
                  "I can come down."%string
                  ltac:(apply (PyFloatFacts.fits_mono 18);
                        [lia | reflexivity])
                  ltac:(solve_printable) ltac:(solve_printable))).
  right. reflexivity.
Defined.

(* ===================================================================== *)
(** * Randomness reaches the texts only *)
(* ===================================================================== *)

Section Determinism.

Import NegotiationAgent NegotiationAgentFacts.

Variable seller : MockSellerAgent.

(** The numeric helpers read the numbers of the context only. *)
Lemma helpers_same_numbers c1 c2 seller_price :
  same_numbers c1 c2 ->
  anchor_opening_offer c1 = anchor_opening_offer c2
  /\ evaluate_batna c1 seller_price = evaluate_batna c2 seller_price
  /\ concession_pattern c1 seller_price = concession_pattern c2 seller_price
  /\ base_market_price (product c1) = base_market_price (product c2).
Proof.
  intros (Hp & Hb & Hr & _ & Ho).
  unfold anchor_opening_offer, evaluate_batna, concession_pattern.
  rewrite Hp, Hb, Hr, Ho. repeat split.
Qed.

(** The buyer's status and price do not depend on the world, on the
    seller's message or on the conversation so far. *)
Lemma buyer_turn_same_prices round_num c1 c2 s1 s2 w1 w2 :
  same_numbers c1 c2 -> seller_price s1 = seller_price s2 ->
  res_rel (fun a b => fst (fst (fst a)) = fst (fst (fst b))
                      /\ snd (fst (fst a)) = snd (fst (fst b)))
    (buyer_turn YourBuyerAgent round_num c1 s1 w1)
    (buyer_turn YourBuyerAgent round_num c2 s2 w2).
Proof.
  intros Hc Hs.
  destruct (helpers_same_numbers c1 c2 (seller_price s1) Hc)
    as (Hanchor & Hbatna & Hconc & Hmarket).
  unfold buyer_turn. simpl.
  unfold generate_opening_offer, respond_to_seller_offer, bind, lift, ret.
  rewrite <- Hs, <- Hanchor, <- Hbatna, <- Hconc, <- Hmarket.
  destruct (round_num =? 0).
  - destruct (anchor_opening_offer c1); simpl; auto.
  - destruct (evaluate_batna c1 (seller_price s1)) as [batna|e];
      [| reflexivity].
    destruct batna.
    + destruct (PyFloat.int_mul (base_market_price (product c1)) PyFloat.f0_9)
        as [limit|e]; [| reflexivity].
      cbn [bind_res].
      destruct (PyFloat.int_le (seller_price s1) limit); [simpl; auto|].
      destruct (concession_pattern c1 (seller_price s1)) as [counter|e];
        [| reflexivity].
      cbv beta iota.
      destruct (mirror_and_frame_returns (seller_msg s1) counter w1)
        as (t1 & w1' & ->).
      destruct (mirror_and_frame_returns (seller_msg s2) counter w2)
        as (t2 & w2' & ->).
      simpl. auto.
    + destruct (concession_pattern c1 (seller_price s1)) as [counter|e];
        [| reflexivity].
      cbv beta iota.
      destruct (mirror_and_frame_returns (seller_msg s1) counter w1)
        as (t1 & w1' & ->).
      destruct (mirror_and_frame_returns (seller_msg s2) counter w2)
        as (t2 & w2' & ->).
      simpl. auto.
Qed.

Lemma round_body_same_prices round_num s1 s2 w1 w2 :
  same_prices s1 s2 ->
  res_rel (fun a b => same_prices (fst (fst a)) (fst (fst b))
                      /\ snd (fst a) = snd (fst b))
    (round_body YourBuyerAgent seller round_num s1 w1)
    (round_body YourBuyerAgent seller round_num s2 w2).
Proof.
  intros (Hc & Hs & Hd & Hf).
  assert (Hc' : same_numbers (set_round (context s1) (round_num + 1))
                             (set_round (context s2) (round_num + 1))).
  { destruct Hc as (Hp & Hb & Hr & Hso & Ho).
    unfold same_numbers; simpl. repeat split; assumption. }
  pose proof (buyer_turn_same_prices round_num _ _ s1 s2 w1 w2 Hc' Hs) as Hturn.
  unfold round_body, bind.
  destruct (buyer_turn YourBuyerAgent round_num
              (set_round (context s1) (round_num + 1)) s1 w1)
    as [[[[status1 offer1] msg1] w1']|e1];
    destruct (buyer_turn YourBuyerAgent round_num
                (set_round (context s2) (round_num + 1)) s2 w2)
      as [[[[status2 offer2] msg2] w2']|e2];
    simpl in Hturn; try contradiction; [| exact Hturn].
  destruct Hturn as [<- <-].
  destruct Hc as (Hp & Hb & Hr & Hso & Ho).
  destruct (DealStatus_eqb status1 ACCEPTED).
  - simpl. unfold same_prices, same_numbers; simpl.
    rewrite Hp, Hb, Hso, Ho, Hs. repeat split.
  - unfold lift.
    destruct (respond_to_buyer seller offer1 round_num)
      as [[[price smsg] accepts]|e]; simpl; [| reflexivity].
    destruct accepts; simpl; unfold same_prices, same_numbers; simpl;
      rewrite Hp, Hb, Hso, Ho, ?Hd, ?Hf; repeat split.
Qed.

Lemma for_rounds_same_prices rounds : forall s1 s2 w1 w2,
  same_prices s1 s2 ->
  res_rel (fun a b => same_prices (fst a) (fst b))
    (for_rounds YourBuyerAgent seller rounds s1 w1)
    (for_rounds YourBuyerAgent seller rounds s2 w2).
Proof.
  induction rounds as [|round_num rest IH]; intros s1 s2 w1 w2 Hs.
  - simpl. exact Hs.
  - pose proof (round_body_same_prices round_num s1 s2 w1 w2 Hs) as Hbody.
    simpl. unfold bind.
    destruct (round_body YourBuyerAgent seller round_num s1 w1)
      as [[[s1' broke1] w1']|e1];
      destruct (round_body YourBuyerAgent seller round_num s2 w2)
        as [[[s2' broke2] w2']|e2];
      simpl in Hbody; try contradiction; [| exact Hbody].
    destruct Hbody as [Hs' <-].
    destruct broke1; [exact Hs' | apply IH; exact Hs'].
Qed.

End Determinism.

(** C10.  Outcome determinism.  Two runs of [run_negotiation_test] with
    the deterministic [YourBuyerAgent] on the same product, budget and
    seller floor, in any two worlds (any two sequences of random draws),
    end alike: both return, with the same [deal_made], [final_price],
    [rounds], [savings], [savings_pct] and [below_market_pct], or both
    raise the same exception.  The draws of [random.choice] reach the
    message texts only. *)
Theorem outcome_determinism product buyer_budget seller_min w1 w2 :
  outcome (run_negotiation_test NegotiationAgent.YourBuyerAgent product
             buyer_budget seller_min w1)
  = outcome (run_negotiation_test NegotiationAgent.YourBuyerAgent product
               buyer_budget seller_min w2).
Proof.
  unfold run_negotiation_test, negotiate, bind, lift.
  destruct (open_session product buyer_budget seller_min) as [s0|e];
    [| reflexivity].
  assert (Hs0 : same_prices s0 s0)
    by (unfold same_prices, same_numbers; repeat split).
  pose proof (for_rounds_same_prices (the_seller seller_min) (range 10)
                s0 s0 w1 w2 Hs0) as Hloop.
  destruct (for_rounds NegotiationAgent.YourBuyerAgent (the_seller seller_min)
              (range 10) s0 w1) as [[s1 w1']|e1];
    destruct (for_rounds NegotiationAgent.YourBuyerAgent
                (the_seller seller_min) (range 10) s0 w2) as [[s2 w2']|e2];
    simpl in Hloop; try contradiction; [| congruence].
  destruct Hloop as ((_ & _ & Hr & _ & _) & _ & Hd & Hf).
  unfold summary. rewrite <- Hd, <- Hf, <- Hr.
  destruct (deal_made s1); [| reflexivity].
  destruct (final_price s1) as [price|]; [| reflexivity].
  destruct (percentage buyer_budget price) as [pct1|e1]; [| reflexivity].
  simpl.
  destruct (percentage (base_market_price product) price) as [pct2|e2];
    reflexivity.
Qed.

(* ===================================================================== *)
(** * The deterministic session always runs to its end *)
(* ===================================================================== *)

Section Totality.

Import NegotiationAgent NegotiationAgentFacts PyFloatFacts.

Variable seller : MockSellerAgent.

Lemma last_fits k (l : list Z) :
  l <> [] -> Forall (PyFloat.fits k) l -> PyFloat.fits k (last l 0).
Proof.
  intros Hne Hall.
  destruct (exists_last Hne) as (l' & a & ->).
  rewrite last_last. rewrite Forall_forall in Hall.
  apply Hall. apply in_or_app. right. left. reflexivity.
Qed.

(** The buyer's turn returns on numbers of at most [k] bits. *)
Lemma buyer_turn_total round_num c s w k :
  700 <= k <= 950 ->
  PyFloat.fits 700 (base_market_price (product c)) ->
  PyFloat.fits 700 (your_budget c) ->
  PyFloat.fits k (seller_price s) ->
  Forall (PyFloat.fits k) (your_offers c) ->
  exists status offer msg w',
    buyer_turn YourBuyerAgent round_num c s w = Ok (status, offer, msg, w')
    /\ PyFloat.fits (k + 12) offer.
Proof.
  intros Hk Hmarket Hbudget Hprice Hoffers.
  assert (Hbudget' : PyFloat.fits k (your_budget c))
    by (apply (fits_mono 700); [lia | exact Hbudget]).
  unfold buyer_turn. simpl.
  destruct (round_num =? 0).
  - destruct (int_mul_trunc_defined (base_market_price (product c))
                PyFloat.f0_65 700 0 ltac:(lia) ltac:(lia) Hmarket small_f0_65)
      as (anchor & Hanchor & Hfit & _).
    unfold generate_opening_offer, anchor_opening_offer, bind, lift, ret.
    rewrite Hanchor. simpl. do 4 eexists. split; [reflexivity|].
    apply fits_min.
    + apply (fits_mono 710); [lia | exact Hfit].
    + apply (fits_mono 700); [lia | exact Hbudget].
  - destruct (int_mul_defined (base_market_price (product c))
                PyFloat.f0_9 700 0 ltac:(lia) ltac:(lia) Hmarket small_f0_9)
      as (limit & Hlimit).
    assert (Hconc : exists concession,
               (if current_round c <? 3
                then PyFloat.int_mul_trunc (seller_price s) PyFloat.f0_05
                else if current_round c <? 7
                then PyFloat.int_mul_trunc (seller_price s) PyFloat.f0_1
                else PyFloat.int_mul_trunc (seller_price s) PyFloat.f0_15)
               = Ok concession /\ PyFloat.fits (k + 10) concession).
    { destruct (current_round c <? 3); [| destruct (current_round c <? 7)].
      - destruct (int_mul_trunc_defined (seller_price s) PyFloat.f0_05 k 0
                    ltac:(lia) ltac:(lia) Hprice small_f0_05)
          as (z & Hz & Hfit & _); eauto.
      - destruct (int_mul_trunc_defined (seller_price s) PyFloat.f0_1 k 0
                    ltac:(lia) ltac:(lia) Hprice small_f0_1)
          as (z & Hz & Hfit & _); eauto.
      - destruct (int_mul_trunc_defined (seller_price s) PyFloat.f0_15 k 0
                    ltac:(lia) ltac:(lia) Hprice small_f0_15)
          as (z & Hz & Hfit & _); eauto. }
    destruct Hconc as (concession & Hconc & Hcfit).
    assert (Hlast : PyFloat.fits (k + 10)
                      match your_offers c with
                      | [] => your_budget c
                      | _ :: _ => last (your_offers c) 0
                      end).
    { apply (fits_mono k); [lia|].
      destruct (your_offers c) as [|o l] eqn:Eo; [exact Hbudget'|].
      apply last_fits; [discriminate | exact Hoffers]. }
    assert (Hcounter : PyFloat.fits (k + 12)
                         (Z.min (Z.min (match your_offers c with
                                        | [] => your_budget c
                                        | _ :: _ => last (your_offers c) 0
                                        end + concession) (your_budget c))
                                (seller_price s - 1))).
    { apply (fits_mono (k + 10 + 1)); [lia|].
      apply fits_min; [apply fits_min|].
      - apply fits_add; [lia | exact Hlast | exact Hcfit].
      - apply (fits_mono k); [lia | exact Hbudget'].
      - apply (fits_mono (k + 1)); [lia|].
        apply fits_pred; [lia | exact Hprice]. }
    unfold respond_to_seller_offer, evaluate_batna, concession_pattern,
      bind, lift, ret.
    rewrite Hlimit, Hconc. cbn [bind_res].
    destruct (PyFloat.int_le (seller_price s) limit
              && (seller_price s <=? your_budget c));
      [destruct (PyFloat.int_le (seller_price s) limit)|];
      cbv beta iota;
      try match goal with
          | |- context [mirror_and_frame ?m ?o ?w0] =>
              destruct (mirror_and_frame_returns m o w0) as (text & w1 & ->)
          end;
      do 4 eexists; (split; [reflexivity|]);
      try exact Hcounter.
    apply (fits_mono k); [lia | exact Hprice].
Qed.

(** The seller returns on numbers of at most [k] bits. *)
Lemma respond_to_buyer_total buyer_offer round_num k :
  700 <= k <= 1000 ->
  PyFloat.fits 700 (min_price seller) -> PyFloat.fits k buyer_offer ->
  exists price msg accepts,
    respond_to_buyer seller buyer_offer round_num = Ok (price, msg, accepts)
    /\ PyFloat.fits (k + 10) price.
Proof.
  intros Hk Hmin Hoffer.
  destruct (respond_to_buyer_defined seller buyer_offer round_num
              ltac:(apply (fits_mono 700); [lia | exact Hmin])
              ltac:(apply (fits_mono k); [lia | exact Hoffer]))
    as (counter & msg & accepted & Hrun).
  exists counter, msg, accepted. split; [exact Hrun|].
  apply respond_to_buyer_Ok in Hrun.
  destruct Hrun as (threshold & _ & _ & Hacc & Hrej).
  destruct accepted.
  - rewrite (Hacc eq_refl). apply (fits_mono k); [lia | exact Hoffer].
  - destruct (Hrej eq_refl) as (grown & Hgrown & ->).
    destruct (int_mul_trunc_defined buyer_offer (growth_factor round_num) k 1
                ltac:(lia) ltac:(lia) Hoffer (small_growth_factor round_num))
      as (grown' & Hgrown' & Hfit & _).
    rewrite Hgrown in Hgrown'. injection Hgrown' as <-.
    apply fits_max; [apply (fits_mono 700); [lia | exact Hmin] | exact Hfit].
Qed.

Lemma bounded_session_mono k k' s :
  0 <= k <= k' -> bounded_session seller k s -> bounded_session seller k' s.
Proof.
  intros Hk (Hm & Hb & Hmin & Hp & Ho & Hd).
  repeat (split; [assumption|]).
  split; [apply (fits_mono k); assumption|].
  split.
  - eapply Forall_impl; [| exact Ho]. intros a. apply fits_mono. exact Hk.
  - intros Hdeal. destruct (Hd Hdeal) as (price & Hf & Hfit).
    exists price. split; [exact Hf | apply (fits_mono k); assumption].
Qed.

(** A round of the deterministic buyer against the seller returns, and
    the numbers grow by at most 22 bits. *)
Lemma round_body_total round_num s w k :
  700 <= k <= 950 -> bounded_session seller k s ->
  exists s' broke w',
    round_body YourBuyerAgent seller round_num s w = Ok (s', broke, w')
    /\ bounded_session seller (k + 22) s'.
Proof.
  intros Hk Hs.
  pose proof (bounded_session_mono k (k + 22) s ltac:(lia) Hs)
    as (Hm & Hb & Hmin & Hp' & Ho' & Hd').
  destruct Hs as (_ & _ & _ & Hp & Ho & Hd).
  destruct (buyer_turn_total round_num
              (set_round (context s) (round_num + 1)) s w k Hk Hm Hb Hp Ho)
    as (status & offer & bmsg & w1 & Hturn & Hoffer).
  assert (Hoffer' : PyFloat.fits (k + 22) offer)
    by (apply (fits_mono (k + 12)); [lia | exact Hoffer]).
  assert (Hall : Forall (PyFloat.fits (k + 22))
                   (your_offers (context s) ++ [offer]))
    by (apply Forall_app; split; [exact Ho' | constructor; [exact Hoffer' | constructor]]).
  unfold round_body, bind. rewrite Hturn.
  destruct (DealStatus_eqb status ACCEPTED).
  - do 3 eexists. split; [reflexivity|].
    unfold bounded_session; simpl.
    repeat (split; [assumption|]). intros _. eauto.
  - destruct (respond_to_buyer_total offer round_num (k + 12)
                ltac:(lia) Hmin Hoffer)
      as (price & smsg & accepts & Hseller & Hprice).
    replace (k + 12 + 10) with (k + 22) in Hprice by lia.
    unfold lift. rewrite Hseller.
    destruct accepts; do 3 eexists; (split; [reflexivity|]);
      unfold bounded_session; simpl;
      repeat (split; [assumption|]).
    + intros _. eauto.
    + exact Hd'.
Qed.

Lemma for_rounds_total rounds : forall s w k,
  700 <= k -> k + 22 * Z.of_nat (List.length rounds) <= 972 ->
  bounded_session seller k s ->
  exists s' w',
    for_rounds YourBuyerAgent seller rounds s w = Ok (s', w')
    /\ bounded_session seller (k + 22 * Z.of_nat (List.length rounds)) s'.
Proof.
  induction rounds as [|round_num rest IH]; intros s w k Hk Hlen Hs.
  - exists s, w. split; [reflexivity|].
    simpl. replace (k + 0) with k by lia. exact Hs.
  - simpl List.length in *.
    destruct (round_body_total round_num s w k ltac:(lia) Hs)
      as (s1 & broke & w1 & Hbody & Hs1).
    cbn [for_rounds]. unfold bind. rewrite Hbody. destruct broke.
    + exists s1, w1. split; [reflexivity|].
      apply (bounded_session_mono (k + 22)); [lia | exact Hs1].
    + destruct (IH s1 w1 (k + 22) ltac:(lia) ltac:(lia) Hs1)
        as (s' & w' & Hrest & Hs').
      exists s', w'. split; [exact Hrest|].
      replace (k + 22 * Z.of_nat (S (List.length rest)))
        with (k + 22 + 22 * Z.of_nat (List.length rest)) by lia.
      exact Hs'.
Qed.

End Totality.

(** The rounds of a session of the deterministic buyer are played to the
    end whenever market price, budget and seller floor have at most 700
    bits, whatever their signs. *)
Lemma negotiate_total item buyer_budget seller_min w :
  PyFloat.fits 700 (base_market_price item) ->
  PyFloat.fits 700 buyer_budget -> PyFloat.fits 700 seller_min ->
  exists s w',
    negotiate NegotiationAgent.YourBuyerAgent item buyer_budget seller_min
      (range 10) w = Ok (s, w')
    /\ bounded_session (the_seller seller_min) 930 s.
Proof.
  intros Hm Hb Hmin.
  destruct (PyFloatFacts.int_mul_trunc_defined (base_market_price item)
              PyFloat.f1_5 700 1 ltac:(lia) ltac:(lia) Hm
              PyFloatFacts.small_f1_5)
    as (opening & Hopening & Hfit & _).
  assert (Hopen : exists s0,
             open_session item buyer_budget seller_min = Ok s0
             /\ bounded_session (the_seller seller_min) 710 s0).
  { unfold open_session, get_opening_price. rewrite Hopening.
    eexists. split; [reflexivity|].
    unfold bounded_session; simpl.
    repeat (split; [assumption|]).
    split; [constructor | discriminate]. }
  destruct Hopen as (s0 & Hopen & Hs0).
  destruct (for_rounds_total (the_seller seller_min) (range 10) s0 w 710
              ltac:(lia) ltac:(simpl; lia) Hs0)
    as (s & w' & Hloop & Hs).
  exists s, w'. unfold negotiate, bind, lift. rewrite Hopen.
  split; [exact Hloop | exact Hs].
Qed.

(** The summary of a finished session fails only by a division by zero:
    when a deal was made and the budget or the market price is 0. *)
Lemma summary_total item buyer_budget k s :
  0 <= k <= 990 ->
  PyFloat.fits k buyer_budget -> PyFloat.fits k (base_market_price item) ->
  (deal_made s = true ->
   exists price, final_price s = Some price /\ PyFloat.fits k price) ->
  if deal_made s && ((buyer_budget =? 0) || (base_market_price item =? 0))
  then summary item buyer_budget s = Raise ZeroDivisionError
  else exists r, summary item buyer_budget s = Ok r.
Proof.
  intros Hk Hb Hm Hd. unfold summary.
  destruct (deal_made s); simpl; [| eauto].
  destruct (Hd eq_refl) as (price & -> & Hfit).
  unfold percentage.
  destruct (Z.eqb_spec buyer_budget 0) as [->|Hb0]; simpl.
  - reflexivity.
  - destruct (PyFloatFacts.int_truediv_defined (buyer_budget - price)
                buyer_budget (k + 1) ltac:(lia)
                ltac:(apply PyFloatFacts.fits_sub; [lia | exact Hb | exact Hfit])
                Hb0) as (q1 & Hq1).
    rewrite Hq1. simpl.
    destruct (Z.eqb_spec (base_market_price item) 0) as [Hm0|Hm0].
    + rewrite Hm0. reflexivity.
    + destruct (PyFloatFacts.int_truediv_defined
                  (base_market_price item - price) (base_market_price item)
                  (k + 1) ltac:(lia)
                  ltac:(apply PyFloatFacts.fits_sub; [lia | exact Hm | exact Hfit])
                  Hm0) as (q2 & Hq2).
      rewrite Hq2. simpl. eauto.
Qed.

(* ===================================================================== *)
(** * Configurations are not validated *)
(* ===================================================================== *)

(** C8, as stated, fails: with budget 0 the session is not rejected; the
    ten rounds are played (21 messages) and a result record is
    returned. *)
Lemma configuration_validation_counterexample :
  ~ rejects_invalid_configuration NegotiationAgent.YourBuyerAgent.
Proof.
  intros Hclaim.
  assert (Hrun : exists r w',
             run_negotiation_test NegotiationAgent.YourBuyerAgent alphonso
               0 144000 offline_world = Ok (r, w')
             /\ r_rounds r = 10
             /\ List.length (r_conversation r) = 21%nat)
    by (do 2 eexists; vm_compute; repeat split; reflexivity).
  destruct Hrun as (r & w' & Hrun & _).
  apply (Hclaim alphonso 0 144000 offline_world r w'); [left; lia | exact Hrun].
Qed.

(** C8, amended.  [run_negotiation_test] validates nothing and has no
    configurable round cap (the loop is [range(10)]).  For every market
    price, budget and seller floor of at most 700 bits, of any sign, the
    session of the deterministic buyer is played: between 1 and 10 rounds
    are run and the buyer's offers are recorded.  A result record is
    returned, except that a deal closed with a budget of 0 or a market
    price of 0 makes the percentage computation raise
    ZeroDivisionError. *)
Theorem no_configuration_validation product buyer_budget seller_min w :
  PyFloat.fits 700 (base_market_price product) ->
  PyFloat.fits 700 buyer_budget -> PyFloat.fits 700 seller_min ->
  exists s w',
    negotiate NegotiationAgent.YourBuyerAgent product buyer_budget seller_min
      (range 10) w = Ok (s, w')
    /\ 1 <= current_round (context s) <= 10
    /\ your_offers (context s) <> []
    /\ (if deal_made s
           && ((buyer_budget =? 0) || (base_market_price product =? 0))
        then run_negotiation_test NegotiationAgent.YourBuyerAgent product
               buyer_budget seller_min w = Raise ZeroDivisionError
        else exists r,
               run_negotiation_test NegotiationAgent.YourBuyerAgent product
                 buyer_budget seller_min w = Ok (r, w')).
Proof.
  intros Hm Hb Hmin.
  destruct (negotiate_total product buyer_budget seller_min w Hm Hb Hmin)
    as (s & w' & Hrun & Hs).
  exists s, w'. split; [exact Hrun|].
  pose proof Hrun as Hneg. apply negotiate_Ok in Hneg.
  destruct Hneg as (s0 & _ & Hloop & _ & _ & _ & Ho0 & Hd0 & Hf0).
  apply (for_rounds_counter _ _ 10 0) in Hloop;
    [| lia | rewrite Ho0; reflexivity | exact Hd0 | exact Hf0].
  destruct Hloop as (Hround & Hlen & _).
  split; [lia|]. split.
  - intros Hnil. rewrite Hnil in Hlen. simpl in Hlen. lia.
  - destruct Hs as (_ & _ & _ & _ & _ & Hd).
    pose proof (summary_total product buyer_budget 930 s ltac:(lia)
                  ltac:(apply (PyFloatFacts.fits_mono 700); [lia | exact Hb])
                  ltac:(apply (PyFloatFacts.fits_mono 700); [lia | exact Hm])
                  Hd) as Hsum.
    unfold run_negotiation_test, bind, lift. rewrite Hrun.
    destruct (deal_made s
              && ((buyer_budget =? 0) || (base_market_price product =? 0))).
    + rewrite Hsum. reflexivity.
    + destruct Hsum as (r & ->). eauto.
Qed.

(** Witness for C8: budget 0 on the Alphonso product. *)
Lemma no_configuration_validation_witness :
  exists s w',
    negotiate NegotiationAgent.YourBuyerAgent alphonso 0 144000
      (range 10) offline_world = Ok (s, w')
    /\ 1 <= current_round (context s) <= 10
    /\ your_offers (context s) <> [].
Proof.
  destruct (no_configuration_validation alphonso 0 144000 offline_world)
    as (s & w' & Hrun & Hround & Hoffers & _).
  - apply (PyFloatFacts.fits_mono 18); [lia | reflexivity].
  - apply (PyFloatFacts.fits_mono 18); [lia | reflexivity].
  - apply (PyFloatFacts.fits_mono 18); [lia | reflexivity].
  - exists s, w'. split; [exact Hrun | split; [exact Hround | exact Hoffers]].
Defined.

(* ===================================================================== *)
(** * Scenario A *)
(* ===================================================================== *)



(** The draws do reach the texts: in Scenario C the conversations of two
    worlds with different draws differ. *)
Lemma random_draws_change_the_texts :
  exists r1 r2 w1 w2,
    run_negotiation_test NegotiationAgent.YourBuyerAgent alphonso
      162000 243000 (constant_world 0 ChatRaises) = Ok (r1, w1)
    /\ run_negotiation_test NegotiationAgent.YourBuyerAgent alphonso
         162000 243000 (constant_world 1 ChatRaises) = Ok (r2, w2)
    /\ r_conversation r1 <> r_conversation r2
    /\ outcome_of r1 = outcome_of r2.
Proof.
  do 4 eexists.
  split; [vm_compute; reflexivity|].
  split; [vm_compute; reflexivity|].
  split; [| reflexivity].
  simpl. intros H. discriminate H.
Qed.

(* ===================================================================== *)
(** * The values of float products *)
(* ===================================================================== *)

Module PyFloatValues.
Import PyFloatFacts.

Lemma Zdigits2_lower m : 0 < m -> 2 ^ (Zdigits2 m - 1) <= m.
Proof.
  intros H. rewrite Zdigits2_log2 by lia.
  replace (Z.log2 m + 1 - 1) with (Z.log2 m) by lia. apply Z.log2_spec; lia.
Qed.

Lemma shr_fexp_value m e l :
  0 <= m ->
  let '(r, e') := shr_fexp PyFloat.prec PyFloat.emax m e l in
  e <= e' /\ shr_m r = m / 2 ^ (e' - e) /\ (e' = e -> r = shr_record_of_loc m l).
Proof.
  intros Hm. unfold shr_fexp, shr.
  assert (Hs : shr_m (shr_record_of_loc m l) = m) by (destruct l as [|[]]; reflexivity).
  destruct (fexp PyFloat.prec PyFloat.emax (Zdigits2 m + e) - e) as [|n|n] eqn:En.
  - replace (e - e) with 0 by lia. rewrite Z.div_1_r. auto with zarith.
  - split; [lia|]. split; [|intros; lia].
    rewrite iter_pos_shr_1_m by lia. rewrite Hs. f_equal. f_equal. lia.
  - replace (e - e) with 0 by lia. rewrite Z.div_1_r. auto with zarith.
Qed.

(** An integer below the exact value is below its truncation to 53
    bits, as long as the value is below [2^53]. *)
Lemma below_mantissa M e e1 m1 a :
  e <= 0 -> 0 < e1 - e ->
  2 ^ 52 * 2 ^ (e1 - e) <= M ->
  m1 * 2 ^ (e1 - e) <= M < (m1 + 1) * 2 ^ (e1 - e) ->
  M < 2 ^ (53 - e) ->
  a * 2 ^ (- e) <= M ->
  a * 2 ^ (- e) <= m1 * 2 ^ (e1 - e).
Proof.
  intros He Hpos Hbig Hdiv Hval Ha.
  assert (He1 : e1 <= 0).
  { rewrite <- Z.pow_add_r in Hbig by lia.
    assert (Hlt : 2 ^ (52 + (e1 - e)) < 2 ^ (53 - e)) by lia.
    apply Z.pow_lt_mono_r_iff in Hlt; lia. }
  replace (- e) with (- e1 + (e1 - e)) in * by lia.
  rewrite Z.pow_add_r in * by lia.
  set (P := 2 ^ (e1 - e)) in *. set (R := 2 ^ (- e1)) in *.
  assert (HP : 0 < P) by (apply Z.pow_pos_nonneg; lia).
  rewrite Z.mul_assoc in *.
  apply Z.mul_le_mono_nonneg_r; [lia|].
  assert (a * R * P < (m1 + 1) * P) by lia.
  apply Z.mul_lt_mono_pos_r in H; lia.
Qed.

Lemma binary_round_aux_near s M e :
  0 < M -> -1074 <= e <= 900 -> Zdigits2 M + e <= 1000 ->
  exists m' d,
    binary_round_aux PyFloat.prec PyFloat.emax s M e loc_Exact
      = S754_finite s m' (e + d)
    /\ 0 <= d <= Z.max 0 (Zdigits2 M - 52)
    /\ Z.pos m' < 2 ^ 53
    /\ (M < 2 ^ 53 -> d = 0 /\ Z.pos m' = M)
    /\ 2 ^ 52 * Z.abs (Z.pos m' * 2 ^ d - M) <= M
    /\ (e <= 0 -> M < 2 ^ (53 - e) ->
        forall a, a * 2 ^ (- e) <= M -> a * 2 ^ (- e) <= Z.pos m' * 2 ^ d).
Proof.
  intros HM He Hd. unfold binary_round_aux.
  pose proof (shr_fexp_value M e loc_Exact ltac:(lia)) as V1.
  pose proof (shr_fexp_spec M e loc_Exact ltac:(lia)) as S1.
  destruct (shr_fexp PyFloat.prec PyFloat.emax M e loc_Exact) as [r1 e1].
  destruct V1 as (Hle1 & Hm1 & Hex1). destruct S1 as (Hr1 & Hd1 & He1 & _).
  rewrite fexp_eq in He1.
  pose proof (Zdigits2_lower M HM) as Hlow.
  pose proof (Zdigits2_gt M ltac:(lia)) as Hup.
  set (D := Zdigits2 M) in *.
  assert (HD : 1 <= D).
  { unfold D. rewrite Zdigits2_log2 by lia. pose proof (Z.log2_nonneg M). lia. }
  assert (Hm1lt : shr_m r1 < 2 ^ 53).
  { eapply Z.lt_le_trans; [apply Zdigits2_gt; exact Hr1|].
    apply Z.pow_le_mono_r; lia. }
  set (m2 := round_nearest_even (shr_m r1) (loc_of_shr_record r1)).
  pose proof (round_nearest_even_bounds (shr_m r1) (loc_of_shr_record r1) Hr1)
    as Hm2. fold m2 in Hm2.
  assert (Hcase : (e1 = e /\ m2 = M /\ M < 2 ^ 53)
                  \/ (0 < e1 - e /\ 2 ^ 53 <= M
                      /\ 2 ^ 52 * 2 ^ (e1 - e) <= M
                      /\ shr_m r1 * 2 ^ (e1 - e) <= M
                         < (shr_m r1 + 1) * 2 ^ (e1 - e))).
  { destruct (Z_le_gt_dec D 53) as [Hsmall|Hbig].
    - left. assert (E : e1 = e) by lia. split; [exact E|]. split.
      + unfold m2. rewrite (Hex1 E). reflexivity.
      + eapply Z.lt_le_trans; [exact Hup|]. apply Z.pow_le_mono_r; lia.
    - right. assert (E : e1 - e = D - 53) by lia. split; [lia|]. split.
      { eapply Z.le_trans; [|exact Hlow]. apply Z.pow_le_mono_r; lia. }
      split.
      + rewrite E. rewrite <- Z.pow_add_r by lia.
        replace (52 + (D - 53)) with (D - 1) by lia. exact Hlow.
      + rewrite Hm1. set (P := 2 ^ (e1 - e)).
        assert (HP : 0 < P) by (apply Z.pow_pos_nonneg; lia).
        pose proof (Z.div_mod M P ltac:(lia)) as Hdm.
        pose proof (Z.mod_pos_bound M P HP) as Hmod. lia. }
  pose proof (shr_fexp_value m2 e1 loc_Exact ltac:(lia)) as V2.
  pose proof (shr_fexp_spec m2 e1 loc_Exact ltac:(lia)) as S2.
  destruct (shr_fexp PyFloat.prec PyFloat.emax m2 e1 loc_Exact) as [r2 e2].
  destruct V2 as (Hle2 & Hm2v & _). destruct S2 as (_ & Hd2 & He2 & _).
  rewrite fexp_eq in He2.
  assert (Hm2pos : 0 < m2).
  { destruct Hcase as [(_ & -> & _) | (Hpos & _ & Hbig & Hdiv)]; [exact HM|].
    assert (HP : 0 < 2 ^ (e1 - e)) by (apply Z.pow_pos_nonneg; lia).
    assert (2 ^ 52 < shr_m r1 + 1) by nia. lia. }
  destruct (Z_lt_le_dec m2 (2 ^ 53)) as [Hlt|Hge].
  - assert (Hdig : Zdigits2 m2 <= 53) by (apply Zdigits2_lt_pow; lia).
    assert (E2 : e2 = e1) by lia.
    rewrite E2 in Hm2v. replace (e1 - e1) with 0 in Hm2v by lia.
    rewrite Z.div_1_r in Hm2v. rewrite Hm2v, E2.
    destruct m2 as [|p|p] eqn:Em2; try lia.
    unfold PyFloat.emax, PyFloat.prec.
    destruct (Z.leb_spec e1 (1024 - 53)) as [_|Hov]; [|lia].
    exists p, (e1 - e). replace (e + (e1 - e)) with e1 by lia.
    split; [reflexivity|]. split; [fold D; lia|]. split; [lia|]. split.
    + intros Hs. destruct Hcase as [(? & ? & ?) | (? & ? & _)]; lia.
    + split.
      * destruct Hcase as [(E1 & EM & _) | (Hpos & _ & Hbig & Hdiv)].
        -- rewrite E1. replace (e - e) with 0 by lia. lia.
        -- assert (Hor : Z.pos p = shr_m r1 \/ Z.pos p = shr_m r1 + 1) by lia.
           destruct Hor as [-> | ->]; lia.
      * intros He0 Hval a Ha.
        destruct Hcase as [(E1 & EM & _) | (Hpos & _ & Hbig & Hdiv)].
        -- rewrite E1. replace (e - e) with 0 by lia. lia.
        -- pose proof (below_mantissa M e e1 (shr_m r1) a ltac:(lia) Hpos
                         Hbig Hdiv Hval Ha) as Hbelow.
           eapply Z.le_trans; [exact Hbelow|].
           apply Z.mul_le_mono_nonneg_r; [apply Z.pow_nonneg|]; lia.
  - assert (Em2 : m2 = 2 ^ 53) by lia.
    assert (Hdig : Zdigits2 m2 = 54) by (rewrite Em2; reflexivity).
    assert (E2 : e2 = e1 + 1) by lia.
    rewrite E2 in Hm2v. replace (e1 + 1 - e1) with 1 in Hm2v by lia.
    rewrite Em2 in Hm2v. change (2 ^ 53 / 2 ^ 1) with (Z.pos (2 ^ 52)) in Hm2v.
    rewrite Hm2v, E2.
    unfold PyFloat.emax, PyFloat.prec.
    destruct (Z.leb_spec (e1 + 1) (1024 - 53)) as [_|Hov]; [|lia].
    exists (2 ^ 52)%positive, (e1 + 1 - e).
    replace (e + (e1 + 1 - e)) with (e1 + 1) by lia.
    split; [reflexivity|].
    split; [fold D; destruct Hcase as [(? & ? & ?) | (? & ? & _)]; lia|].
    split; [reflexivity|]. split.
    + intros Hs. destruct Hcase as [(? & ? & ?) | (? & ? & _)]; lia.
    + destruct Hcase as [(E1 & EM & ?) | (Hpos & _ & Hbig & Hdiv)]; [lia|].
      replace (e1 + 1 - e) with (1 + (e1 - e)) by lia.
      rewrite Z.pow_add_r by lia. change (2 ^ 1) with 2.
      assert (Hcarry : shr_m r1 + 1 = 2 ^ 53) by lia.
      change (Z.pos (2 ^ 52)) with (2 ^ 52).
      assert (EP : 2 ^ 52 * (2 * 2 ^ (e1 - e))
                   = (shr_m r1 + 1) * 2 ^ (e1 - e))
        by (rewrite Hcarry; change (2 ^ 53) with (2 ^ 52 * 2); ring).
      rewrite EP. split.
      * set (P := 2 ^ (e1 - e)) in *. lia.
      * intros He0 Hval a Ha.
        pose proof (below_mantissa M e e1 (shr_m r1) a ltac:(lia) Hpos
                      Hbig Hdiv Hval Ha) as Hbelow.
        set (P := 2 ^ (e1 - e)) in *. lia.
Qed.

Lemma pos_iter_xO_value p d : Z.pos (Pos.iter xO p d) = Z.pos p * 2 ^ Z.pos d.
Proof.
  induction d as [|d IH] using Pos.peano_ind.
  - simpl. lia.
  - rewrite Pos.iter_succ, Pos2Z.inj_xO, IH, Pos2Z.inj_succ, Z.pow_succ_r by lia.
    ring.
Qed.

(** [float(n)] is exact on the integers below [2^53]. *)
Lemma of_int_exact n :
  0 < n < 2 ^ 53 ->
  exists m e,
    PyFloat.of_int n = Ok (S754_finite false m e)
    /\ -52 <= e <= 0 /\ Z.pos m < 2 ^ 53 /\ Z.pos m = n * 2 ^ (- e).
Proof.
  intros Hn. destruct n as [|p|p]; try lia.
  unfold PyFloat.of_int, binary_normalize, binary_round, shl_align.
  rewrite fexp_eq.
  assert (Hdig : 1 <= Z.pos (digits2_pos p) <= 53).
  { split; [lia|]. change (Z.pos (digits2_pos p)) with (Zdigits2 (Z.pos p)).
    apply Zdigits2_lt_pow; lia. }
  assert (Hexact : forall mz ez, Z.pos mz < 2 ^ 53 -> -52 <= ez <= 0 ->
            Z.pos mz = Z.pos p * 2 ^ (- ez) ->
            exists m e,
              match binary_round_aux PyFloat.prec PyFloat.emax false
                      (Z.pos mz) ez loc_Exact with
              | S754_infinity _ => Raise OverflowError
              | f => Ok f
              end = Ok (S754_finite false m e)
              /\ -52 <= e <= 0 /\ Z.pos m < 2 ^ 53
              /\ Z.pos m = Z.pos p * 2 ^ (- e)).
  { intros mz ez Hmz Hez Hval.
    assert (Hd : Zdigits2 (Z.pos mz) <= 53) by (apply Zdigits2_lt_pow; lia).
    destruct (binary_round_aux_near false (Z.pos mz) ez ltac:(lia) ltac:(lia)
                ltac:(lia)) as (m' & d & -> & _ & Hm' & Hsmall & _).
    destruct (Hsmall Hmz) as [-> Hm]. exists m', (ez + 0).
    replace (- (ez + 0)) with (- ez) by lia.
    split; [reflexivity|]. split; [lia|]. split; [lia|]. lia. }
  destruct (Z.max (Z.pos (digits2_pos p) + 0 - 53) (-1074) - 0) as [|d|d] eqn:Ed.
  - apply Hexact; [lia | lia | simpl; lia].
  - lia.
  - apply Hexact.
    + pose proof (digits2_pos_iter_xO p d) as Hit.
      pose proof (Zdigits2_gt (Z.pos (Pos.iter xO p d)) ltac:(lia)) as Hgt.
      change (Zdigits2 (Z.pos (Pos.iter xO p d)))
        with (Z.pos (digits2_pos (Pos.iter xO p d))) in Hgt.
      rewrite Hit in Hgt. eapply Z.lt_le_trans; [exact Hgt|].
      apply Z.pow_le_mono_r; lia.
    + lia.
    + rewrite pos_iter_xO_value. f_equal. f_equal. lia.
Qed.

(** A product of two positive floats is within one part in [2^52] of the
    exact product. *)
Lemma fmul_near mf ef mc ec :
  Z.pos mf < 2 ^ 53 -> Z.pos mc < 2 ^ 53 ->
  -1074 <= ef -> ec <= 0 -> -1074 <= ef + ec <= 800 ->
  let f := S754_finite false mf ef in
  let c := S754_finite false mc ec in
  nonneg_finite (PyFloat.fmul f c)
  /\ (exists m' e', PyFloat.fmul f c = S754_finite false m' e'
                    /\ Z.pos m' < 2 ^ 53 /\ ef + ec <= e' <= ef + ec + 107)
  /\ 2 ^ 52 * Z.abs (quanta (PyFloat.fmul f c) * den c - quanta f * num c)
     <= quanta f * num c.
Proof.
  intros Hmf Hmc Hef Hec Hsum f c. unfold f, c, PyFloat.fmul, SFmul.
  simpl xorb.
  assert (Hprod : Z.pos (mf * mc) < 2 ^ 106).
  { rewrite Pos2Z.inj_mul. change (2 ^ 106) with (2 ^ 53 * 2 ^ 53). nia. }
  assert (Hdig : Zdigits2 (Z.pos (mf * mc)) <= 106)
    by (apply Zdigits2_lt_pow; lia).
  destruct (binary_round_aux_near false (Z.pos (mf * mc)) (ef + ec)
              ltac:(lia) ltac:(lia) ltac:(lia))
    as (m' & d & -> & Hd & Hm' & _ & Hnear & _).
  split; [simpl; lia|].
  split; [exists m', (ef + ec + d); split; [reflexivity | lia]|].
  unfold quanta, den, num.
  replace (Z.pos m' * 2 ^ (ef + ec + d + 1074) * 2 ^ (- ec))
    with (Z.pos m' * 2 ^ d * 2 ^ (ef + 1074)).
  2:{ rewrite <- !Z.mul_assoc. f_equal. rewrite <- !Z.pow_add_r by lia.
      f_equal. lia. }
  replace (Z.pos mf * 2 ^ (ef + 1074) * Z.pos mc)
    with (Z.pos (mf * mc) * 2 ^ (ef + 1074)) by (rewrite Pos2Z.inj_mul; ring).
  rewrite <- Z.mul_sub_distr_r.
  assert (HP : 0 < 2 ^ (ef + 1074)) by (apply Z.pow_pos_nonneg; lia).
  rewrite Z.abs_mul, (Z.abs_eq (2 ^ (ef + 1074))) by lia.
  rewrite Z.mul_assoc. apply Z.mul_le_mono_nonneg_r; [lia | exact Hnear].
Qed.

(** [int(x)] is the integer part of [x]. *)
Lemma to_int_quanta x :
  nonneg_finite x ->
  exists z, PyFloat.to_int x = Ok z
            /\ z * 2 ^ 1074 <= quanta x < (z + 1) * 2 ^ 1074.
Proof.
  destruct x as [[|]|[|]| |[|] m e];
    cbn [nonneg_finite quanta PyFloat.to_int PyFloat.int_le PyFloat.int_ge];
    try contradiction.
  - intros _. exists 0. split; [reflexivity | lia].
  - intros [Hm He]. eexists. split; [reflexivity|].
    destruct (Z.leb_spec 0 e) as [Hpos|Hneg].
    + rewrite Z.shiftl_mul_pow2 by lia.
      rewrite Z.pow_add_r by lia.
      assert (0 < 2 ^ 1074) by (apply Z.pow_pos_nonneg; lia). nia.
    + rewrite Z.shiftr_div_pow2 by lia.
      replace (2 ^ 1074) with (2 ^ (- e) * 2 ^ (e + 1074))
        by (rewrite <- Z.pow_add_r by lia; f_equal; lia).
      set (P := 2 ^ (- e)). set (Q := 2 ^ (e + 1074)).
      assert (HP : 0 < P) by (apply Z.pow_pos_nonneg; lia).
      assert (HQ : 0 < Q) by (apply Z.pow_pos_nonneg; lia).
      pose proof (Z.div_mod (Z.pos m) P ltac:(lia)) as Hdm.
      pose proof (Z.mod_pos_bound (Z.pos m) P HP) as Hmod.
      set (z := Z.pos m / P) in *.
      split.
      * replace (z * (P * Q)) with ((P * z) * Q) by ring.
        apply Z.mul_le_mono_nonneg_r; lia.
      * replace ((z + 1) * (P * Q)) with ((P * z + P) * Q) by ring.
        apply Z.mul_lt_mono_pos_r; lia.
Qed.

(** The comparisons of an [int] with a float compare the values. *)
Lemma int_le_quanta a x :
  nonneg_finite x ->
  PyFloat.int_le a x = true <-> a * 2 ^ 1074 <= quanta x.
Proof.
  destruct x as [[|]|[|]| |[|] m e];
    cbn [nonneg_finite quanta PyFloat.to_int PyFloat.int_le PyFloat.int_ge];
    try contradiction.
  - intros _. rewrite Z.leb_le.
    assert (0 < 2 ^ 1074) by (apply Z.pow_pos_nonneg; lia). nia.
  - intros [Hm He].
    destruct (Z.leb_spec 0 e) as [Hpos|Hneg]; rewrite Z.leb_le.
    + rewrite Z.shiftl_mul_pow2 by lia. rewrite Z.pow_add_r by lia.
      assert (0 < 2 ^ 1074) by (apply Z.pow_pos_nonneg; lia).
      rewrite Z.mul_assoc. split; intros H0; [nia|].
      apply Z.mul_le_mono_pos_r in H0; lia.
    + rewrite Z.shiftl_mul_pow2 by lia.
      replace (2 ^ 1074) with (2 ^ (- e) * 2 ^ (e + 1074))
        by (rewrite <- Z.pow_add_r by lia; f_equal; lia).
      assert (HQ : 0 < 2 ^ (e + 1074)) by (apply Z.pow_pos_nonneg; lia).
      rewrite Z.mul_assoc. split; intros H0.
      * apply Z.mul_le_mono_nonneg_r; lia.
      * apply Z.mul_le_mono_pos_r in H0; lia.
Qed.

Lemma int_ge_quanta a x :
  nonneg_finite x ->
  PyFloat.int_ge a x = true <-> quanta x <= a * 2 ^ 1074.
Proof.
  destruct x as [[|]|[|]| |[|] m e];
    cbn [nonneg_finite quanta PyFloat.to_int PyFloat.int_le PyFloat.int_ge];
    try contradiction.
  - intros _. rewrite Z.leb_le.
    assert (0 < 2 ^ 1074) by (apply Z.pow_pos_nonneg; lia). nia.
  - intros [Hm He].
    destruct (Z.leb_spec 0 e) as [Hpos|Hneg]; rewrite Z.leb_le.
    + rewrite Z.shiftl_mul_pow2 by lia. rewrite Z.pow_add_r by lia.
      assert (0 < 2 ^ 1074) by (apply Z.pow_pos_nonneg; lia).
      rewrite Z.mul_assoc. split; intros H0; [nia|].
      apply Z.mul_le_mono_pos_r in H0; lia.
    + rewrite Z.shiftl_mul_pow2 by lia.
      replace (2 ^ 1074) with (2 ^ (- e) * 2 ^ (e + 1074))
        by (rewrite <- Z.pow_add_r by lia; f_equal; lia).
      assert (HQ : 0 < 2 ^ (e + 1074)) by (apply Z.pow_pos_nonneg; lia).
      rewrite Z.mul_assoc. split; intros H0.
      * apply Z.mul_le_mono_nonneg_r; lia.
      * apply Z.mul_le_mono_pos_r in H0; lia.
Qed.

(** [n * c] for an integer below [2^53] and a literal [c]. *)
Lemma int_mul_near n c :
  0 <= n < 2 ^ 53 -> literal_constant c ->
  exists x, PyFloat.int_mul n c = Ok x /\ nonneg_finite x
    /\ 2 ^ 52 * Z.abs (quanta x * den c - n * num c * 2 ^ 1074)
       <= n * num c * 2 ^ 1074.
Proof.
  intros Hn (mc & ec & -> & Hmc & Hec).
  destruct (Z.eq_dec n 0) as [->|Hn0].
  - exists (S754_zero false). split; [reflexivity|]. split; [exact I|].
    cbn [quanta]. rewrite !Z.mul_0_l. cbn [Z.sub Z.opp Z.add Z.abs]. lia.
  - destruct (of_int_exact n ltac:(lia)) as (m & e & Hof & He & Hm & Hval).
    unfold PyFloat.int_mul. rewrite Hof. eexists. split; [reflexivity|].
    destruct (fmul_near m e mc ec Hm Hmc ltac:(lia) ltac:(lia) ltac:(lia))
      as (Hfin & _ & Hnear).
    split; [exact Hfin|].
    assert (Hq : quanta (S754_finite false m e) = n * 2 ^ 1074).
    { cbn [quanta]. rewrite Hval, <- Z.mul_assoc, <- Z.pow_add_r by lia.
      f_equal. f_equal. lia. }
    rewrite Hq in Hnear.
    replace (n * num (S754_finite false mc ec) * 2 ^ 1074)
      with (n * 2 ^ 1074 * num (S754_finite false mc ec)) by ring.
    exact Hnear.
Qed.

(** From the values at scale [Q] to relations between integers. *)
Lemma near_compare X E K Q a :
  0 < E -> 0 < Q ->
  2 ^ 52 * Z.abs (X * E - K * Q) <= K * Q ->
  (a * Q <= X -> 2 ^ 52 * a * E <= (2 ^ 52 + 1) * K)
  /\ (X < a * Q -> (2 ^ 52 - 1) * K < 2 ^ 52 * a * E)
  /\ (X <= a * Q -> (2 ^ 52 - 1) * K <= 2 ^ 52 * a * E)
  /\ (a * Q < X -> 2 ^ 52 * a * E < (2 ^ 52 + 1) * K).
Proof.
  intros HE HQ Hnear.
  assert (Hup : 2 ^ 52 * (X * E) <= (2 ^ 52 + 1) * (K * Q)) by lia.
  assert (Hlo : (2 ^ 52 - 1) * (K * Q) <= 2 ^ 52 * (X * E)) by lia.
  clear Hnear. repeat split; intros H.
  - assert (a * Q * E <= X * E) by (apply Z.mul_le_mono_nonneg_r; lia).
    apply (Z.mul_le_mono_pos_r _ _ Q HQ). lia.
  - assert (X * E < a * Q * E) by (apply Z.mul_lt_mono_pos_r; lia).
    apply (Z.mul_lt_mono_pos_r Q _ _ HQ). lia.
  - assert (X * E <= a * Q * E) by (apply Z.mul_le_mono_nonneg_r; lia).
    apply (Z.mul_le_mono_pos_r _ _ Q HQ). lia.
  - assert (a * Q * E < X * E) by (apply Z.mul_lt_mono_pos_r; lia).
    apply (Z.mul_lt_mono_pos_r Q _ _ HQ). lia.
Qed.

Lemma literal_den_pos c : literal_constant c -> 0 < den c.
Proof.
  intros (m & e & -> & _ & He). cbn [den]. apply Z.pow_pos_nonneg; lia.
Qed.

(** What the comparisons of an integer [a] with [n * c] say about the
    integers: [c] is [num c / den c], and the product is within one part
    in [2^52] of [n * num c / den c]. *)
Lemma int_mul_bounds n c x :
  0 <= n < 2 ^ 53 -> literal_constant c -> PyFloat.int_mul n c = Ok x ->
  forall a,
    (PyFloat.int_le a x = true ->
     2 ^ 52 * a * den c <= (2 ^ 52 + 1) * (n * num c))
    /\ (PyFloat.int_le a x = false ->
        (2 ^ 52 - 1) * (n * num c) < 2 ^ 52 * a * den c)
    /\ (PyFloat.int_ge a x = true ->
        (2 ^ 52 - 1) * (n * num c) <= 2 ^ 52 * a * den c)
    /\ (PyFloat.int_ge a x = false ->
        2 ^ 52 * a * den c < (2 ^ 52 + 1) * (n * num c)).
Proof.
  intros Hn Hc Hx a.
  destruct (int_mul_near n c Hn Hc) as (x' & Hx' & Hfin & Hnear).
  rewrite Hx in Hx'. inversion Hx'; subst x'. clear Hx'.
  pose proof (literal_den_pos c Hc) as HE.
  assert (HQ : 0 < 2 ^ 1074) by (apply Z.pow_pos_nonneg; lia).
  destruct (near_compare _ _ _ _ a HE HQ Hnear) as (H1 & H2 & H3 & H4).
  pose proof (int_le_quanta a x Hfin) as Hle.
  pose proof (int_ge_quanta a x Hfin) as Hge.
  split; [intros H; apply H1, Hle, H|].
  split; [intros H; apply H2; destruct (Z_lt_le_dec (quanta x) (a * 2 ^ 1074))
                     as [Hlt|Hnot]; [exact Hlt|];
          apply Hle in Hnot; congruence|].
  split; [intros H; apply H3, Hge, H|].
  intros H. apply H4. destruct (Z_lt_le_dec (a * 2 ^ 1074) (quanta x))
    as [Hlt|Hnot]; [exact Hlt|]. apply Hge in Hnot. congruence.
Qed.

(** [int(n * c)] for an integer below [2^53] and a literal [c]: it is
    defined, and it is the integer part of a number within one part in
    [2^52] of [n * num c / den c]. *)
Lemma int_mul_trunc_near n c :
  0 <= n < 2 ^ 53 -> literal_constant c ->
  exists z, PyFloat.int_mul_trunc n c = Ok z
    /\ 2 ^ 52 * z * den c <= (2 ^ 52 + 1) * (n * num c)
    /\ (2 ^ 52 - 1) * (n * num c) < 2 ^ 52 * (z + 1) * den c.
Proof.
  intros Hn Hc.
  destruct (int_mul_near n c Hn Hc) as (x & Hx & Hfin & Hnear).
  destruct (to_int_quanta x Hfin) as (z & Hz & Hlo & Hhi).
  exists z. unfold PyFloat.int_mul_trunc. rewrite Hx. split; [exact Hz|].
  pose proof (literal_den_pos c Hc) as HE.
  assert (HQ : 0 < 2 ^ 1074) by (apply Z.pow_pos_nonneg; lia).
  destruct (near_compare _ _ _ _ z HE HQ Hnear) as (H1 & _).
  destruct (near_compare _ _ _ _ (z + 1) HE HQ Hnear) as (_ & H2 & _).
  split; [apply H1; exact Hlo | apply H2; exact Hhi].
Qed.

(** An integer below the exact product [n * num c / den c] is below the
    float product, when that product is below [2^53]. *)
Lemma int_mul_floor n c x a :
  0 <= n < 2 ^ 53 -> literal_constant c -> PyFloat.int_mul n c = Ok x ->
  n * num c < 2 ^ 53 * den c ->
  a * den c <= n * num c ->
  PyFloat.int_le a x = true.
Proof.
  intros Hn (mc & ec & -> & Hmc & Hec) Hx Hval Ha.
  cbn [num den] in Hval, Ha.
  assert (HE : 0 < 2 ^ (- ec)) by (apply Z.pow_pos_nonneg; lia).
  destruct (Z.eq_dec n 0) as [->|Hn0].
  - unfold PyFloat.int_mul in Hx. simpl in Hx. inversion Hx; subst x.
    cbn [PyFloat.int_le]. apply Z.leb_le. nia.
  - destruct (of_int_exact n ltac:(lia)) as (m & e & Hof & He & Hm & Hm_val).
    unfold PyFloat.int_mul in Hx. rewrite Hof in Hx. inversion Hx; subst x.
    clear Hx. unfold PyFloat.fmul, SFmul. simpl xorb.
    assert (Hprod : Z.pos (m * mc) < 2 ^ 106).
    { rewrite Pos2Z.inj_mul. change (2 ^ 106) with (2 ^ 53 * 2 ^ 53). nia. }
    assert (Hdig : Zdigits2 (Z.pos (m * mc)) <= 106)
      by (apply Zdigits2_lt_pow; lia).
    destruct (binary_round_aux_near false (Z.pos (m * mc)) (e + ec)
                ltac:(lia) ltac:(lia) ltac:(lia))
      as (m' & d & Hround & Hd & Hm' & _ & _ & Hfloor).
    rewrite Hround.
    assert (HR : 0 < 2 ^ (- e)) by (apply Z.pow_pos_nonneg; lia).
    assert (Hsplit : 2 ^ (- (e + ec)) = 2 ^ (- ec) * 2 ^ (- e))
      by (rewrite <- Z.pow_add_r by lia; f_equal; lia).
    assert (HM : Z.pos (m * mc) = n * Z.pos mc * 2 ^ (- e))
      by (rewrite Pos2Z.inj_mul, Hm_val; ring).
    assert (Hbelow : a * 2 ^ (- (e + ec)) <= Z.pos m' * 2 ^ d).
    { apply Hfloor.
      - lia.
      - rewrite HM. replace (53 - (e + ec)) with (53 + - ec + - e) by lia.
        rewrite !Z.pow_add_r by lia. apply Z.mul_lt_mono_pos_r; lia.
      - rewrite HM, Hsplit, Z.mul_assoc.
        apply Z.mul_le_mono_nonneg_r; lia. }
    apply (int_le_quanta a (S754_finite false m' (e + ec + d)));
      [cbn [nonneg_finite]; lia|].
    cbn [quanta].
    replace (2 ^ 1074) with (2 ^ (- (e + ec)) * 2 ^ (e + ec + 1074))
      by (rewrite <- Z.pow_add_r by lia; f_equal; lia).
    replace (2 ^ (e + ec + d + 1074)) with (2 ^ d * 2 ^ (e + ec + 1074))
      by (rewrite <- Z.pow_add_r by lia; f_equal; lia).
    rewrite !Z.mul_assoc. apply Z.mul_le_mono_nonneg_r; [|exact Hbelow].
    apply Z.pow_nonneg. lia.
Qed.

(** An integer below the exact product is at most [int(n * c)]. *)
Lemma int_mul_trunc_floor n c z a :
  0 <= n < 2 ^ 53 -> literal_constant c ->
  PyFloat.int_mul_trunc n c = Ok z ->
  n * num c < 2 ^ 53 * den c ->
  a * den c <= n * num c ->
  a <= z.
Proof.
  intros Hn Hc Hz Hval Ha.
  destruct (int_mul_near n c Hn Hc) as (x & Hx & Hfin & _).
  pose proof (int_mul_floor n c x a Hn Hc Hx Hval Ha) as Hle.
  apply (int_le_quanta a x Hfin) in Hle.
  unfold PyFloat.int_mul_trunc in Hz. rewrite Hx in Hz.
  destruct (to_int_quanta x Hfin) as (z' & Hz' & _ & Hhi).
  rewrite Hz in Hz'. inversion Hz'; subst z'.
  assert (HQ : 0 < 2 ^ 1074) by (apply Z.pow_pos_nonneg; lia).
  assert (Hlt : a * 2 ^ 1074 < (z + 1) * 2 ^ 1074) by lia.
  apply Z.mul_lt_mono_pos_r in Hlt; lia.
Qed.

(** Two roundings in a row, from the values at scale [Q] to relations
    between integers. *)
Lemma near_twice A X K Q z D1 D2 N2 :
  0 < Q -> 0 < D1 -> 0 < D2 -> 0 <= N2 ->
  2 ^ 52 * Z.abs (A * D2 - X * N2) <= X * N2 ->
  2 ^ 52 * Z.abs (X * D1 - K * Q) <= K * Q ->
  z * Q <= A < (z + 1) * Q ->
  2 ^ 104 * z * (D1 * D2) <= (2 ^ 52 + 1) * (2 ^ 52 + 1) * (K * N2)
  /\ (2 ^ 52 - 1) * (2 ^ 52 - 1) * (K * N2)
     < 2 ^ 104 * (z + 1) * (D1 * D2).
Proof.
  intros HQ HD1 HD2 HN2 H2 H1 [Hz1 Hz2].
  assert (U2 : 2 ^ 52 * (A * D2) <= (2 ^ 52 + 1) * (X * N2)) by lia.
  assert (L2 : (2 ^ 52 - 1) * (X * N2) <= 2 ^ 52 * (A * D2)) by lia.
  assert (U1 : 2 ^ 52 * (X * D1) <= (2 ^ 52 + 1) * (K * Q)) by lia.
  assert (L1 : (2 ^ 52 - 1) * (K * Q) <= 2 ^ 52 * (X * D1)) by lia.
  clear H1 H2.
  change (2 ^ 104) with (2 ^ 52 * 2 ^ 52).
  split.
  - apply (Z.mul_le_mono_pos_r _ _ Q HQ).
    assert (S1 : 2 ^ 52 * (A * D2) * (2 ^ 52 * D1)
                 <= (2 ^ 52 + 1) * (X * N2) * (2 ^ 52 * D1))
      by (apply Z.mul_le_mono_nonneg_r; lia).
    assert (S2 : 2 ^ 52 * (X * D1) * ((2 ^ 52 + 1) * N2)
                 <= (2 ^ 52 + 1) * (K * Q) * ((2 ^ 52 + 1) * N2))
      by (apply Z.mul_le_mono_nonneg_r; lia).
    assert (S3 : z * Q * (2 ^ 52 * 2 ^ 52 * (D1 * D2))
                 <= A * (2 ^ 52 * 2 ^ 52 * (D1 * D2)))
      by (apply Z.mul_le_mono_nonneg_r; [|exact Hz1];
          apply Z.mul_nonneg_nonneg; [lia|];
          apply Z.mul_nonneg_nonneg; lia).
    lia.
  - apply (Z.mul_lt_mono_pos_r Q _ _ HQ).
    assert (S1 : (2 ^ 52 - 1) * (X * N2) * (2 ^ 52 * D1)
                 <= 2 ^ 52 * (A * D2) * (2 ^ 52 * D1))
      by (apply Z.mul_le_mono_nonneg_r; lia).
    assert (S2 : (2 ^ 52 - 1) * (K * Q) * ((2 ^ 52 - 1) * N2)
                 <= 2 ^ 52 * (X * D1) * ((2 ^ 52 - 1) * N2))
      by (apply Z.mul_le_mono_nonneg_r; lia).
    assert (S3 : A * (2 ^ 52 * 2 ^ 52 * (D1 * D2))
                 < (z + 1) * Q * (2 ^ 52 * 2 ^ 52 * (D1 * D2))).
    { apply Z.mul_lt_mono_pos_r; [|exact Hz2].
      apply Z.mul_pos_pos; [lia|]. apply Z.mul_pos_pos; lia. }
    lia.
Qed.

(** [int(n * c1 * c2)] for an integer below [2^53] and two literals. *)
Lemma int_mul_mul_trunc_near n c1 c2 :
  0 <= n < 2 ^ 53 -> literal_constant c1 -> literal_constant c2 ->
  exists x z,
    PyFloat.int_mul n c1 = Ok x
    /\ PyFloat.to_int (PyFloat.fmul x c2) = Ok z
    /\ 2 ^ 104 * z * (den c1 * den c2)
       <= (2 ^ 52 + 1) * (2 ^ 52 + 1) * (n * num c1 * num c2)
    /\ (2 ^ 52 - 1) * (2 ^ 52 - 1) * (n * num c1 * num c2)
       < 2 ^ 104 * (z + 1) * (den c1 * den c2).
Proof.
  intros Hn Hc1 Hc2.
  pose proof (literal_den_pos c1 Hc1) as HD1.
  pose proof (literal_den_pos c2 Hc2) as HD2.
  destruct Hc1 as (m1 & e1 & -> & Hm1 & He1).
  destruct Hc2 as (m2 & e2 & -> & Hm2 & He2).
  destruct (Z.eq_dec n 0) as [->|Hn0].
  - exists (S754_zero false), 0. split; [reflexivity|].
    split; [reflexivity|]. cbn [num]. split; [lia|].
    assert (0 < den (S754_finite false m1 e1) * den (S754_finite false m2 e2))
      by (apply Z.mul_pos_pos; assumption).
    lia.
  - destruct (of_int_exact n ltac:(lia)) as (m & e & Hof & He & Hm & Hval).
    destruct (fmul_near m e m1 e1 Hm Hm1 ltac:(lia) ltac:(lia) ltac:(lia))
      as (_ & (m' & e' & Hx & Hm' & He') & Hnear1).
    assert (Hq : quanta (S754_finite false m e) = n * 2 ^ 1074).
    { cbn [quanta]. rewrite Hval, <- Z.mul_assoc, <- Z.pow_add_r by lia.
      f_equal. f_equal. lia. }
    rewrite Hq, Hx in Hnear1.
    destruct (fmul_near m' e' m2 e2 Hm' Hm2 ltac:(lia) ltac:(lia) ltac:(lia))
      as (Hfin & _ & Hnear2).
    destruct (to_int_quanta _ Hfin) as (z & Hz & Hzq).
    exists (S754_finite false m' e'), z.
    split; [unfold PyFloat.int_mul; rewrite Hof, Hx; reflexivity|].
    split; [exact Hz|].
    assert (HQ : 0 < 2 ^ 1074) by (apply Z.pow_pos_nonneg; lia).
    apply (near_twice
             (quanta (PyFloat.fmul (S754_finite false m' e')
                        (S754_finite false m2 e2)))
             (quanta (S754_finite false m' e'))
             (n * num (S754_finite false m1 e1)) (2 ^ 1074) z
             (den (S754_finite false m1 e1)) (den (S754_finite false m2 e2))
             (num (S754_finite false m2 e2)));
      try assumption.
    + cbn [num]. lia.
    + replace (n * num (S754_finite false m1 e1) * 2 ^ 1074)
        with (n * 2 ^ 1074 * num (S754_finite false m1 e1)) by ring.
      exact Hnear1.
Qed.

Lemma literal_f0_05 : literal_constant PyFloat.f0_05.
Proof. do 2 eexists. split; [reflexivity | split; [reflexivity | lia]]. Qed.

Lemma literal_f0_1 : literal_constant PyFloat.f0_1.
Proof. do 2 eexists. split; [reflexivity | split; [reflexivity | lia]]. Qed.

Lemma literal_f0_15 : literal_constant PyFloat.f0_15.
Proof. do 2 eexists. split; [reflexivity | split; [reflexivity | lia]]. Qed.

Lemma literal_f0_6 : literal_constant PyFloat.f0_6.
Proof. do 2 eexists. split; [reflexivity | split; [reflexivity | lia]]. Qed.

Lemma literal_f0_65 : literal_constant PyFloat.f0_65.
Proof. do 2 eexists. split; [reflexivity | split; [reflexivity | lia]]. Qed.

Lemma literal_f0_8 : literal_constant PyFloat.f0_8.
Proof. do 2 eexists. split; [reflexivity | split; [reflexivity | lia]]. Qed.

Lemma literal_f0_82 : literal_constant PyFloat.f0_82.
Proof. do 2 eexists. split; [reflexivity | split; [reflexivity | lia]]. Qed.

Lemma literal_f0_85 : literal_constant PyFloat.f0_85.
Proof. do 2 eexists. split; [reflexivity | split; [reflexivity | lia]]. Qed.

Lemma literal_f0_9 : literal_constant PyFloat.f0_9.
Proof. do 2 eexists. split; [reflexivity | split; [reflexivity | lia]]. Qed.

Lemma literal_f0_95 : literal_constant PyFloat.f0_95.
Proof. do 2 eexists. split; [reflexivity | split; [reflexivity | lia]]. Qed.

Lemma literal_f1_0 : literal_constant PyFloat.f1_0.
Proof. do 2 eexists. split; [reflexivity | split; [reflexivity | lia]]. Qed.

Lemma literal_f1_05 : literal_constant PyFloat.f1_05.
Proof. do 2 eexists. split; [reflexivity | split; [reflexivity | lia]]. Qed.

Lemma literal_f1_1 : literal_constant PyFloat.f1_1.
Proof. do 2 eexists. split; [reflexivity | split; [reflexivity | lia]]. Qed.

Lemma literal_f1_15 : literal_constant PyFloat.f1_15.
Proof. do 2 eexists. split; [reflexivity | split; [reflexivity | lia]]. Qed.

Lemma literal_f1_2 : literal_constant PyFloat.f1_2.
Proof. do 2 eexists. split; [reflexivity | split; [reflexivity | lia]]. Qed.

Lemma literal_f1_5 : literal_constant PyFloat.f1_5.
Proof. do 2 eexists. split; [reflexivity | split; [reflexivity | lia]]. Qed.

End PyFloatValues.

(* ===================================================================== *)
(** * The driver: the sessions it can reach *)
(* ===================================================================== *)

Lemma alternating_one_more n : forall a b,
  alternating a b (S n) = alternating a b n ++ [if Nat.even n then a else b].
Proof.
  induction n as [|n IH]; intros a b; [reflexivity|].
  change (alternating a b (S (S n))) with (a :: alternating b a (S n)).
  rewrite IH. change (alternating a b (S n)) with (a :: alternating b a n).
  rewrite Nat.even_succ, <- Nat.negb_even.
  destruct (Nat.even n); reflexivity.
Qed.

Lemma alternating_length n : forall a b, List.length (alternating a b n) = n.
Proof. induction n as [|n IH]; intros a b; simpl; [|rewrite IH]; reflexivity. Qed.

Lemma even_double_succ j : Nat.even (2 * j + 1) = false.
Proof.
  rewrite Nat.add_1_r, Nat.even_succ, <- Nat.negb_even, Nat.even_mul.
  reflexivity.
Qed.

Lemma alternating_buyer_spoke j :
  alternating "seller" "buyer" (2 * j + 1) ++ ["buyer"%string]
  = alternating "seller" "buyer" (2 * S j).
Proof.
  replace (2 * S j)%nat with (S (2 * j + 1)) by lia.
  rewrite alternating_one_more, even_double_succ. reflexivity.
Qed.

Lemma alternating_seller_spoke j :
  alternating "seller" "buyer" (2 * S j) ++ ["seller"%string]
  = alternating "seller" "buyer" (2 * S j + 1).
Proof.
  rewrite (Nat.add_1_r (2 * S j)), alternating_one_more, Nat.even_mul.
  reflexivity.
Qed.

Section SessionTrace.

Variable buyer_agent : BaseBuyerAgent.
Variable seller : MockSellerAgent.
Variable I : nat -> Session -> Prop.

Hypothesis I_step : forall k s w s' w',
  I k s ->
  round_step buyer_agent seller (Z.of_nat k) s w s' false w' ->
  I (S k) s'.

(** A run of rounds [k, ..., k + n - 1] either plays them all without a
    [break], or leaves the loop in some round [j] of them. *)
Lemma for_rounds_trace n : forall k s w s' w',
  for_rounds buyer_agent seller (map Z.of_nat (seq k n)) s w = Ok (s', w') ->
  I k s ->
  I (k + n)%nat s'
  \/ exists j s1 w1,
       (k <= j < k + n)%nat /\ I j s1
       /\ round_step buyer_agent seller (Z.of_nat j) s1 w1 s' true w'.
Proof.
  induction n as [|n IH]; intros k s w s' w' Hrun HI.
  - simpl in Hrun. inversion Hrun; subst. left.
    rewrite Nat.add_0_r. exact HI.
  - simpl in Hrun. apply for_rounds_cons in Hrun.
    destruct Hrun as (s1 & broke & w1 & Hstep & Hrest). destruct broke.
    + destruct Hrest as [-> ->]. right. exists k, s, w.
      split; [lia | split; [exact HI | exact Hstep]].
    + apply IH in Hrest; [|eapply I_step; eauto].
      destruct Hrest as [Hend | (j & s2 & w2 & Hj & HIj & Hbreak)].
      * left. replace (k + S n)%nat with (S k + n)%nat by lia. exact Hend.
      * right. exists j, s2, w2. split; [lia | split; assumption].
Qed.

End SessionTrace.

(** A round that does not close the deal leads from the session after
    [k] rounds to the session after [k + 1] rounds. *)
Lemma ongoing_step buyer_agent item budget seller k s w s' w' :
  ongoing item budget seller k s ->
  round_step buyer_agent seller (Z.of_nat k) s w s' false w' ->
  ongoing item budget seller (S k) s'.
Proof.
  intros Hongoing Hstep.
  inversion Hstep as [ | | status offer bmsg w1 price msg Hturn Hst Hseller];
    subst.
  destruct Hongoing as [Hp Hb Hr Hyo Hso Hopen Hroles Hsp Hfloor Hd Hf].
  apply respond_to_buyer_Ok in Hseller.
  destruct Hseller as (threshold & _ & _ & _ & Hcounter).
  destruct (Hcounter eq_refl) as (grown & _ & Hprice).
  destruct (seller_offers (context s)) as [|first others] eqn:Eso;
    [discriminate Hso|].
  constructor; simpl.
  - exact Hp.
  - exact Hb.
  - lia.
  - rewrite length_app, Hyo. simpl. lia.
  - rewrite Eso, length_app, Hso. simpl. lia.
  - rewrite Eso. exact Hopen.
  - rewrite !map_app, Hroles. simpl map.
    rewrite alternating_buyer_spoke. apply alternating_seller_spoke.
  - rewrite Eso. symmetry. apply (last_last (first :: others)).
  - rewrite Eso. simpl. apply Forall_app. split; [exact Hfloor|].
    constructor; [lia | constructor].
  - exact Hd.
  - exact Hf.
Qed.

(** The driver forces ONGOING in the first round. *)
Lemma buyer_turn_first_round buyer_agent c s w status offer msg w' :
  buyer_turn buyer_agent 0 c s w = Ok (status, offer, msg, w') ->
  status = ONGOING.
Proof.
  unfold buyer_turn. simpl. intros H. apply bind_Ok in H.
  destruct H as ([o m] & w1 & _ & H). apply ret_Ok in H.
  destruct H as [H _]. inversion H. reflexivity.
Qed.

(** The sessions [negotiate] can return. *)
Lemma negotiate_trace buyer_agent item budget seller_min n w s w' :
  negotiate buyer_agent item budget seller_min (range n) w = Ok (s, w') ->
  ongoing item budget (the_seller seller_min) n s
  \/ exists j s1 w1,
       (j < n)%nat /\ ongoing item budget (the_seller seller_min) j s1
       /\ round_step buyer_agent (the_seller seller_min) (Z.of_nat j)
            s1 w1 s true w'.
Proof.
  unfold negotiate. intros H. apply bind_Ok in H.
  destruct H as (s0 & w0 & Hopen & Hloop).
  apply lift_Ok in Hopen. destruct Hopen as [Hopen ->].
  assert (H0 : ongoing item budget (the_seller seller_min) 0 s0).
  { unfold open_session in Hopen. apply bind_res_Ok in Hopen.
    destruct Hopen as ([price msg] & Hprice & Hs0). inversion Hs0; subst.
    constructor; simpl; try reflexivity; eauto. }
  unfold range in Hloop.
  apply (for_rounds_trace buyer_agent (the_seller seller_min)
           (ongoing item budget (the_seller seller_min))) in Hloop.
  - destruct Hloop as [Hend | (j & s1 & w1 & Hj & HI & Hbreak)].
    + left. exact Hend.
    + right. exists j, s1, w1. split; [lia | split; assumption].
  - intros k s1 w1 s2 w2. apply ongoing_step.
  - exact H0.
Qed.

Lemma run_negotiation_test_Ok buyer_agent item budget seller_min w r w' :
  run_negotiation_test buyer_agent item budget seller_min w = Ok (r, w') ->
  exists s,
    negotiate buyer_agent item budget seller_min (range 10) w = Ok (s, w')
    /\ summary item budget s = Ok r.
Proof.
  unfold run_negotiation_test. intros H. apply bind_Ok in H.
  destruct H as (s & w1 & Hrun & Hsum). apply lift_Ok in Hsum.
  destruct Hsum as [Hsum ->]. exists s. split; assumption.
Qed.

(** What the result record takes from the final session. *)
Lemma summary_Ok item budget s r :
  summary item budget s = Ok r ->
  r_deal_made r = deal_made s
  /\ r_final_price r = final_price s
  /\ r_rounds r = current_round (context s)
  /\ r_conversation r = messages (context s)
  /\ r_savings r = (if deal_made s
                    then match final_price s with
                         | Some price => budget - price
                         | None => 0
                         end
                    else 0).
Proof.
  unfold summary. intros H.
  destruct (deal_made s); [destruct (final_price s) as [price|] |].
  - apply bind_res_Ok in H. destruct H as (a & _ & H).
    apply bind_res_Ok in H. destruct H as (b & _ & H).
    inversion H; subst. simpl. repeat split.
  - discriminate.
  - inversion H; subst. simpl. repeat split.
Qed.

(** The session in which the deal was closed, as the two [break]s of the
    driver leave it. *)
Lemma closing_round buyer_agent item budget seller j s1 w1 s w' :
  ongoing item budget seller j s1 ->
  round_step buyer_agent seller (Z.of_nat j) s1 w1 s true w' ->
  product (context s) = item
  /\ your_budget (context s) = budget
  /\ current_round (context s) = Z.of_nat (S j)
  /\ deal_made s = true
  /\ seller_offers (context s) = seller_offers (context s1)
  /\ exists status offer msg,
       buyer_turn buyer_agent (Z.of_nat j)
         (set_round (context s1) (Z.of_nat j + 1)) s1 w1
         = Ok (status, offer, msg, w')
       /\ your_offers (context s) = your_offers (context s1) ++ [offer]
       /\ ((status = ACCEPTED /\ (1 <= j)%nat
            /\ final_price s = Some (seller_price s1)
            /\ map role (messages (context s))
               = alternating "seller" "buyer" (2 * S j))
           \/ (status <> ACCEPTED
               /\ final_price s = Some offer
               /\ (exists threshold,
                     PyFloat.int_mul (min_price seller) PyFloat.f1_1
                       = Ok threshold
                     /\ PyFloat.int_ge offer threshold = true)
               /\ map role (messages (context s))
                  = alternating "seller" "buyer" (2 * S j + 1))).
Proof.
  intros Hongoing Hstep.
  inversion Hstep as [offer bmsg w2 Hturn
                     | status offer bmsg w2 price msg Hturn Hst Hseller | ];
    subst; destruct Hongoing as [Hp Hb Hr Hyo Hso Hopen Hroles Hsp Hfloor Hd Hf];
    simpl; (split; [exact Hp|]); (split; [exact Hb|]); (split; [lia|]);
    (split; [reflexivity|]); (split; [reflexivity|]).
  - exists ACCEPTED, offer, bmsg. split; [exact Hturn|].
    split; [reflexivity|]. left. split; [reflexivity|].
    split.
    + destruct j as [|j]; [|lia]. simpl in Hturn.
      apply buyer_turn_first_round in Hturn. discriminate.
    + split; [reflexivity|]. rewrite map_app, Hroles. simpl map.
      apply alternating_buyer_spoke.
  - exists status, offer, bmsg. split; [exact Hturn|].
    split; [reflexivity|]. right. split; [exact Hst|].
    split; [reflexivity|]. split.
    + apply respond_to_buyer_Ok in Hseller.
      destruct Hseller as (threshold & Hthr & Hacc & _).
      exists threshold. split; [exact Hthr | symmetry; exact Hacc].
    + rewrite !map_app, Hroles. simpl map.
      rewrite alternating_buyer_spoke. apply alternating_seller_spoke.
Qed.

(* ===================================================================== *)
(** * What every session looks like, whoever the buyer is *)
(* ===================================================================== *)

(** X1.  In the record [run_negotiation_test] returns, for
    every buyer strategy: the conversation begins with the seller and the
    two parties alternate; it has [2 * rounds] or [2 * rounds + 1] entries
    when a deal was made (the buyer's acceptance or the seller's was the
    last message), and 21 entries when the ten rounds ended without a
    deal. *)
Theorem conversation_alternates buyer_agent item budget seller_min w r w' :
  run_negotiation_test buyer_agent item budget seller_min w = Ok (r, w') ->
  map role (r_conversation r)
    = alternating "seller" "buyer" (List.length (r_conversation r))
  /\ (if r_deal_made r
      then Z.of_nat (List.length (r_conversation r)) = 2 * r_rounds r
           \/ Z.of_nat (List.length (r_conversation r)) = 2 * r_rounds r + 1
      else List.length (r_conversation r) = 21%nat).
Proof.
  intros Hrun. apply run_negotiation_test_Ok in Hrun.
  destruct Hrun as (s & Hrun & Hsum). apply summary_Ok in Hsum.
  destruct Hsum as (-> & _ & -> & -> & _).
  assert (Hlen : forall n, map role (messages (context s))
                           = alternating "seller" "buyer" n ->
                 List.length (messages (context s)) = n).
  { intros n Hn. rewrite <- (length_map role), Hn. apply alternating_length. }
  apply negotiate_trace in Hrun.
  destruct Hrun as [Hend | (j & s1 & w1 & Hj & Hongoing & Hstep)].
  - destruct Hend as [_ _ _ _ _ _ Hroles _ _ Hd _].
    rewrite Hd, (Hlen _ Hroles). split; [exact Hroles | reflexivity].
  - destruct (closing_round _ _ _ _ _ _ _ _ _ Hongoing Hstep)
      as (_ & _ & Hr & Hd & _ & status & offer & msg & _ & _ & Hcases).
    rewrite Hd, Hr.
    destruct Hcases as [(_ & _ & _ & Hroles) | (_ & _ & _ & Hroles)];
      rewrite (Hlen _ Hroles); (split; [exact Hroles | lia]).
Qed.

(** Witness: the "hard" scenario of the Alphonso product. *)
Lemma conversation_alternates_witness :
  exists r w',
    run_negotiation_test NegotiationAgent.YourBuyerAgent alphonso
      162000 147600 offline_world = Ok (r, w')
    /\ map role (r_conversation r)
       = alternating "seller" "buyer" (List.length (r_conversation r)).
Proof.
  assert (Hrun : exists r w',
            run_negotiation_test NegotiationAgent.YourBuyerAgent alphonso
              162000 147600 offline_world = Ok (r, w'))
    by (do 2 eexists; vm_compute; reflexivity).
  destruct Hrun as (r & w' & Hrun). exists r, w'.
  split; [exact Hrun|].
  exact (proj1 (conversation_alternates _ _ _ _ _ _ _ Hrun)).
Defined.

Lemma Forall_last {A} (P : A -> Prop) (l : list A) (d : A) :
  Forall P l -> l <> [] -> P (last l d).
Proof.
  intros H Hl. destruct (exists_last Hl) as (l' & a & ->).
  rewrite last_last. apply Forall_app in H. destruct H as [_ H].
  inversion H. assumption.
Qed.

(** X2.  In every session, for every buyer strategy: a deal
    always carries a price; both histories then have one entry per round
    played; the price is the last entry of the buyer's offers (the seller
    accepted it) or, from round 2 on, the last entry of the seller's
    offers (the buyer accepted it); and the result record reports that
    price with [savings = budget - price]. *)
Theorem deal_price_on_the_table buyer_agent item budget seller_min n w s w' :
  negotiate buyer_agent item budget seller_min (range n) w = Ok (s, w') ->
  deal_made s = true ->
  exists price,
    final_price s = Some price
    /\ List.length (seller_offers (context s))
       = List.length (your_offers (context s))
    /\ Z.of_nat (List.length (your_offers (context s)))
       = current_round (context s)
    /\ (price = last (your_offers (context s)) 0
        \/ (2 <= current_round (context s)
            /\ price = last (seller_offers (context s)) 0))
    /\ forall r, summary item budget s = Ok r ->
                 r_final_price r = Some price
                 /\ r_savings r = budget - price.
Proof.
  intros Hrun Hdeal. apply negotiate_trace in Hrun.
  destruct Hrun as [Hend | (j & s1 & w1 & Hj & Hongoing & Hstep)].
  - destruct Hend as [_ _ _ _ _ _ _ _ _ Hd _]. congruence.
  - destruct (closing_round _ _ _ _ _ _ _ _ _ Hongoing Hstep)
      as (_ & _ & Hr & Hd & Hso & status & offer & msg & _ & Hyo & Hcases).
    destruct Hongoing as [_ _ _ Hyo1 Hso1 _ _ Hsp _ _ _].
    assert (Hsummary : forall price, final_price s = Some price ->
              forall r, summary item budget s = Ok r ->
                r_final_price r = Some price /\ r_savings r = budget - price).
    { intros price Hf r Hsum. apply summary_Ok in Hsum.
      destruct Hsum as (_ & -> & _ & _ & ->). rewrite Hd, Hf. auto. }
    assert (Hlen : List.length (your_offers (context s)) = S j).
    { rewrite Hyo, length_app, Hyo1. simpl. lia. }
    destruct Hcases as [(_ & Hj1 & Hf & _) | (_ & Hf & _ & _)].
    + exists (seller_price s1). split; [exact Hf|].
      split; [rewrite Hso, Hso1, Hlen; reflexivity|].
      split; [rewrite Hlen, Hr; reflexivity|].
      split; [right; split; [lia | rewrite Hso; exact Hsp] | auto].
    + exists offer. split; [exact Hf|].
      split; [rewrite Hso, Hso1, Hlen; reflexivity|].
      split; [rewrite Hlen, Hr; reflexivity|].
      split; [left; rewrite Hyo, last_last; reflexivity | auto].
Qed.

(** Witness: the "easy" scenario of the Alphonso product. *)
Lemma deal_price_on_the_table_witness :
  exists s w' price,
    negotiate NegotiationAgent.YourBuyerAgent alphonso 216000 144000
      (range 10) offline_world = Ok (s, w')
    /\ final_price s = Some price
    /\ (price = last (your_offers (context s)) 0
        \/ (2 <= current_round (context s)
            /\ price = last (seller_offers (context s)) 0)).
Proof.
  assert (Hrun : exists s w',
            negotiate NegotiationAgent.YourBuyerAgent alphonso 216000 144000
              (range 10) offline_world = Ok (s, w') /\ deal_made s = true)
    by (do 2 eexists; split; vm_compute; reflexivity).
  destruct Hrun as (s & w' & Hrun & Hdeal).
  destruct (deal_price_on_the_table _ _ _ _ _ _ _ _ Hrun Hdeal)
    as (price & Hf & _ & _ & Hlast & _).
  exists s, w', price. split; [exact Hrun | split; assumption].
Defined.

(** An offer the seller accepts is at least its floor. *)
Lemma accepted_offer_above_floor min_price offer threshold :
  0 <= min_price < 2 ^ 53 ->
  PyFloat.int_mul min_price PyFloat.f1_1 = Ok threshold ->
  PyFloat.int_ge offer threshold = true ->
  min_price <= offer /\ (min_price < 2 ^ 48 -> 11 * min_price <= 10 * offer).
Proof.
  intros Hmin Hthr Hge.
  destruct (PyFloatValues.int_mul_bounds min_price PyFloat.f1_1 threshold
              Hmin PyFloatValues.literal_f1_1 Hthr offer) as (_ & _ & H & _).
  apply H in Hge. cbv [num den PyFloat.f1_1] in Hge. lia.
Qed.

(** Against a seller whose floor is between 0 and [2^53] no price recorded
    after the opening price, and no price of a deal, is below the floor. *)
Lemma session_floor buyer_agent item budget seller_min
    n w s w' :
  0 <= seller_min < 2 ^ 53 ->
  negotiate buyer_agent item budget seller_min (range n) w = Ok (s, w') ->
  Forall (fun price => seller_min <= price) (tl (seller_offers (context s)))
  /\ forall price, final_price s = Some price -> seller_min <= price.
Proof.
  intros Hmin Hrun. apply negotiate_trace in Hrun.
  destruct Hrun as [Hend | (j & s1 & w1 & Hj & Hongoing & Hstep)].
  - destruct Hend as [_ _ _ _ _ _ _ _ Hfloor _ Hf].
    split; [exact Hfloor | rewrite Hf; discriminate].
  - destruct (closing_round _ _ _ _ _ _ _ _ _ Hongoing Hstep)
      as (_ & _ & _ & _ & Hso & status & offer & msg & _ & _ & Hcases).
    destruct Hongoing as [_ _ _ _ Hso1 _ _ Hsp Hfloor _ _].
    rewrite Hso. split; [exact Hfloor|].
    intros price Hprice.
    destruct Hcases as [(_ & Hj1 & Hf & _) | (_ & Hf & Hacc & _)];
      rewrite Hf in Hprice; inversion Hprice; subst price.
    + rewrite Hsp.
      destruct (seller_offers (context s1)) as [|first others];
        [discriminate Hso1|].
      destruct others as [|second others]; [simpl in Hso1; lia|].
      change (last (first :: second :: others) 0)
        with (last (second :: others) 0).
      apply (Forall_last (fun price => min_price (the_seller seller_min) <= price));
        [exact Hfloor | discriminate].
    + destruct Hacc as (threshold & Hthr & Hge).
      apply (accepted_offer_above_floor seller_min offer threshold Hmin Hthr Hge).
Qed.

(** X3.  Against a seller whose floor is between 0 and [2^53],
    whatever the buyer strategy: every price the seller records after its
    opening price is at least the floor, and so is the price of every
    deal, also when it is the seller that accepts the buyer's offer (it
    accepts only offers of at least [min_price * 1.1]). *)
Theorem deal_respects_seller_floor buyer_agent item budget seller_min
    n w s w' :
  0 <= seller_min < 2 ^ 53 ->
  negotiate buyer_agent item budget seller_min (range n) w = Ok (s, w') ->
  Forall (fun price => seller_min <= price) (tl (seller_offers (context s)))
  /\ forall price, final_price s = Some price -> seller_min <= price.
Proof.
  intros Hmin Hrun. exact (session_floor _ _ _ _ _ _ _ _ Hmin Hrun).
Qed.

(** Witness: the "easy" scenario of the Alphonso product. *)
Lemma deal_respects_seller_floor_witness :
  exists s w' price,
    negotiate NegotiationAgent.YourBuyerAgent alphonso 216000 144000
      (range 10) offline_world = Ok (s, w')
    /\ final_price s = Some price /\ 144000 <= price.
Proof.
  assert (Hrun : exists s w' price,
            negotiate NegotiationAgent.YourBuyerAgent alphonso 216000 144000
              (range 10) offline_world = Ok (s, w')
            /\ final_price s = Some price)
    by (do 3 eexists; split; vm_compute; reflexivity).
  destruct Hrun as (s & w' & price & Hrun & Hprice).
  exists s, w', price. split; [exact Hrun | split; [exact Hprice|]].
  apply (deal_respects_seller_floor _ _ _ 144000 _ _ _ _ ltac:(lia) Hrun).
  exact Hprice.
Defined.

(* ===================================================================== *)
(** * Buyers that respect their budget *)
(* ===================================================================== *)

Section RespectsBudget.

Variable buyer_agent : BaseBuyerAgent.
Hypothesis agent_respects_budget : respects_budget buyer_agent.

Lemma respectful_buyer_turn round_num c s w status offer msg w' :
  buyer_turn buyer_agent round_num c s w = Ok (status, offer, msg, w') ->
  offer <= your_budget c
  /\ (status = ACCEPTED -> seller_price s <= your_budget c).
Proof.
  destruct agent_respects_budget as [Hopen Hrespond].
  unfold buyer_turn. destruct (round_num =? 0).
  - intros H. apply bind_Ok in H.
    destruct H as ([opening text] & w1 & Hrun & H).
    apply ret_Ok in H. destruct H as [H _]. inversion H; subst.
    split; [eapply Hopen; eauto | discriminate].
  - intros H. eapply Hrespond; eauto.
Qed.

Lemma respectful_session item budget seller_min n w s w' :
  negotiate buyer_agent item budget seller_min (range n) w = Ok (s, w') ->
  within_budget budget s.
Proof.
  unfold negotiate. intros H. apply bind_Ok in H.
  destruct H as (s0 & w0 & Hopen & Hloop).
  apply lift_Ok in Hopen. destruct Hopen as [Hopen ->].
  unfold open_session in Hopen. apply bind_res_Ok in Hopen.
  destruct Hopen as ([price msg] & _ & Hs0). inversion Hs0; subst s0.
  clear Hs0. revert Hloop.
  set (s0 := {| context := _ |}).
  assert (H0 : your_budget (context s0) = budget /\ within_budget budget s0).
  { split; [reflexivity|]. split; [constructor | discriminate]. }
  clearbody s0. revert s0 w H0. generalize (range n) as rounds.
  induction rounds as [|round_num rest IH]; intros s0 w [Hb Hinv] Hloop.
  - simpl in Hloop. inversion Hloop; subst. exact Hinv.
  - apply for_rounds_cons in Hloop.
    destruct Hloop as (s1 & broke & w1 & Hstep & Hrest).
    assert (H1 : your_budget (context s1) = budget /\ within_budget budget s1).
    { destruct Hinv as [Hoffers Hfinal].
      destruct Hstep as [offer bmsg w2 Hturn
                        | status offer bmsg w2 sprice smsg Hturn Hst Hseller
                        | status offer bmsg w2 sprice smsg Hturn Hst Hseller];
        apply respectful_buyer_turn in Hturn; simpl in Hturn;
        rewrite Hb in Hturn; destruct Hturn as [Hoffer Haccept];
        (split; [exact Hb|]); split; simpl;
        try (apply Forall_app; split;
             [exact Hoffers | constructor; [exact Hoffer | constructor]]).
      - intros p Hp. inversion Hp; subst. apply Haccept. reflexivity.
      - intros p Hp. inversion Hp; subst. exact Hoffer.
      - exact Hfinal. }
    destruct broke.
    + destruct Hrest as [-> ->]. apply H1.
    + eapply IH; eauto.
Qed.

End RespectsBudget.

Lemma example_agent_respects_budget :
  respects_budget ExampleAgent.ExampleSimpleAgent.
Proof.
  split.
  - intros c w offer msg w' H. simpl in H.
    unfold ExampleAgent.generate_opening_offer in H. invert_run. lia.
  - intros c sp sm w status offer msg w' H. simpl in H.
    unfold ExampleAgent.respond_to_seller_offer in H.
    apply bind_Ok in H. destruct H as (accept & w1 & Haccept & H).
    apply lift_Ok in Haccept. destruct Haccept as [Haccept ->].
    destruct accept.
    + apply ret_Ok in H. destruct H as [H _]. inversion H; subst.
      destruct (Z.leb_spec sp (your_budget c)) as [Hle|Hgt];
        [|discriminate Haccept].
      split; [exact Hle | intros _; exact Hle].
    + apply bind_Ok in H. destruct H as (grown & w2 & _ & H).
      apply bind_Ok in H. destruct H as (close & w3 & _ & H).
      destruct close; apply ret_Ok in H; destruct H as [H _];
        inversion H; subst; (split; [lia | discriminate]).
Qed.

(* ===================================================================== *)
(** * The zone of agreement *)
(* ===================================================================== *)

Lemma deterministic_respects_budget :
  respects_budget NegotiationAgent.YourBuyerAgent.
Proof.
  split.
  - intros c w offer msg w' H. simpl in H.
    unfold NegotiationAgent.generate_opening_offer in H.
    apply bind_Ok in H. destruct H as (price & w1 & Hanchor & H).
    apply lift_Ok in Hanchor. destruct Hanchor as [Hanchor _].
    apply ret_Ok in H. destruct H as [H _]. inversion H; subst.
    eapply NegotiationAgentFacts.anchor_opening_offer_le_budget; eauto.
  - intros c sp sm w status offer msg w' H. simpl in H.
    apply NegotiationAgentFacts.deterministic_respond_cases in H.
    destruct H as [(-> & -> & Hle & _) | (-> & Hcounter)].
    + split; [exact Hle | intros _; exact Hle].
    + apply NegotiationAgentFacts.concession_pattern_bounds in Hcounter.
      split; [tauto | discriminate].
Qed.

(** The zone of agreement of a buyer that respects its budget. *)
Lemma session_zone buyer_agent item budget seller_min n w s w' :
  respects_budget buyer_agent -> 0 <= seller_min < 2 ^ 53 ->
  negotiate buyer_agent item budget seller_min (range n) w = Ok (s, w') ->
  forall price, final_price s = Some price -> seller_min <= price <= budget.
Proof.
  intros Hagent Hmin Hrun price Hprice. split.
  - apply (session_floor _ _ _ _ _ _ _ _ Hmin Hrun). exact Hprice.
  - apply (respectful_session _ Hagent _ _ _ _ _ _ _ Hrun). exact Hprice.
Qed.

(** X4.  For a buyer that never offers more than its budget and
    accepts no price above it, against a seller whose floor is between 0
    and [2^53]: the price of a deal lies between the seller's floor and
    the buyer's budget, the reported savings are never negative and never
    more than [budget - seller_min], and no deal is made when the budget
    is below the floor. *)
Theorem savings_within_zone buyer_agent item budget seller_min w r w' :
  respects_budget buyer_agent -> 0 <= seller_min < 2 ^ 53 ->
  run_negotiation_test buyer_agent item budget seller_min w = Ok (r, w') ->
  (forall price, r_final_price r = Some price ->
                 seller_min <= price <= budget)
  /\ 0 <= r_savings r <= Z.max 0 (budget - seller_min)
  /\ (budget < seller_min -> r_deal_made r = false).
Proof.
  intros Hagent Hmin Hrun. apply run_negotiation_test_Ok in Hrun.
  destruct Hrun as (s & Hrun & Hsum).
  pose proof (session_zone _ _ _ _ _ _ _ _ Hagent Hmin Hrun) as Hzone.
  apply summary_Ok in Hsum. destruct Hsum as (-> & -> & _ & _ & ->).
  split; [exact Hzone|].
  destruct (deal_made s) eqn:Hdeal; [|split; [lia | reflexivity]].
  destruct (final_price s) as [price|] eqn:Hprice.
  - specialize (Hzone price eq_refl). split; lia.
  - split; [lia|]. intros Hempty.
    apply negotiate_trace in Hrun.
    destruct Hrun as [Hend | (j & s1 & w1 & _ & Hongoing & Hstep)].
    + destruct Hend as [_ _ _ _ _ _ _ _ _ Hd _]. congruence.
    + destruct (closing_round _ _ _ _ _ _ _ _ _ Hongoing Hstep)
        as (_ & _ & _ & _ & _ & st & o & m & _ & _ & Hcases).
      destruct Hcases as [(_ & _ & Hf & _) | (_ & Hf & _)]; congruence.
Qed.

(** Witness: the "easy" scenario of the Alphonso product. *)
Lemma savings_within_zone_witness :
  exists r w',
    run_negotiation_test NegotiationAgent.YourBuyerAgent alphonso
      216000 144000 offline_world = Ok (r, w')
    /\ 0 <= r_savings r <= Z.max 0 (216000 - 144000).
Proof.
  assert (Hrun : exists r w',
            run_negotiation_test NegotiationAgent.YourBuyerAgent alphonso
              216000 144000 offline_world = Ok (r, w'))
    by (do 2 eexists; vm_compute; reflexivity).
  destruct Hrun as (r & w' & Hrun). exists r, w'. split; [exact Hrun|].
  exact (proj1 (proj2 (savings_within_zone _ _ _ 144000 _ _ _
                         deterministic_respects_budget ltac:(lia) Hrun))).
Defined.

(** X5.  When the budget is below the seller's floor, a session
    of the deterministic buyer never raises and never closes a deal: in
    every world it plays the ten rounds and returns the no-deal record,
    with 21 conversation entries. *)
Theorem empty_zone_times_out item budget seller_min w :
  PyFloat.fits 700 (base_market_price item) ->
  PyFloat.fits 700 budget ->
  0 <= seller_min < 2 ^ 53 ->
  budget < seller_min ->
  exists conversation w',
    run_negotiation_test NegotiationAgent.YourBuyerAgent item budget
      seller_min w = Ok (timeout_result 10 conversation, w')
    /\ List.length conversation = 21%nat.
Proof.
  intros Hmarket Hbudget Hmin Hempty.
  assert (Hfits : PyFloat.fits 700 seller_min).
  { apply (PyFloatFacts.fits_mono 53); [lia|]. unfold PyFloat.fits. lia. }
  destruct (negotiate_total item budget seller_min w Hmarket Hbudget Hfits)
    as (s & w' & Hrun & _).
  pose proof (session_zone _ _ _ _ _ _ _ _ deterministic_respects_budget
                Hmin Hrun) as Hzone.
  pose proof Hrun as Htrace. apply negotiate_trace in Htrace.
  destruct Htrace as [Hend | (j & s1 & w1 & _ & Hongoing & Hstep)].
  - destruct Hend as [_ _ Hr _ _ _ Hroles _ _ Hd Hf].
    exists (messages (context s)), w'. split.
    + unfold run_negotiation_test, bind. rewrite Hrun.
      unfold lift, summary. rewrite Hd, Hf, Hr. reflexivity.
    + rewrite <- (length_map role), Hroles. apply alternating_length.
  - exfalso.
    destruct (closing_round _ _ _ _ _ _ _ _ _ Hongoing Hstep)
      as (_ & _ & _ & _ & _ & st & o & m & _ & _ & Hcases).
    destruct Hcases as [(_ & _ & Hf & _) | (_ & Hf & _)];
      specialize (Hzone _ Hf); lia.
Qed.

(** Witness: a budget of 100000 against a floor of 144000. *)
Lemma empty_zone_times_out_witness :
  exists conversation w',
    run_negotiation_test NegotiationAgent.YourBuyerAgent alphonso 100000
      144000 offline_world = Ok (timeout_result 10 conversation, w')
    /\ List.length conversation = 21%nat.
Proof.
  apply (empty_zone_times_out alphonso 100000 144000 offline_world).
  - apply (PyFloatFacts.fits_mono 18); [lia | reflexivity].
  - apply (PyFloatFacts.fits_mono 18); [lia | reflexivity].
  - lia.
  - lia.
Defined.

(** X6.  [ExampleSimpleAgent] respects its budget: its
    opening offer and every counter-offer are at most the budget, and it
    accepts no price above it; so in every session, after any number of
    rounds, all its recorded offers and the price of a deal are at most
    the budget. *)
Theorem example_agent_within_budget item budget seller_min n w s w' :
  negotiate ExampleAgent.ExampleSimpleAgent item budget seller_min
    (range n) w = Ok (s, w') ->
  respects_budget ExampleAgent.ExampleSimpleAgent
  /\ Forall (fun offer => offer <= budget) (your_offers (context s))
  /\ forall price, final_price s = Some price -> price <= budget.
Proof.
  intros Hrun. split; [exact example_agent_respects_budget|].
  exact (respectful_session _ example_agent_respects_budget
           _ _ _ _ _ _ _ Hrun).
Qed.

(** Witness: the "easy" scenario of the Alphonso product. *)
Lemma example_agent_within_budget_witness :
  exists s w',
    negotiate ExampleAgent.ExampleSimpleAgent alphonso 216000 144000
      (range 10) offline_world = Ok (s, w')
    /\ Forall (fun offer => offer <= 216000) (your_offers (context s)).
Proof.
  assert (Hrun : exists s w',
            negotiate ExampleAgent.ExampleSimpleAgent alphonso 216000 144000
              (range 10) offline_world = Ok (s, w'))
    by (do 2 eexists; vm_compute; reflexivity).
  destruct Hrun as (s & w' & Hrun). exists s, w'. split; [exact Hrun|].
  exact (proj1 (proj2 (example_agent_within_budget _ _ _ _ _ _ _ Hrun))).
Defined.

(* ===================================================================== *)
(** * The thresholds in integers *)
(* ===================================================================== *)

(** [seller_price <= market * 0.9] in integers. *)
Lemma le_90_percent_iff market limit seller_price :
  0 <= market < 2 ^ 48 ->
  PyFloat.int_mul market PyFloat.f0_9 = Ok limit ->
  PyFloat.int_le seller_price limit = true <-> 10 * seller_price <= 9 * market.
Proof.
  intros Hm Hlimit. split.
  - intros Hle.
    destruct (PyFloatValues.int_mul_bounds market PyFloat.f0_9 limit
                ltac:(lia) PyFloatValues.literal_f0_9 Hlimit seller_price)
      as (H & _).
    apply H in Hle. cbv [num den PyFloat.f0_9] in Hle. lia.
  - intros Hle.
    apply (PyFloatValues.int_mul_floor market PyFloat.f0_9 limit seller_price
             ltac:(lia) PyFloatValues.literal_f0_9 Hlimit);
      cbv [num den PyFloat.f0_9]; lia.
Qed.

(** X7.  For a market price between 0 and [2^48], in every
    round: whenever the deterministic [respond_to_seller_offer] returns,
    it returns ACCEPTED exactly when the seller's price is within the
    budget and [10 * seller_price <= 9 * market_price]; the float
    comparison [seller_price <= market_price * 0.9] decides exactly that
    relation between the integers.  With ACCEPTED it returns the seller's
    price; otherwise the status is ONGOING. *)
Theorem deterministic_accepts_exactly context seller_price seller_message
    w status counter msg w' :
  0 <= base_market_price (product context) < 2 ^ 48 ->
  NegotiationAgent.respond_to_seller_offer context seller_price
    seller_message w = Ok (status, counter, msg, w') ->
  (status = ACCEPTED
   <-> seller_price <= your_budget context
       /\ 10 * seller_price <= 9 * base_market_price (product context))
  /\ (status = ACCEPTED /\ counter = seller_price \/ status = ONGOING).
Proof.
  intros Hm H. unfold NegotiationAgent.respond_to_seller_offer in H.
  apply bind_Ok in H. destruct H as (batna & w1 & Hbatna & H).
  apply lift_Ok in Hbatna. destruct Hbatna as [Hbatna ->].
  unfold NegotiationAgent.evaluate_batna in Hbatna.
  apply bind_res_Ok in Hbatna. destruct Hbatna as (limit & Hlimit & Hbatna).
  inversion Hbatna as [Eb]. clear Hbatna.
  pose proof (le_90_percent_iff _ limit seller_price Hm Hlimit) as Hiff.
  apply bind_Ok in H. destruct H as (below & w2 & Hbelow & H).
  apply lift_Ok in Hbelow. destruct Hbelow as [Hbelow ->].
  rewrite Hlimit in Hbelow. simpl bind_res in Hbelow.
  assert (Eq : below = true
               <-> seller_price <= your_budget context
                   /\ 10 * seller_price
                      <= 9 * base_market_price (product context)).
  { rewrite <- Hiff. destruct batna.
    - apply andb_prop in Eb. destruct Eb as [E1 E2].
      apply Z.leb_le in E2. inversion Hbelow. rewrite E1. tauto.
    - inversion Hbelow. subst below. split; [discriminate|].
      intros [Hb Hl]. apply Z.leb_le in Hb. rewrite Hb, Hl in Eb.
      discriminate Eb. }
  destruct below.
  - apply ret_Ok in H. destruct H as [H _]. inversion H; subst.
    split; [|left; split; reflexivity].
    split; [intros _; apply Eq; reflexivity | reflexivity].
  - apply bind_Ok in H. destruct H as (c & w3 & _ & H).
    apply bind_Ok in H. destruct H as (text & w4 & _ & H).
    apply ret_Ok in H. destruct H as [H _]. inversion H; subst.
    split; [|right; reflexivity].
    split; [discriminate|]. intros Hacc. apply Eq in Hacc. discriminate.
Qed.

(** Witness: the price 162000, which is 90% of the market price. *)
Lemma deterministic_accepts_exactly_witness :
  exists status counter msg w',
    NegotiationAgent.respond_to_seller_offer
      (alphonso_context 216000 2 [117000]) 162000 "" offline_world
      = Ok (status, counter, msg, w')
    /\ (status = ACCEPTED
        <-> 162000 <= 216000 /\ 10 * 162000 <= 9 * 180000).
Proof.
  assert (Hrun : exists status counter msg w',
            NegotiationAgent.respond_to_seller_offer
              (alphonso_context 216000 2 [117000]) 162000 "" offline_world
              = Ok (status, counter, msg, w'))
    by (do 4 eexists; vm_compute; reflexivity).
  destruct Hrun as (status & counter & msg & w' & Hrun).
  exists status, counter, msg, w'. split; [exact Hrun|].
  apply (deterministic_accepts_exactly
           (alphonso_context 216000 2 [117000]) 162000 "" offline_world
           status counter msg w'); [simpl; lia | exact Hrun].
Defined.

(** X8.  For a market price between 0 and [2^48]: whenever
    the chat-backed [respond_to_seller_offer] returns, it returns
    ACCEPTED exactly when the seller's price is within the budget and,
    before round 8, [10 * seller_price <= 9 * market_price]; in rounds 8
    and 9, [seller_price <= market_price]; from round 10 on nothing more
    is asked.  The reply of the chat service has no part in the
    decision. *)
Theorem chat_buyer_accepts_exactly context seller_price seller_message
    w status counter msg w' :
  0 <= base_market_price (product context) < 2 ^ 48 ->
  BuyerAgentTeam.respond_to_seller_offer context seller_price
    seller_message w = Ok (status, counter, msg, w') ->
  (status = ACCEPTED
   <-> seller_price <= your_budget context
       /\ (current_round context < 8 ->
           10 * seller_price <= 9 * base_market_price (product context))
       /\ (8 <= current_round context < 10 ->
           seller_price <= base_market_price (product context)))
  /\ (status = ACCEPTED /\ counter = seller_price \/ status = ONGOING).
Proof.
  intros Hm H. unfold BuyerAgentTeam.respond_to_seller_offer in H.
  apply BuyerAgentTeamFacts.chat_call_Ok in H.
  destruct H as (text & w1 & _ & _ & _ & H).
  apply bind_Ok in H. destruct H as (fallback & w2 & _ & H).
  apply bind_Ok in H. destruct H as (accept & w3 & Haccept & H).
  apply lift_Ok in Haccept. destruct Haccept as [Haccept ->].
  assert (Eq : accept = true
               <-> seller_price <= your_budget context
                   /\ (current_round context < 8
                       /\ 10 * seller_price
                          <= 9 * base_market_price (product context)
                       \/ 8 <= current_round context
                          /\ seller_price
                             <= base_market_price (product context))).
  { destruct (Z.leb_spec seller_price (your_budget context)) as [Hb|Hb].
    - destruct (Z.ltb_spec (current_round context) 8) as [Hr|Hr].
      + apply bind_res_Ok in Haccept.
        destruct Haccept as (limit & Hlimit & Haccept).
        inversion Haccept as [Ea].
        rewrite (le_90_percent_iff _ limit seller_price Hm Hlimit). lia.
      + inversion Haccept as [Ea]. rewrite Z.leb_le. lia.
    - inversion Haccept. split; [discriminate | lia]. }
  destruct accept.
  - apply ret_Ok in H. destruct H as [H _]. inversion H; subst.
    split; [|left; split; reflexivity].
    split; [intros _ | reflexivity].
    destruct Eq as [Eq _]. specialize (Eq eq_refl). lia.
  - apply bind_Ok in H. destruct H as (parsed & w4 & _ & H).
    destruct (Z.leb_spec 10 (current_round context)) as [Hr|Hr];
      destruct (Z.leb_spec seller_price (your_budget context)) as [Hb|Hb];
      simpl andb in H; apply ret_Ok in H; destruct H as [H _];
      inversion H; subst.
    + split; [|left; split; reflexivity].
      split; [intros _; lia | reflexivity].
    + split; [|right; reflexivity]. split; [discriminate | lia].
    + split; [|right; reflexivity]. split; [discriminate|].
      intros Hacc. destruct Eq as [_ Eq].
      assert (false = true) by (apply Eq; lia). discriminate.
    + split; [|right; reflexivity]. split; [discriminate | lia].
Qed.

(** Witness: round 9, a price between 90% and 100% of the market price. *)
Lemma chat_buyer_accepts_exactly_witness :
  exists status counter msg w',
    BuyerAgentTeam.respond_to_seller_offer
      (alphonso_context 216000 9 [117000]) 170000 ""
      (constant_world 0 (ChatReturns "counter_offer: 150000"))
      = Ok (status, counter, msg, w')
    /\ status = ACCEPTED.
Proof.
  assert (Hrun : exists status counter msg w',
            BuyerAgentTeam.respond_to_seller_offer
              (alphonso_context 216000 9 [117000]) 170000 ""
              (constant_world 0 (ChatReturns "counter_offer: 150000"))
              = Ok (status, counter, msg, w'))
    by (do 4 eexists; vm_compute; reflexivity).
  destruct Hrun as (status & counter & msg & w' & Hrun).
  exists status, counter, msg, w'. split; [exact Hrun|].
  apply (proj1 (chat_buyer_accepts_exactly
                  (alphonso_context 216000 9 [117000]) 170000 "" _
                  status counter msg w' ltac:(simpl; lia) Hrun)).
  simpl. lia.
Defined.

(** X9.  For a market price between 0 and [2^45]:
    [ExampleSimpleAgent.respond_to_seller_offer] accepts only a price
    within the budget with [100 * seller_price <= 85 * market_price], and
    it does accept every price within the budget with
    [100 * seller_price < 85 * market_price]; it answers ACCEPTED (with
    the seller's price) or ONGOING. *)
Theorem example_agent_acceptance context seller_price seller_message
    w status counter msg w' :
  0 <= base_market_price (product context) < 2 ^ 45 ->
  ExampleAgent.respond_to_seller_offer context seller_price
    seller_message w = Ok (status, counter, msg, w') ->
  (status = ACCEPTED ->
   counter = seller_price
   /\ seller_price <= your_budget context
   /\ 100 * seller_price <= 85 * base_market_price (product context))
  /\ (seller_price <= your_budget context ->
      100 * seller_price < 85 * base_market_price (product context) ->
      status = ACCEPTED)
  /\ (status = ACCEPTED \/ status = ONGOING).
Proof.
  intros Hm H. unfold ExampleAgent.respond_to_seller_offer in H.
  apply bind_Ok in H. destruct H as (accept & w1 & Haccept & H).
  apply lift_Ok in Haccept. destruct Haccept as [Haccept ->].
  assert (Eq : (accept = true ->
                seller_price <= your_budget context
                /\ 100 * seller_price
                   <= 85 * base_market_price (product context))
               /\ (accept = false ->
                   seller_price <= your_budget context ->
                   100 * seller_price
                     < 85 * base_market_price (product context) -> False)).
  { destruct (Z.leb_spec seller_price (your_budget context)) as [Hb|Hb].
    - apply bind_res_Ok in Haccept.
      destruct Haccept as (limit & Hlimit & Haccept).
      inversion Haccept as [Ea].
      destruct (PyFloatValues.int_mul_bounds
                  (base_market_price (product context)) PyFloat.f0_85 limit
                  ltac:(lia) PyFloatValues.literal_f0_85 Hlimit seller_price)
        as (H1 & H2 & _).
      split; intros E.
      + apply H1 in E. cbv [num den PyFloat.f0_85] in E. lia.
      + apply H2 in E. cbv [num den PyFloat.f0_85] in E. lia.
    - inversion Haccept. split; [discriminate | lia]. }
  destruct accept.
  - apply ret_Ok in H. destruct H as [H _]. inversion H; subst.
    destruct Eq as [Eq _]. specialize (Eq eq_refl).
    split; [intros _; split; [reflexivity | exact Eq]|].
    split; [reflexivity | left; reflexivity].
  - apply bind_Ok in H. destruct H as (grown & w2 & _ & H).
    apply bind_Ok in H. destruct H as (close & w3 & _ & H).
    destruct Eq as [_ Eq]. specialize (Eq eq_refl).
    destruct close; apply ret_Ok in H; destruct H as [H _];
      inversion H; subst;
      (split; [discriminate|]);
      (split; [intros Hb Hl; exfalso; exact (Eq Hb Hl) | right; reflexivity]).
Qed.

(** Witness: a price of 150000 for a market price of 180000. *)
Lemma example_agent_acceptance_witness :
  exists status counter msg w',
    ExampleAgent.respond_to_seller_offer
      (alphonso_context 216000 2 [108000]) 150000 "" offline_world
      = Ok (status, counter, msg, w')
    /\ status = ACCEPTED.
Proof.
  assert (Hrun : exists status counter msg w',
            ExampleAgent.respond_to_seller_offer
              (alphonso_context 216000 2 [108000]) 150000 "" offline_world
              = Ok (status, counter, msg, w'))
    by (do 4 eexists; vm_compute; reflexivity).
  destruct Hrun as (status & counter & msg & w' & Hrun).
  exists status, counter, msg, w'. split; [exact Hrun|].
  apply (proj1 (proj2 (example_agent_acceptance
                  (alphonso_context 216000 2 [108000]) 150000 "" _
                  status counter msg w' ltac:(simpl; lia) Hrun)));
    simpl; lia.
Defined.

(** [int(offer * g)] for the seller's growth factors is at least the
    offer. *)
Lemma grown_offer_ge offer round_num grown :
  0 <= offer < 2 ^ 53 ->
  PyFloat.int_mul_trunc offer (growth_factor round_num) = Ok grown ->
  offer <= grown /\ (20 <= offer < 2 ^ 52 -> offer + 1 <= grown).
Proof.
  intros Hoffer Hgrown. unfold growth_factor in Hgrown.
  destruct (8 <=? round_num).
  - destruct (PyFloatValues.int_mul_trunc_near offer PyFloat.f1_05 Hoffer
                PyFloatValues.literal_f1_05) as (z & Hz & _ & Hlo).
    rewrite Hgrown in Hz. inversion Hz; subst z.
    cbv [num den PyFloat.f1_05] in Hlo. split; [lia|]. intros Hbig.
    apply (PyFloatValues.int_mul_trunc_floor offer PyFloat.f1_05 grown
             (offer + 1) Hoffer PyFloatValues.literal_f1_05 Hgrown);
      cbv [num den PyFloat.f1_05]; lia.
  - destruct (PyFloatValues.int_mul_trunc_near offer PyFloat.f1_15 Hoffer
                PyFloatValues.literal_f1_15) as (z & Hz & _ & Hlo).
    rewrite Hgrown in Hz. inversion Hz; subst z.
    cbv [num den PyFloat.f1_15] in Hlo. split; [lia|]. intros Hbig.
    apply (PyFloatValues.int_mul_trunc_floor offer PyFloat.f1_15 grown
             (offer + 1) Hoffer PyFloatValues.literal_f1_15 Hgrown);
      cbv [num den PyFloat.f1_15]; lia.
Qed.

(** X10.  For a floor between 0 and [2^48], whenever
    [respond_to_buyer] returns: an accepted offer is returned unchanged
    and satisfies [11 * min_price <= 10 * buyer_offer]; every offer with
    [11 * min_price < 10 * buyer_offer] is accepted; and a counter is
    neither below the floor nor below the offer it answers (for offers
    below [2^53]). *)
Theorem seller_answer_in_integers self buyer_offer round_num
    counter msg accepted :
  0 <= min_price self < 2 ^ 48 ->
  respond_to_buyer self buyer_offer round_num = Ok (counter, msg, accepted) ->
  (accepted = true ->
   counter = buyer_offer /\ 11 * min_price self <= 10 * buyer_offer)
  /\ (11 * min_price self < 10 * buyer_offer -> accepted = true)
  /\ (accepted = false ->
      min_price self <= counter
      /\ (buyer_offer < 2 ^ 53 -> buyer_offer <= counter)).
Proof.
  intros Hmin H. apply respond_to_buyer_Ok in H.
  destruct H as (threshold & Hthr & Hacc & Hyes & Hno).
  destruct (PyFloatValues.int_mul_bounds (min_price self) PyFloat.f1_1
              threshold ltac:(lia) PyFloatValues.literal_f1_1 Hthr
              buyer_offer) as (_ & _ & H3 & H4).
  cbv [num den PyFloat.f1_1] in H3, H4.
  split; [|split].
  - intros E. split; [apply Hyes; exact E|].
    rewrite E in Hacc. symmetry in Hacc. apply H3 in Hacc. lia.
  - intros Hgt. destruct accepted; [reflexivity|].
    symmetry in Hacc. apply H4 in Hacc. lia.
  - intros E. destruct (Hno E) as (grown & Hgrown & ->).
    split; [lia|]. intros Hoffer.
    destruct (Z_lt_le_dec buyer_offer 0) as [Hneg|Hpos]; [lia|].
    pose proof (grown_offer_ge buyer_offer round_num grown ltac:(lia) Hgrown).
    lia.
Qed.

(** Witness: the first answer of the seller in the "easy" scenario. *)
Lemma seller_answer_in_integers_witness :
  exists counter msg accepted,
    respond_to_buyer {| min_price := 144000; personality := "standard" |}
      117000 0 = Ok (counter, msg, accepted)
    /\ (accepted = false -> 144000 <= counter).
Proof.
  assert (Hrun : exists counter msg accepted,
            respond_to_buyer
              {| min_price := 144000; personality := "standard" |}
              117000 0 = Ok (counter, msg, accepted))
    by (do 3 eexists; vm_compute; reflexivity).
  destruct Hrun as (counter & msg & accepted & Hrun).
  exists counter, msg, accepted. split; [exact Hrun|].
  intros E.
  apply (proj2 (proj2 (seller_answer_in_integers
                  {| min_price := 144000; personality := "standard" |}
                  117000 0 counter msg accepted
                  ltac:(simpl; lia) Hrun)) E).
Defined.

(** At the boundary the seller may refuse: 55 is not [>= 50 * 1.1], which
    is above 55 in binary64. *)
Example seller_refuses_at_the_boundary :
  exists counter msg,
    respond_to_buyer {| min_price := 50; personality := "standard" |} 55 0
    = Ok (counter, msg, false).
Proof. do 2 eexists. vm_compute. reflexivity. Qed.

(* ===================================================================== *)
(** * The seller's response formula *)
(* ===================================================================== *)

(** [int(offer * 1.15)] and [int(offer * 1.05)] in integers: 115% (105%)
    of the offer rounded down, or that less one. *)
Lemma seller_growth_in_integers offer round_num grown :
  0 <= offer < 2 ^ 45 ->
  PyFloat.int_mul_trunc offer (growth_factor round_num) = Ok grown ->
  (if 8 <=? round_num then 105 else 115) * offer - 100
  <= 100 * grown
  <= (if 8 <=? round_num then 105 else 115) * offer.
Proof.
  intros Hoffer Hgrown. unfold growth_factor in Hgrown.
  destruct (8 <=? round_num).
  - destruct (PyFloatValues.int_mul_trunc_near offer PyFloat.f1_05
                ltac:(lia) PyFloatValues.literal_f1_05)
      as (z & Hz & Hup & Hlo).
    rewrite Hgrown in Hz. inversion Hz; subst z.
    cbv [num den PyFloat.f1_05] in Hup, Hlo. lia.
  - destruct (PyFloatValues.int_mul_trunc_near offer PyFloat.f1_15
                ltac:(lia) PyFloatValues.literal_f1_15)
      as (z & Hz & Hup & Hlo).
    rewrite Hgrown in Hz. inversion Hz; subst z.
    cbv [num den PyFloat.f1_15] in Hup, Hlo. lia.
Qed.

(** C5, as stated, fails on two counts.  The acceptance threshold is the
    binary64 product [min_price * 1.1], which can lie above 110% of the
    floor: the seller with floor 50 refuses 55.  And the round the seller
    is given is the driver's loop index, one less than the round the
    driver counts and reports: in round 8 of this session the seller
    still counters 180000 with [int(180000 * 1.15) = 206999], and with
    [int(180000 * 1.05) = 189000] only in round 9. *)
Lemma seller_response_formula_counterexample :
  (11 * 50 <= 10 * 55
   /\ exists counter msg,
        respond_to_buyer {| min_price := 50; personality := "standard" |} 55 0
        = Ok (counter, msg, false))
  /\ (exists s8 w8 s9 w9,
        negotiate NegotiationAgent.YourBuyerAgent alphonso 180000 170000
          (range 8) offline_world = Ok (s8, w8)
        /\ current_round (context s8) = 8
        /\ last (your_offers (context s8)) 0 = 180000
        /\ seller_price s8 = 206999
        /\ negotiate NegotiationAgent.YourBuyerAgent alphonso 180000 170000
             (range 9) offline_world = Ok (s9, w9)
        /\ current_round (context s9) = 9
        /\ last (your_offers (context s9)) 0 = 180000
        /\ seller_price s9 = 189000
        /\ PyFloat.int_mul_trunc 180000 PyFloat.f1_15 = Ok 206999
        /\ PyFloat.int_mul_trunc 180000 PyFloat.f1_05 = Ok 189000).
Proof.
  split.
  - split; [lia|]. do 2 eexists. vm_compute. reflexivity.
  - do 4 eexists.
    split; [vm_compute; reflexivity|].
    do 3 (split; [reflexivity|]).
    split; [vm_compute; reflexivity|].
    do 3 (split; [reflexivity|]).
    split; vm_compute; reflexivity.
Qed.

(** C5, amended.  For a floor and an offer between 0 and [2^45]:
    - [respond_to_buyer(buyer_offer, round_num)] returns; it accepts every
      offer above 110% of the floor and no offer below 110% of it (at
      110% exactly the rounding of [min_price * 1.1] decides), and an
      accepted offer is returned unchanged;
    - otherwise its counter is [max(min_price, g)], never below the
      floor, where [g = int(buyer_offer * 1.15)] is 115% of the offer
      rounded down, or that less one, while [round_num < 8], and
      likewise 105% of the offer from [round_num = 8] on;
    - [round_num] is the loop index the driver passes, one less than the
      round it counts in [current_round]: in a session the seller's
      counter follows the 115% rule in rounds 1 to 8 and the 105% rule in
      rounds 9 and 10. *)
Theorem seller_response_formula self buyer_offer round_num :
  0 <= min_price self < 2 ^ 45 -> 0 <= buyer_offer < 2 ^ 45 ->
  (exists counter msg accepted,
     respond_to_buyer self buyer_offer round_num
       = Ok (counter, msg, accepted)
     /\ (11 * min_price self < 10 * buyer_offer -> accepted = true)
     /\ (10 * buyer_offer < 11 * min_price self -> accepted = false)
     /\ (accepted = true -> counter = buyer_offer)
     /\ (accepted = false ->
         exists grown,
           counter = Z.max (min_price self) grown
           /\ min_price self <= counter
           /\ (if 8 <=? round_num then 105 else 115) * buyer_offer - 100
              <= 100 * grown
              <= (if 8 <=? round_num then 105 else 115) * buyer_offer))
  /\ (forall buyer_agent s w s' w',
        round_step buyer_agent self round_num s w s' false w' ->
        0 <= last (your_offers (context s')) 0 < 2 ^ 45 ->
        current_round (context s') = round_num + 1
        /\ last (seller_offers (context s')) 0 = seller_price s'
        /\ exists grown,
             seller_price s' = Z.max (min_price self) grown
             /\ (if 9 <=? current_round (context s') then 105 else 115)
                * last (your_offers (context s')) 0 - 100
                <= 100 * grown
                <= (if 9 <=? current_round (context s') then 105 else 115)
                   * last (your_offers (context s')) 0).
Proof.
  intros Hmin Hoffer. split.
  - destruct (respond_to_buyer_defined self buyer_offer round_num)
      as (counter & msg & accepted & Hrun);
      [unfold PyFloat.fits; lia | unfold PyFloat.fits; lia |].
    exists counter, msg, accepted. split; [exact Hrun|].
    apply respond_to_buyer_Ok in Hrun.
    destruct Hrun as (threshold & Hthr & Hacc & Hyes & Hno).
    destruct (PyFloatValues.int_mul_bounds (min_price self) PyFloat.f1_1
                threshold ltac:(lia) PyFloatValues.literal_f1_1 Hthr
                buyer_offer) as (_ & _ & H3 & H4).
    cbv [num den PyFloat.f1_1] in H3, H4.
    split; [|split; [|split]].
    + intros Hgt. destruct accepted; [reflexivity|].
      symmetry in Hacc. apply H4 in Hacc. lia.
    + intros Hlt. destruct accepted; [|reflexivity].
      symmetry in Hacc. apply H3 in Hacc. lia.
    + exact Hyes.
    + intros E. destruct (Hno E) as (grown & Hgrown & ->).
      exists grown. split; [reflexivity | split; [lia|]].
      apply seller_growth_in_integers; assumption.
  - intros buyer_agent s w s' w' Hstep Hlast.
    inversion Hstep
      as [ | | status offer bmsg w1 price smsg Hturn Hst Hseller]; subst.
    cbn [context current_round your_offers seller_offers seller_price
         seller_countered append_seller append_buyer set_round] in *.
    rewrite last_last in Hlast. rewrite !last_last.
    split; [reflexivity | split; [reflexivity|]].
    apply respond_to_buyer_Ok in Hseller.
    destruct Hseller as (threshold & _ & _ & _ & Hno).
    destruct (Hno eq_refl) as (grown & Hgrown & ->).
    exists grown. split; [reflexivity|].
    pose proof (seller_growth_in_integers offer round_num grown Hlast Hgrown)
      as Hbounds.
    assert (E : (9 <=? round_num + 1) = (8 <=? round_num))
      by (destruct (Z.leb_spec 8 round_num), (Z.leb_spec 9 (round_num + 1));
          (reflexivity || lia)).
    rewrite E. exact Hbounds.
Qed.

(** Witness for C5: the seller with floor 144000 answers the opening
    offer 117000 of the first round with its floor. *)
Lemma seller_response_formula_witness :
  exists counter msg accepted,
    respond_to_buyer {| min_price := 144000; personality := "standard" |}
      117000 0 = Ok (counter, msg, accepted)
    /\ accepted = false
    /\ counter = 144000.
Proof.
  destruct (proj1 (seller_response_formula
                     {| min_price := 144000; personality := "standard" |}
                     117000 0 ltac:(simpl; lia) ltac:(lia)))
    as (counter & msg & accepted & Hrun & _ & Hno & _ & Hcounter).
  exists counter, msg, accepted. split; [exact Hrun|].
  assert (E : accepted = false) by (apply Hno; simpl; lia).
  split; [exact E|].
  destruct (Hcounter E) as (grown & -> & _ & Hgrown).
  change (8 <=? 0) with false in Hgrown. cbv iota in Hgrown.
  cbn [min_price]. lia.
Defined.

(* ===================================================================== *)
(** * Sessions that close in the second round *)
(* ===================================================================== *)

(** The deterministic buyer does accept what its threshold allows. *)
Lemma deterministic_accepts context seller_price seller_message w :
  0 <= base_market_price (product context) < 2 ^ 48 ->
  seller_price <= your_budget context ->
  10 * seller_price <= 9 * base_market_price (product context) ->
  exists msg,
    NegotiationAgent.respond_to_seller_offer context seller_price
      seller_message w = Ok (ACCEPTED, seller_price, msg, w).
Proof.
  intros Hm Hb Hl.
  destruct (PyFloatValues.int_mul_near (base_market_price (product context))
              PyFloat.f0_9 ltac:(lia) PyFloatValues.literal_f0_9)
    as (limit & Hlimit & _).
  pose proof (proj2 (le_90_percent_iff _ limit seller_price Hm Hlimit) Hl)
    as Hle.
  unfold NegotiationAgent.respond_to_seller_offer,
    NegotiationAgent.evaluate_batna, bind, lift.
  rewrite Hlimit. cbn [bind_res]. rewrite Hle.
  apply Z.leb_le in Hb. rewrite Hb. cbn [andb bind_res].
  unfold ret. eauto.
Qed.

(** The buyer's opening offer in a session. *)
Lemma deterministic_opening context w :
  0 <= base_market_price (product context) < 2 ^ 48 ->
  exists anchor msg,
    NegotiationAgent.generate_opening_offer context w
      = Ok (Z.min anchor (your_budget context), msg, w)
    /\ PyFloat.int_mul_trunc (base_market_price (product context))
         PyFloat.f0_65 = Ok anchor
    /\ 0 <= anchor
    /\ 20 * anchor <= 13 * base_market_price (product context).
Proof.
  intros Hm.
  destruct (PyFloatValues.int_mul_trunc_near
              (base_market_price (product context)) PyFloat.f0_65
              ltac:(lia) PyFloatValues.literal_f0_65)
    as (anchor & Hanchor & Hup & Hlo).
  cbv [num den PyFloat.f0_65] in Hup, Hlo.
  exists anchor. eexists. split; [|split; [exact Hanchor | lia]].
  unfold NegotiationAgent.generate_opening_offer,
    NegotiationAgent.anchor_opening_offer, bind, lift.
  rewrite Hanchor. cbn [bind_res]. unfold ret. reflexivity.
Qed.

(** The seller's first answer to an offer too low for it, when
    [int(offer * 1.15)] is not above its floor: the floor. *)
Lemma seller_counters_with_floor self buyer_offer round_num :
  0 <= min_price self < 2 ^ 48 -> 0 <= buyer_offer < 2 ^ 48 ->
  round_num < 8 ->
  10 * buyer_offer < 11 * min_price self ->
  115 * buyer_offer <= 100 * min_price self ->
  exists msg,
    respond_to_buyer self buyer_offer round_num
      = Ok (min_price self, msg, false).
Proof.
  intros Hmin Hoffer Hround Hlow Hgrow.
  destruct (PyFloatValues.int_mul_near (min_price self) PyFloat.f1_1
              ltac:(lia) PyFloatValues.literal_f1_1)
    as (threshold & Hthr & _).
  destruct (PyFloatValues.int_mul_bounds (min_price self) PyFloat.f1_1
              threshold ltac:(lia) PyFloatValues.literal_f1_1 Hthr
              buyer_offer) as (_ & _ & H3 & _).
  cbv [num den PyFloat.f1_1] in H3.
  assert (Hge : PyFloat.int_ge buyer_offer threshold = false).
  { destruct (PyFloat.int_ge buyer_offer threshold); [|reflexivity].
    specialize (H3 eq_refl). lia. }
  destruct (PyFloatValues.int_mul_trunc_near buyer_offer PyFloat.f1_15
              ltac:(lia) PyFloatValues.literal_f1_15)
    as (grown & Hgrown & Hup & _).
  cbv [num den PyFloat.f1_15] in Hup.
  unfold respond_to_buyer. rewrite Hthr. cbn [bind_res]. rewrite Hge.
  destruct (Z.leb_spec 8 round_num) as [|_]; [lia|].
  rewrite Hgrown. cbn [bind_res].
  replace (Z.max (min_price self) grown) with (min_price self) by lia.
  eauto.
Qed.

(** The step relation describes all of [round_body]: a step is a run. *)
Lemma round_step_body buyer_agent seller round_num s w s' broke w' :
  round_step buyer_agent seller round_num s w s' broke w' ->
  round_body buyer_agent seller round_num s w = Ok (s', broke, w').
Proof.
  intros Hstep. unfold round_body, bind.
  destruct Hstep as [offer bmsg w1 Hturn
                    | status offer bmsg w1 price smsg Hturn Hst Hseller
                    | status offer bmsg w1 price smsg Hturn Hst Hseller];
    rewrite Hturn.
  - reflexivity.
  - destruct status; try contradiction; cbn [DealStatus_eqb];
      unfold lift; rewrite Hseller; reflexivity.
  - destruct status; try contradiction; cbn [DealStatus_eqb];
      unfold lift; rewrite Hseller; reflexivity.
Qed.

Lemma for_rounds_step buyer_agent seller round_num rest s w s1 broke w1 :
  round_step buyer_agent seller round_num s w s1 broke w1 ->
  for_rounds buyer_agent seller (round_num :: rest) s w
  = if broke then Ok (s1, w1) else for_rounds buyer_agent seller rest s1 w1.
Proof.
  intros Hstep. apply round_step_body in Hstep.
  cbn [for_rounds]. unfold bind. rewrite Hstep. destruct broke; reflexivity.
Qed.

(** When the seller's floor is between 74.75% and 90% of the market price
    and within the budget, the deterministic buyer and the mock seller
    agree on the floor in the second round. *)
Lemma quick_deal_session item budget seller_min w :
  1 <= base_market_price item < 2 ^ 45 ->
  7475 * base_market_price item <= 10000 * seller_min ->
  10 * seller_min <= 9 * base_market_price item ->
  seller_min <= budget ->
  exists opening anchor s,
    negotiate NegotiationAgent.YourBuyerAgent item budget seller_min
      (range 10) w = Ok (s, w)
    /\ PyFloat.int_mul_trunc (base_market_price item) PyFloat.f1_5
       = Ok opening
    /\ PyFloat.int_mul_trunc (base_market_price item) PyFloat.f0_65
       = Ok anchor
    /\ product (context s) = item
    /\ current_round (context s) = 2
    /\ seller_offers (context s) = [opening; seller_min]
    /\ your_offers (context s) = [Z.min anchor budget; seller_min]
    /\ deal_made s = true
    /\ final_price s = Some seller_min.
Proof.
  intros Hp Hlow Hhigh Hbudget.
  destruct (PyFloatValues.int_mul_trunc_near (base_market_price item)
              PyFloat.f1_5 ltac:(lia) PyFloatValues.literal_f1_5)
    as (opening & Hopening & _).
  set (seller := the_seller seller_min).
  set (s0 := {| context :=
                  Build_NegotiationContext item budget 0 [opening] []
                    [{| role := "seller";
                        message :=
                          ("These are premium " ++ quality_grade item
                           ++ " grade " ++ name item ++ ". I'm asking "
                           ++ rupees opening ++ ".")%string |}];
                seller_price := opening;
                seller_msg :=
                  ("These are premium " ++ quality_grade item
                   ++ " grade " ++ name item ++ ". I'm asking "
                   ++ rupees opening ++ ".")%string;
                deal_made := false; final_price := None |}).
  assert (Hopen : open_session item budget seller_min = Ok s0).
  { unfold open_session, get_opening_price. rewrite Hopening. reflexivity. }
  (* round 1 *)
  set (c1 := set_round (context s0) (0 + 1)).
  destruct (deterministic_opening c1 w ltac:(simpl; lia))
    as (anchor & bmsg & Hoffer & Hanchor & Hanchor0 & Hanchor_le).
  change (base_market_price (product c1)) with (base_market_price item)
    in Hanchor, Hanchor_le.
  change (your_budget c1) with budget in Hoffer.
  set (offer := Z.min anchor budget) in *.
  assert (Hoffer_bounds : 0 <= offer < 2 ^ 48
                          /\ 10 * offer < 11 * seller_min
                          /\ 115 * offer <= 100 * seller_min)
    by (unfold offer; lia).
  destruct (seller_counters_with_floor seller offer 0) as (smsg & Hseller);
    try (unfold seller, the_seller; cbn [min_price]; lia).
  assert (Hstep1 : round_step NegotiationAgent.YourBuyerAgent seller 0 s0 w
                     (seller_countered (append_buyer c1 offer bmsg) s0
                        seller_min smsg) false w).
  { apply (SellerCounters _ _ 0 s0 w ONGOING offer bmsg w seller_min smsg);
      [|discriminate | exact Hseller].
    unfold buyer_turn. cbn [Z.eqb]. fold c1.
    change (generate_opening_offer NegotiationAgent.YourBuyerAgent c1)
      with (NegotiationAgent.generate_opening_offer c1).
    unfold bind. rewrite Hoffer. reflexivity. }
  set (s1 := seller_countered (append_buyer c1 offer bmsg) s0 seller_min smsg)
    in *.
  (* round 2 *)
  set (c2 := set_round (context s1) (1 + 1)).
  destruct (deterministic_accepts c2 seller_min smsg w) as (amsg & Haccept);
    try (unfold c2, s1, c1, s0;
         cbn [product your_budget context set_round seller_countered
              append_buyer append_seller];
         lia).
  assert (Hstep2 : round_step NegotiationAgent.YourBuyerAgent seller 1 s1 w
                     (buyer_accepted (append_buyer c2 seller_min amsg) s1)
                     true w).
  { apply (BuyerAccepts _ _ 1 s1 w seller_min amsg w).
    unfold buyer_turn. cbn [Z.eqb]. fold c2. exact Haccept. }
  exists opening, anchor. eexists.
  split.
  - unfold negotiate, bind, lift. rewrite Hopen.
    change (range 10) with (0 :: 1 :: map Z.of_nat (seq 2 8)).
    fold seller.
    rewrite (for_rounds_step _ _ _ _ _ _ _ _ _ Hstep1).
    rewrite (for_rounds_step _ _ _ _ _ _ _ _ _ Hstep2).
    reflexivity.
  - split; [exact Hopening|]. split; [exact Hanchor|].
    repeat split.
Qed.

(** The result record of such a session. *)
Lemma quick_deal_result item budget seller_min w :
  1 <= base_market_price item < 2 ^ 45 ->
  7475 * base_market_price item <= 10000 * seller_min ->
  10 * seller_min <= 9 * base_market_price item ->
  seller_min <= budget < 2 ^ 53 ->
  exists r,
    run_negotiation_test NegotiationAgent.YourBuyerAgent item budget
      seller_min w = Ok (r, w)
    /\ r_deal_made r = true
    /\ r_final_price r = Some seller_min
    /\ r_rounds r = 2
    /\ r_savings r = budget - seller_min.
Proof.
  intros Hp Hlow Hhigh Hbudget.
  destruct (quick_deal_session item budget seller_min w Hp Hlow Hhigh
              ltac:(lia))
    as (opening & anchor & s & Hrun & _ & _ & _ & Hr & _ & _ & Hd & Hf).
  assert (Hfits : forall n, Z.abs n < 2 ^ 53 -> PyFloat.fits 990 n).
  { intros n Hn. apply (PyFloatFacts.fits_mono 53); [lia | exact Hn]. }
  pose proof (summary_total item budget 990 s ltac:(lia)
                (Hfits budget ltac:(lia))
                (Hfits (base_market_price item) ltac:(lia))) as Hsum.
  rewrite Hd in Hsum. cbn [andb] in Hsum.
  destruct (Z.eqb_spec budget 0) as [|_]; [lia|].
  destruct (Z.eqb_spec (base_market_price item) 0) as [|_]; [lia|].
  cbn [orb] in Hsum.
  destruct Hsum as (r & Hsum).
  { intros _. exists seller_min. split; [exact Hf | apply Hfits; lia]. }
  exists r. split.
  - unfold run_negotiation_test, bind. rewrite Hrun. unfold lift.
    rewrite Hsum. reflexivity.
  - apply summary_Ok in Hsum.
    destruct Hsum as (-> & -> & -> & _ & ->).
    rewrite Hd, Hf, Hr. repeat split.
Qed.

(** X11.  For a market price between 1 and [2^45]: whenever the
    seller's floor is between 74.75% and 90% of the market price and
    within the budget, the session of the deterministic buyer returns in
    every world, without consulting it, a deal closed in round 2 at the
    seller's floor: the buyer opens with [min(int(market * 0.65),
    budget)], the seller counters with its floor, the buyer accepts.  The
    savings reported are [budget - seller_min]. *)
Theorem quick_agreement item budget seller_min w :
  1 <= base_market_price item < 2 ^ 45 ->
  7475 * base_market_price item <= 10000 * seller_min ->
  10 * seller_min <= 9 * base_market_price item ->
  seller_min <= budget < 2 ^ 53 ->
  exists r s anchor,
    run_negotiation_test NegotiationAgent.YourBuyerAgent item budget
      seller_min w = Ok (r, w)
    /\ negotiate NegotiationAgent.YourBuyerAgent item budget seller_min
         (range 10) w = Ok (s, w)
    /\ r_deal_made r = true
    /\ r_final_price r = Some seller_min
    /\ r_rounds r = 2
    /\ r_savings r = budget - seller_min
    /\ PyFloat.int_mul_trunc (base_market_price item) PyFloat.f0_65
       = Ok anchor
    /\ your_offers (context s) = [Z.min anchor budget; seller_min].
Proof.
  intros Hp Hlow Hhigh Hbudget.
  destruct (quick_deal_result item budget seller_min w Hp Hlow Hhigh Hbudget)
    as (r & Hrun & Hd & Hf & Hr & Hs).
  destruct (quick_deal_session item budget seller_min w Hp Hlow Hhigh
              ltac:(lia))
    as (opening & anchor & s & Hsession & _ & Hanchor & _ & _ & _ & Hyo & _).
  exists r, s, anchor. repeat split; assumption.
Qed.

(** Witness: the "medium" scenario of the Kesar product. *)
Lemma quick_agreement_witness :
  exists r,
    run_negotiation_test NegotiationAgent.YourBuyerAgent kesar 150000
      127500 offline_world = Ok (r, offline_world)
    /\ r_final_price r = Some 127500 /\ r_rounds r = 2.
Proof.
  destruct (quick_agreement kesar 150000 127500 offline_world)
    as (r & s & anchor & Hrun & _ & _ & Hf & Hr & _);
    try (simpl; lia).
  exists r. split; [exact Hrun | split; assumption].
Defined.

(* ===================================================================== *)
(** * The test harness *)
(* ===================================================================== *)

(** The budget and the floor of each scenario lie where the session closes
    in the second round. *)
Lemma scenario_parameters_zone scenario item :
  20 <= base_market_price item < 2 ^ 45 ->
  exists budget seller_min,
    scenario_parameters scenario item = Ok (budget, seller_min)
    /\ 7475 * base_market_price item <= 10000 * seller_min
    /\ 10 * seller_min <= 9 * base_market_price item
    /\ seller_min <= budget < 2 ^ 53.
Proof.
  intros Hp. unfold scenario_parameters.
  assert (Hrange : 0 <= base_market_price item < 2 ^ 53) by lia.
  destruct (String.eqb scenario "easy");
    [|destruct (String.eqb scenario "medium")].
  - destruct (PyFloatValues.int_mul_trunc_near _ PyFloat.f1_2 Hrange
                PyFloatValues.literal_f1_2) as (b & Hb & Hb1 & Hb2).
    destruct (PyFloatValues.int_mul_trunc_near _ PyFloat.f0_8 Hrange
                PyFloatValues.literal_f0_8) as (m & Hm & Hm1 & Hm2).
    cbv [num den PyFloat.f1_2] in Hb1, Hb2.
    cbv [num den PyFloat.f0_8] in Hm1, Hm2.
    rewrite Hb, Hm. cbn [bind_res]. exists b, m.
    split; [reflexivity | lia].
  - destruct (PyFloatValues.int_mul_trunc_near _ PyFloat.f1_0 Hrange
                PyFloatValues.literal_f1_0) as (b & Hb & Hb1 & Hb2).
    destruct (PyFloatValues.int_mul_trunc_near _ PyFloat.f0_85 Hrange
                PyFloatValues.literal_f0_85) as (m & Hm & Hm1 & Hm2).
    cbv [num den PyFloat.f1_0] in Hb1, Hb2.
    cbv [num den PyFloat.f0_85] in Hm1, Hm2.
    rewrite Hb, Hm. cbn [bind_res]. exists b, m.
    split; [reflexivity | lia].
  - destruct (PyFloatValues.int_mul_trunc_near _ PyFloat.f0_9 Hrange
                PyFloatValues.literal_f0_9) as (b & Hb & Hb1 & Hb2).
    destruct (PyFloatValues.int_mul_trunc_near _ PyFloat.f0_82 Hrange
                PyFloatValues.literal_f0_82) as (m & Hm & Hm1 & Hm2).
    cbv [num den PyFloat.f0_9] in Hb1, Hb2.
    cbv [num den PyFloat.f0_82] in Hm1, Hm2.
    rewrite Hb, Hm. cbn [bind_res]. exists b, m.
    split; [reflexivity | lia].
Qed.

(** One scenario of the harness: a deal, and savings that are not
    negative. *)
Lemma test_scenario_closes item scenario total_savings deals_made w :
  20 <= base_market_price item < 2 ^ 45 ->
  exists saved,
    test_scenario NegotiationAgent.YourBuyerAgent item scenario
      (total_savings, deals_made) w
    = Ok (total_savings + saved, deals_made + 1, w)
    /\ 0 <= saved.
Proof.
  intros Hp.
  destruct (scenario_parameters_zone scenario item Hp)
    as (budget & seller_min & Hparams & Hlow & Hhigh & Hbudget).
  destruct (quick_deal_result item budget seller_min w ltac:(lia) Hlow Hhigh
              Hbudget) as (r & Hrun & Hd & _ & _ & Hs).
  exists (budget - seller_min). split; [|lia].
  unfold test_scenario, bind, lift. rewrite Hparams, Hrun, Hd, Hs.
  reflexivity.
Qed.

Lemma for_products_closes products : forall total_savings deals_made w,
  Forall (fun item => 20 <= base_market_price item < 2 ^ 45) products ->
  exists total,
    for_products NegotiationAgent.YourBuyerAgent products
      (total_savings, deals_made) w
    = Ok (total, deals_made + 3 * Z.of_nat (List.length products), w)
    /\ total_savings <= total.
Proof.
  induction products as [|item rest IH]; intros t d w Hall.
  - exists t. split; [|lia]. simpl. unfold ret.
    replace (d + 0) with d by lia. reflexivity.
  - inversion Hall as [|? ? Hitem Hrest]; subst.
    destruct (test_scenario_closes item "easy" t d w Hitem)
      as (s1 & H1 & Hs1).
    destruct (test_scenario_closes item "medium" (t + s1) (d + 1) w Hitem)
      as (s2 & H2 & Hs2).
    destruct (test_scenario_closes item "hard" (t + s1 + s2) (d + 1 + 1) w
                Hitem) as (s3 & H3 & Hs3).
    destruct (IH (t + s1 + s2 + s3) (d + 1 + 1 + 1) w Hrest)
      as (total & Hrec & Htotal).
    exists total. split; [|lia].
    cbn [for_products for_scenarios]. unfold bind.
    rewrite H1, H2, H3. unfold ret. rewrite Hrec.
    replace (d + 1 + 1 + 1 + 3 * Z.of_nat (List.length rest))
      with (d + 3 * Z.of_nat (List.length (item :: rest)))
      by (cbn [List.length]; lia).
    reflexivity.
Qed.

(** X12.  The loops of [test_your_agent] over any list of
    products with market prices between 20 and [2^45]: in every world
    every scenario closes with a deal, in round 2 and at the seller's
    floor of the scenario (whatever the scenario string: anything but
    "easy" and "medium" is treated as "hard"); the counters end with
    three deals per product and total savings that are not negative. *)
Theorem harness_closes_every_scenario products w :
  Forall (fun item => 20 <= base_market_price item < 2 ^ 45) products ->
  exists total_savings,
    for_products NegotiationAgent.YourBuyerAgent products (0, 0) w
    = Ok (total_savings, 3 * Z.of_nat (List.length products), w)
    /\ 0 <= total_savings
    /\ forall item scenario,
         In item products ->
         exists buyer_budget seller_min r,
           scenario_parameters scenario item = Ok (buyer_budget, seller_min)
           /\ run_negotiation_test NegotiationAgent.YourBuyerAgent item
                buyer_budget seller_min w = Ok (r, w)
           /\ r_deal_made r = true
           /\ r_final_price r = Some seller_min
           /\ r_rounds r = 2.
Proof.
  intros Hall.
  destruct (for_products_closes products 0 0 w Hall) as (total & Hrun & Ht).
  exists total. split; [exact Hrun|]. split; [exact Ht|].
  intros item scenario Hin.
  rewrite Forall_forall in Hall. specialize (Hall item Hin).
  destruct (scenario_parameters_zone scenario item Hall)
    as (budget & seller_min & Hparams & Hlow & Hhigh & Hbudget).
  destruct (quick_deal_result item budget seller_min w ltac:(lia) Hlow Hhigh
              Hbudget) as (r & Hres & Hd & Hf & Hr & _).
  exists budget, seller_min, r. repeat split; assumption.
Qed.

(** Witness: [test_your_agent] itself, on its two products. *)
Lemma harness_closes_every_scenario_witness :
  exists total_savings,
    test_your_agent NegotiationAgent.YourBuyerAgent offline_world
    = Ok (total_savings, 6, offline_world)
    /\ 0 <= total_savings.
Proof.
  destruct (harness_closes_every_scenario test_products offline_world)
    as (total & Hrun & Ht & _).
  - repeat constructor; simpl; lia.
  - exists total. split; [exact Hrun | exact Ht].
Defined.

(** What [test_your_agent] reports for its two products, in every world:
    six deals and total savings of 207901 (in the "hard" scenario of the
    second product the seller's floor [int(150000 * 0.82)] is 122999). *)
Example test_your_agent_summary w :
  test_your_agent NegotiationAgent.YourBuyerAgent w = Ok (207901, 6, w).
Proof. vm_compute. reflexivity. Qed.

(* ===================================================================== *)
(** * The deterministic buyer never lowers its offer *)
(* ===================================================================== *)

Lemma nondecreasing_snoc l : forall x,
  nondecreasing l -> (l <> [] -> last l 0 <= x) -> nondecreasing (l ++ [x]).
Proof.
  induction l as [|a rest IH]; intros x Hl Hx; [exact I|].
  destruct rest as [|b rest'].
  - simpl. split; [apply Hx; discriminate | exact I].
  - change ((a :: b :: rest') ++ [x]) with (a :: (b :: rest') ++ [x]).
    change (nondecreasing (a :: (b :: rest') ++ [x]))
      with (a <= b /\ nondecreasing ((b :: rest') ++ [x])).
    destruct Hl as [Hab Hrest]. split; [exact Hab|].
    apply IH; [exact Hrest|]. intros _. apply Hx. discriminate.
Qed.

(** The negotiation with the trace of an invariant of one's own. *)
Lemma negotiate_trace_with (J : nat -> Session -> Prop)
    buyer_agent item budget seller_min n w s w' :
  (forall s0, ongoing item budget (the_seller seller_min) 0 s0 -> J 0%nat s0) ->
  (forall k s1 w1 s2 w2,
     ongoing item budget (the_seller seller_min) k s1 -> J k s1 ->
     round_step buyer_agent (the_seller seller_min) (Z.of_nat k)
       s1 w1 s2 false w2 ->
     J (S k) s2) ->
  negotiate buyer_agent item budget seller_min (range n) w = Ok (s, w') ->
  (ongoing item budget (the_seller seller_min) n s /\ J n s)
  \/ exists j s1 w1,
       (j < n)%nat /\ ongoing item budget (the_seller seller_min) j s1
       /\ J j s1
       /\ round_step buyer_agent (the_seller seller_min) (Z.of_nat j)
            s1 w1 s true w'.
Proof.
  intros J0 Jstep H. unfold negotiate in H. apply bind_Ok in H.
  destruct H as (s0 & w0 & Hopen & Hloop).
  apply lift_Ok in Hopen. destruct Hopen as [Hopen ->].
  assert (H0 : ongoing item budget (the_seller seller_min) 0 s0).
  { unfold open_session in Hopen. apply bind_res_Ok in Hopen.
    destruct Hopen as ([price msg] & Hprice & Hs0). inversion Hs0; subst.
    constructor; simpl; try reflexivity; eauto. }
  unfold range in Hloop.
  apply (for_rounds_trace buyer_agent (the_seller seller_min)
           (fun k s => ongoing item budget (the_seller seller_min) k s
                       /\ J k s)) in Hloop.
  - destruct Hloop as [Hend | (j & s1 & w1 & Hj & [HI HJ] & Hbreak)].
    + left. exact Hend.
    + right. exists j, s1, w1. split; [lia|]. auto.
  - intros k s1 w1 s2 w2 [HI HJ] Hstep. split.
    + eapply ongoing_step; eauto.
    + eapply Jstep; eauto.
  - split; [exact H0 | apply J0; exact H0].
Qed.

(** What the deterministic buyer puts on the table, given what is there:
    at least 20 in the first round, and afterwards at least its last
    offer, when that was at least 20 and below the seller's price. *)
Lemma deterministic_next_offer k c s w status offer msg w' :
  31 <= base_market_price (product c) < 2 ^ 48 ->
  20 <= your_budget c ->
  buyer_turn NegotiationAgent.YourBuyerAgent (Z.of_nat k) c s w
    = Ok (status, offer, msg, w') ->
  (k <> 0%nat ->
   your_offers c <> []
   /\ 20 <= last (your_offers c) 0 < seller_price s
   /\ last (your_offers c) 0 <= your_budget c) ->
  20 <= offer <= your_budget c
  /\ (k <> 0%nat -> last (your_offers c) 0 <= offer).
Proof.
  intros Hm Hb Hturn Hlast. unfold buyer_turn in Hturn.
  destruct k as [|k].
  - cbn [Z.of_nat Z.eqb] in Hturn.
    apply bind_Ok in Hturn. destruct Hturn as ([o t] & w1 & Hopen & H).
    apply ret_Ok in H. destruct H as [H _]. inversion H; subst.
    change (generate_opening_offer NegotiationAgent.YourBuyerAgent c)
      with (NegotiationAgent.generate_opening_offer c) in Hopen.
    unfold NegotiationAgent.generate_opening_offer in Hopen.
    apply bind_Ok in Hopen. destruct Hopen as (price & w2 & Hanchor & H2).
    apply lift_Ok in Hanchor. destruct Hanchor as [Hanchor _].
    apply ret_Ok in H2. destruct H2 as [H2 _]. inversion H2; subst.
    unfold NegotiationAgent.anchor_opening_offer in Hanchor.
    apply bind_res_Ok in Hanchor. destruct Hanchor as (anchor & Ha & Hmin).
    inversion Hmin; subst.
    assert (20 <= anchor).
    { apply (PyFloatValues.int_mul_trunc_floor
               (base_market_price (product c)) PyFloat.f0_65 anchor 20
               ltac:(lia) PyFloatValues.literal_f0_65 Ha);
        cbv [num den PyFloat.f0_65]; lia. }
    split; [lia | intros Hk; contradiction].
  - replace (Z.of_nat (S k) =? 0) with false in Hturn
      by (symmetry; apply Z.eqb_neq; lia).
    destruct (Hlast ltac:(discriminate)) as (Hne & Hl & Hlb).
    change (respond_to_seller_offer NegotiationAgent.YourBuyerAgent)
      with NegotiationAgent.respond_to_seller_offer in Hturn.
    apply NegotiationAgentFacts.deterministic_respond_cases in Hturn.
    destruct Hturn as [(-> & -> & Hle & _) | (-> & Hcounter)].
    + split; [lia | intros _; lia].
    + unfold NegotiationAgent.concession_pattern in Hcounter.
      apply bind_res_Ok in Hcounter.
      destruct Hcounter as (concession & Hcon & Hcounter).
      inversion Hcounter; subst. clear Hcounter.
      assert (Hcon0 : 0 <= concession).
      { destruct (current_round c <? 3);
          [|destruct (current_round c <? 7)];
          eapply PyFloatFacts.int_mul_trunc_nonneg; try exact Hcon;
          [apply PyFloatFacts.small_f0_05 | lia
          |apply PyFloatFacts.small_f0_1 | lia
          |apply PyFloatFacts.small_f0_15 | lia]. }
      destruct (your_offers c) as [|o rest] eqn:Eo; [contradiction|].
      split; [lia | intros _; lia].
Qed.

(** X13.  In every session of the deterministic buyer with a
    market price between 31 and [2^48] and a budget between 20 and
    [2^48], after any number of rounds: the offers recorded in
    [your_offers] never decrease from one round to the next, and each
    lies between 20 and the budget.  (The seller's counter to an offer of
    at least 20 is above that offer, so the cap [seller_price - 1] of
    [concession_pattern] never pulls the next offer below the last
    one.) *)
Theorem deterministic_offers_never_decrease item budget seller_min
    n w s w' :
  31 <= base_market_price item < 2 ^ 48 ->
  20 <= budget < 2 ^ 48 ->
  negotiate NegotiationAgent.YourBuyerAgent item budget seller_min
    (range n) w = Ok (s, w') ->
  nondecreasing (your_offers (context s))
  /\ Forall (fun offer => 20 <= offer <= budget) (your_offers (context s)).
Proof.
  intros Hm Hb Hrun.
  set (J := fun (k : nat) (s : Session) =>
              Forall (fun offer => 20 <= offer <= budget)
                     (your_offers (context s))
              /\ nondecreasing (your_offers (context s))
              /\ (k <> 0%nat ->
                  your_offers (context s) <> []
                  /\ last (your_offers (context s)) 0 < seller_price s)).
  assert (Hnext : forall k s1 w1 status offer msg w2,
            ongoing item budget (the_seller seller_min) k s1 -> J k s1 ->
            buyer_turn NegotiationAgent.YourBuyerAgent (Z.of_nat k)
              (set_round (context s1) (Z.of_nat k + 1)) s1 w1
              = Ok (status, offer, msg, w2) ->
            Forall (fun offer => 20 <= offer <= budget)
                   (your_offers (context s1) ++ [offer])
            /\ nondecreasing (your_offers (context s1) ++ [offer])).
  { intros k s1 w1 status offer msg w2 Hongoing (Hall & Hnd & Hlast) Hturn.
    destruct Hongoing as [Hp Hbud _ Hlen _ _ _ _ _ _ _].
    pose proof (deterministic_next_offer k
                  (set_round (context s1) (Z.of_nat k + 1))
                  s1 w1 status offer msg w2) as Hn.
    cbn [product your_budget your_offers set_round] in Hn.
    rewrite Hp, Hbud in Hn. specialize (Hn Hm ltac:(lia) Hturn).
    destruct Hn as [Hoffer Hge].
    - intros Hk. destruct (Hlast Hk) as [Hne Hlt].
      pose proof (Forall_last _ _ 0 Hall Hne) as Hl. cbv beta in Hl.
      split; [exact Hne | split; lia].
    - split.
      + apply Forall_app. split; [exact Hall|].
        constructor; [exact Hoffer | constructor].
      + apply nondecreasing_snoc; [exact Hnd|]. intros Hne.
        apply Hge. intros ->.
        destruct (your_offers (context s1));
          [contradiction | discriminate Hlen]. }
  apply (negotiate_trace_with J) in Hrun.
  - destruct Hrun as [[_ (Hall & Hnd & _)]
                     | (j & s1 & w1 & _ & Hongoing & HJ & Hstep)].
    + split; assumption.
    + destruct (closing_round _ _ _ _ _ _ _ _ _ Hongoing Hstep)
        as (_ & _ & _ & _ & _ & status & offer & msg & Hturn & Hyo & _).
      rewrite Hyo.
      destruct (Hnext _ _ _ _ _ _ _ Hongoing HJ Hturn) as [Hall Hnd].
      split; assumption.
  - intros s0 H0. destruct H0 as [_ _ _ Hlen _ _ _ _ _ _ _].
    destruct (your_offers (context s0)) as [|o l] eqn:E; [|discriminate].
    unfold J. rewrite E. split; [constructor|]. split; [exact I|].
    intros Hk. contradiction.
  - intros k s1 w1 s2 w2 Hongoing HJ Hstep.
    inversion Hstep as [ | | status offer bmsg w3 price smsg Hturn Hst Hseller];
      subst.
    destruct (Hnext _ _ _ _ _ _ _ Hongoing HJ Hturn) as [Hall Hnd].
    unfold J. cbn [context your_offers seller_countered append_seller
                   append_buyer seller_price].
    split; [exact Hall|]. split; [exact Hnd|]. intros _.
    split; [intros E; apply app_eq_nil in E; destruct E; discriminate|].
    rewrite last_last.
    apply Forall_app in Hall. destruct Hall as [_ Hoffer].
    inversion Hoffer as [|? ? Ho _]; subst.
    apply respond_to_buyer_Ok in Hseller.
    destruct Hseller as (threshold & _ & _ & _ & Hcounter).
    destruct (Hcounter eq_refl) as (grown & Hgrown & ->).
    destruct (grown_offer_ge offer (Z.of_nat k) grown ltac:(lia) Hgrown)
      as [_ Hplus].
    specialize (Hplus ltac:(lia)). lia.
Qed.

(** Witness: a session of ten rounds with rising offers. *)
Lemma deterministic_offers_never_decrease_witness :
  exists s w',
    negotiate NegotiationAgent.YourBuyerAgent alphonso 216000 200000
      (range 10) offline_world = Ok (s, w')
    /\ nondecreasing (your_offers (context s)).
Proof.
  assert (Hrun : exists s w',
            negotiate NegotiationAgent.YourBuyerAgent alphonso 216000 200000
              (range 10) offline_world = Ok (s, w'))
    by (do 2 eexists; vm_compute; reflexivity).
  destruct Hrun as (s & w' & Hrun). exists s, w'. split; [exact Hrun|].
  apply (deterministic_offers_never_decrease alphonso 216000 200000 10
           offline_world s w'); [simpl; lia | lia | exact Hrun].
Defined.

(* ===================================================================== *)
(** * The helper methods of the deterministic buyer *)
(* ===================================================================== *)

(** X14.  For a base price between 0 and [2^36],
    [calculate_fair_price] returns, and its result is the integer part of
    [base_price * grade% * quantity%] or that less one, never more: the
    grade counts 85% for "B", 115% for "Export" and 100% for "A" and for
    every grade that is not a key of the table; more than 100 units count
    95%. *)
Theorem fair_price_within_one item :
  0 <= base_market_price item < 2 ^ 36 ->
  exists price,
    NegotiationAgentHelpers.calculate_fair_price item = Ok price
    /\ 0 <= price
    /\ grade_percent (quality_grade item) * quantity_percent (quantity item)
       * base_market_price item - 10000
       <= 10000 * price
       <= grade_percent (quality_grade item)
          * quantity_percent (quantity item) * base_market_price item.
Proof.
  intros Hbase.
  unfold NegotiationAgentHelpers.calculate_fair_price,
    NegotiationAgentHelpers.quality_multiplier, grade_percent,
    quantity_percent.
  assert (Hrange : 0 <= base_market_price item < 2 ^ 53) by lia.
  assert (Hcase : forall c1 c2 p1 p2,
            literal_constant c1 -> literal_constant c2 ->
            (forall z,
               2 ^ 104 * z * (den c1 * den c2)
               <= (2 ^ 52 + 1) * (2 ^ 52 + 1)
                  * (base_market_price item * num c1 * num c2) ->
               (2 ^ 52 - 1) * (2 ^ 52 - 1)
               * (base_market_price item * num c1 * num c2)
               < 2 ^ 104 * (z + 1) * (den c1 * den c2) ->
               0 <= z
               /\ p1 * p2 * base_market_price item - 10000 <= 10000 * z
                  <= p1 * p2 * base_market_price item) ->
            exists price,
              (graded <~ PyFloat.int_mul (base_market_price item) c1 ;;
               PyFloat.to_int (PyFloat.fmul graded c2))%py = Ok price
              /\ 0 <= price
              /\ p1 * p2 * base_market_price item - 10000 <= 10000 * price
                 <= p1 * p2 * base_market_price item).
  { intros c1 c2 p1 p2 Hc1 Hc2 Hz.
    destruct (PyFloatValues.int_mul_mul_trunc_near (base_market_price item)
                c1 c2 Hrange Hc1 Hc2) as (x & z & Hx & Hto & Hup & Hlo).
    exists z. rewrite Hx. cbn [bind_res]. split; [exact Hto|].
    apply Hz; assumption. }
  destruct (String.eqb (quality_grade item) "A") eqn:EA;
    [assert (EB : String.eqb (quality_grade item) "B" = false)
       by (apply String.eqb_eq in EA; rewrite EA; reflexivity);
     assert (EE : String.eqb (quality_grade item) "Export" = false)
       by (apply String.eqb_eq in EA; rewrite EA; reflexivity);
     rewrite EB, EE
    |destruct (String.eqb (quality_grade item) "B") eqn:EB;
       [|destruct (String.eqb (quality_grade item) "Export") eqn:EE]];
    destruct (100 <? quantity item);
    apply Hcase;
    try apply PyFloatValues.literal_f1_0;
    try apply PyFloatValues.literal_f0_85;
    try apply PyFloatValues.literal_f1_15;
    try apply PyFloatValues.literal_f0_95;
    intros z Hup Hlo;
    cbv [num den PyFloat.f1_0 PyFloat.f0_85 PyFloat.f1_15 PyFloat.f0_95]
      in Hup, Hlo;
    lia.
Qed.

(** Witness: the Kesar product, grade "B", 150 units. *)
Lemma fair_price_within_one_witness :
  exists price,
    NegotiationAgentHelpers.calculate_fair_price kesar = Ok price
    /\ 85 * 95 * 150000 - 10000 <= 10000 * price <= 85 * 95 * 150000.
Proof.
  destruct (fair_price_within_one kesar ltac:(simpl; lia))
    as (price & Hprice & _ & Hbounds).
  exists price. split; [exact Hprice | exact Hbounds].
Defined.

Lemma trend_last_first l :
  l <> [] -> NegotiationAgentHelpers.trend l = last l 0 - hd 0 l.
Proof.
  unfold NegotiationAgentHelpers.trend.
  destruct l as [|a [|b rest]]; intros Hl; [contradiction | simpl; lia|].
  reflexivity.
Qed.

(** A true division by a divisor that is not zero returns or overflows. *)
Lemma int_truediv_nonzero a b :
  b <> 0 ->
  (exists q, PyFloat.int_truediv a b = Ok q)
  \/ PyFloat.int_truediv a b = Raise OverflowError.
Proof.
  intros Hb. unfold PyFloat.int_truediv.
  destruct (Z.eqb_spec b 0) as [|_]; [contradiction|].
  destruct (a =? 0); [eauto|].
  destruct (SFdiv_core_binary _ _ _ _ _ _) as [[q e] l].
  destruct (binary_round_aux _ _ _ _ _ _); eauto.
Qed.

(** X15.  [analyze_negotiation_progress]: with an empty history
    of either party it returns the empty dictionary; otherwise it raises
    ZeroDivisionError when the seller's first offer is 0; otherwise it
    either raises OverflowError (not when the distance between the
    seller's first and last offer has at most 1000 bits) or returns a
    dictionary whose trends are the last offer minus the first one of
    each party (0 for a single offer) and whose [rounds_remaining] is
    [10 - current_round]. *)
Theorem analyze_progress_cases context :
  ((seller_offers context = [] \/ your_offers context = []) ->
   NegotiationAgentHelpers.analyze_negotiation_progress context = Ok None)
  /\ (seller_offers context <> [] -> your_offers context <> [] ->
      (hd 0 (seller_offers context) = 0 ->
       NegotiationAgentHelpers.analyze_negotiation_progress context
       = Raise ZeroDivisionError)
      /\ (hd 0 (seller_offers context) <> 0 ->
          NegotiationAgentHelpers.analyze_negotiation_progress context
          = Raise OverflowError
          \/ exists progress,
               NegotiationAgentHelpers.analyze_negotiation_progress context
               = Ok (Some progress)
               /\ NegotiationAgentHelpers.seller_trend progress
                  = last (seller_offers context) 0
                    - hd 0 (seller_offers context)
               /\ NegotiationAgentHelpers.your_trend progress
                  = last (your_offers context) 0
                    - hd 0 (your_offers context)
               /\ NegotiationAgentHelpers.rounds_remaining progress
                  = 10 - current_round context)
      /\ (hd 0 (seller_offers context) <> 0 ->
          PyFloat.fits 1000 (hd 0 (seller_offers context)
                             - last (seller_offers context) 0) ->
          exists progress,
            NegotiationAgentHelpers.analyze_negotiation_progress context
            = Ok (Some progress))).
Proof.
  unfold NegotiationAgentHelpers.analyze_negotiation_progress.
  split.
  - intros [H | H]; rewrite H; [reflexivity|].
    destruct (seller_offers context); reflexivity.
  - intros Hso Hyo.
    pose proof (trend_last_first _ Hso) as Hst.
    pose proof (trend_last_first _ Hyo) as Hyt.
    destruct (seller_offers context) as [|first rest] eqn:Eso;
      [contradiction|].
    destruct (your_offers context) as [|mine others] eqn:Eyo;
      [contradiction|].
    cbn [hd] in *. unfold percentage.
    split; [|split].
    + intros ->. reflexivity.
    + intros Hfirst.
      destruct (int_truediv_nonzero (first - last (first :: rest) 0) first
                  Hfirst) as [(q & Hq) | Hq]; rewrite Hq; cbn [bind_res].
      * right. eexists. split; [reflexivity|]. cbn.
        split; [exact Hst | split; [exact Hyt | reflexivity]].
      * left. reflexivity.
    + intros Hfirst Hfits.
      destruct (PyFloatFacts.int_truediv_defined
                  (first - last (first :: rest) 0) first 1000
                  ltac:(lia) Hfits Hfirst) as (q & Hq).
      rewrite Hq. cbn [bind_res]. eauto.
Qed.

(** Witness: two rounds into a session on the Alphonso product. *)
Lemma analyze_progress_cases_witness :
  exists progress,
    NegotiationAgentHelpers.analyze_negotiation_progress
      (Build_NegotiationContext alphonso 216000 2
         [270000; 240000] [117000; 130000] [])
    = Ok (Some progress)
    /\ NegotiationAgentHelpers.seller_trend progress = -30000
    /\ NegotiationAgentHelpers.your_trend progress = 13000
    /\ NegotiationAgentHelpers.rounds_remaining progress = 8.
Proof.
  destruct (proj2 (analyze_progress_cases
                     (Build_NegotiationContext alphonso 216000 2
                        [270000; 240000] [117000; 130000] [])))
    as (_ & Hcases & _); [discriminate | discriminate |].
  destruct Hcases as [Hraise | (progress & Hrun & Hs & Hy & Hr)];
    [discriminate | vm_compute in Hraise; discriminate Hraise |].
  exists progress. split; [exact Hrun|].
  split; [exact Hs | split; [exact Hy | exact Hr]].
Defined.

(* ===================================================================== *)
(** * The chat-backed buyer and its budget *)
(* ===================================================================== *)

(** A buyer that respects one budget for one product respects it in the
    sessions on that product with that budget. *)
Lemma respectful_session_of buyer_agent item budget seller_min n w s w' :
  respects_budget_of item budget buyer_agent ->
  negotiate buyer_agent item budget seller_min (range n) w = Ok (s, w') ->
  within_budget budget s.
Proof.
  intros [Hopen Hrespond] Hrun.
  assert (Hturn : forall k s1 w1 status offer msg w2,
            ongoing item budget (the_seller seller_min) k s1 ->
            buyer_turn buyer_agent (Z.of_nat k)
              (set_round (context s1) (Z.of_nat k + 1)) s1 w1
              = Ok (status, offer, msg, w2) ->
            offer <= budget
            /\ (status = ACCEPTED -> seller_price s1 <= budget)).
  { intros k s1 w1 status offer msg w2 [Hp Hb _ _ _ _ _ _ _ _ _] H.
    unfold buyer_turn in H. destruct (Z.of_nat k =? 0).
    - apply bind_Ok in H. destruct H as ([o t] & w3 & Ho & H).
      apply ret_Ok in H. destruct H as [H _]. injection H as -> -> ->.
      split; [|discriminate].
      eapply (Hopen (set_round (context s1) (Z.of_nat k + 1)));
        [exact Hp | exact Hb | exact Ho].
    - eapply (Hrespond (set_round (context s1) (Z.of_nat k + 1)));
        [exact Hp | exact Hb | exact H]. }
  apply (negotiate_trace_with
           (fun _ s => Forall (fun offer => offer <= budget)
                              (your_offers (context s)))) in Hrun.
  - destruct Hrun as [[Hongoing Hall]
                     | (j & s1 & w1 & _ & Hongoing & Hall & Hstep)].
    + split; [exact Hall|]. destruct Hongoing as [_ _ _ _ _ _ _ _ _ _ Hf].
      rewrite Hf. discriminate.
    + destruct (closing_round _ _ _ _ _ _ _ _ _ Hongoing Hstep)
        as (_ & _ & _ & _ & _ & status & offer & msg & Hbuyer & Hyo & Hcases).
      destruct (Hturn _ _ _ _ _ _ _ Hongoing Hbuyer) as [Hoffer Haccept].
      split.
      * rewrite Hyo. apply Forall_app. split; [exact Hall|].
        constructor; [exact Hoffer | constructor].
      * intros price Hprice.
        destruct Hcases as [(Hst & _ & Hf & _) | (_ & Hf & _)];
          rewrite Hf in Hprice; inversion Hprice; subst price; auto.
  - intros s0 [_ _ _ Hlen _ _ _ _ _ _ _].
    destruct (your_offers (context s0)); [constructor | discriminate].
  - intros k s1 w1 s2 w2 Hongoing Hall Hstep.
    inversion Hstep as [ | | status offer bmsg w3 price smsg Hbuyer Hst Hseller];
      subst.
    destruct (Hturn _ _ _ _ _ _ _ Hongoing Hbuyer) as [Hoffer _].
    cbn [context your_offers seller_countered append_seller append_buyer].
    apply Forall_app. split; [exact Hall|].
    constructor; [exact Hoffer | constructor].
Qed.

(** The fallback offers of the chat-backed buyer are within a budget of at
    least 90% of the market price. *)
Lemma chat_buyer_respects_budget_of item budget :
  0 <= base_market_price item < 2 ^ 48 ->
  9 * base_market_price item <= 10 * budget ->
  respects_budget_of item budget BuyerAgentTeam.YourBuyerAgent.
Proof.
  intros Hm Hb. split.
  - intros c w offer msg w' Hp Hbud H. simpl in H.
    unfold BuyerAgentTeam.generate_opening_offer in H.
    apply BuyerAgentTeamFacts.chat_call_Ok in H.
    destruct H as (text & w1 & _ & _ & _ & H).
    apply bind_Ok in H. destruct H as (fallback & w2 & Hfall & H).
    apply lift_Ok in Hfall. destruct Hfall as [Hfall ->].
    apply bind_Ok in H. destruct H as (parsed & w3 & _ & H).
    apply ret_Ok in H. destruct H as [H _]. inversion H; subst offer msg.
    rewrite Hp in Hfall.
    destruct (PyFloatValues.int_mul_trunc_near (base_market_price item)
                PyFloat.f0_8 ltac:(lia) PyFloatValues.literal_f0_8)
      as (z & Hz & Hup & _).
    rewrite Hfall in Hz. inversion Hz; subst z.
    cbv [num den PyFloat.f0_8] in Hup.
    destruct parsed; lia.
  - intros c sp sm w status offer msg w' Hp Hbud H. simpl in H.
    unfold BuyerAgentTeam.respond_to_seller_offer in H.
    apply BuyerAgentTeamFacts.chat_call_Ok in H.
    destruct H as (text & w1 & _ & _ & _ & H).
    apply bind_Ok in H. destruct H as (fallback & w2 & Hfall & H).
    apply lift_Ok in Hfall. destruct Hfall as [Hfall ->].
    apply bind_Ok in H. destruct H as (accept & w3 & Haccept & H).
    apply lift_Ok in Haccept. destruct Haccept as [Haccept ->].
    rewrite Hp in Hfall.
    destruct (PyFloatValues.int_mul_trunc_near (base_market_price item)
                PyFloat.f0_9 ltac:(lia) PyFloatValues.literal_f0_9)
      as (z & Hz & Hup & _).
    rewrite Hfall in Hz. inversion Hz; subst z.
    cbv [num den PyFloat.f0_9] in Hup.
    destruct accept.
    + apply ret_Ok in H. destruct H as [H _]. inversion H; subst.
      destruct (Z.leb_spec sp (your_budget c)) as [Hle|Hgt];
        [|discriminate Haccept].
      split; [exact Hle | intros _; exact Hle].
    + apply bind_Ok in H. destruct H as (parsed & w4 & _ & H).
      destruct (Z.leb_spec 10 (current_round c));
        destruct (Z.leb_spec sp (your_budget c));
        cbn [andb] in H; apply ret_Ok in H; destruct H as [H _];
        inversion H; subst;
        try (split; [assumption | intros _; assumption]);
        (split; [destruct parsed; lia | discriminate]).
Qed.

(** X16.  With a market price between 0 and [2^48] and a budget
    of at least 90% of it, the chat-backed buyer stays within its budget
    whatever the chat service replies: in every session, after any number
    of rounds, every recorded offer and the price of a deal are at most
    the budget. *)
Theorem chat_buyer_within_budget item budget seller_min n w s w' :
  0 <= base_market_price item < 2 ^ 48 ->
  9 * base_market_price item <= 10 * budget ->
  negotiate BuyerAgentTeam.YourBuyerAgent item budget seller_min
    (range n) w = Ok (s, w') ->
  Forall (fun offer => offer <= budget) (your_offers (context s))
  /\ forall price, final_price s = Some price -> price <= budget.
Proof.
  intros Hm Hb Hrun.
  exact (respectful_session_of _ _ _ _ _ _ _ _
           (chat_buyer_respects_budget_of item budget Hm Hb) Hrun).
Qed.

(** Witness: a service that never names a number. *)
Lemma chat_buyer_within_budget_witness :
  exists s w',
    negotiate BuyerAgentTeam.YourBuyerAgent alphonso 216000 144000
      (range 10) (constant_world 0 (ChatReturns "no numbers here"))
    = Ok (s, w')
    /\ Forall (fun offer => offer <= 216000) (your_offers (context s)).
Proof.
  assert (Hrun : exists s w',
            negotiate BuyerAgentTeam.YourBuyerAgent alphonso 216000 144000
              (range 10) (constant_world 0 (ChatReturns "no numbers here"))
            = Ok (s, w'))
    by (do 2 eexists; vm_compute; reflexivity).
  destruct Hrun as (s & w' & Hrun). exists s, w'. split; [exact Hrun|].
  apply (chat_buyer_within_budget alphonso 216000 144000 10
           (constant_world 0 (ChatReturns "no numbers here")) s w');
    [simpl; lia | simpl; lia | exact Hrun].
Defined.

Lemma string_app_assoc (a b c : string) :
  ((a ++ b) ++ c = a ++ (b ++ c))%string.
Proof. induction a as [|x a IH]; simpl; [|rewrite IH]; reflexivity. Qed.

(* ===================================================================== *)
(** * Reading a reply in the format the prompt asks for *)
(* ===================================================================== *)

Module ReplyFacts.

Local Open Scope string_scope.

Lemma strip_prefix_app key : forall rest,
  Text.strip_prefix key (key ++ rest) = Some rest.
Proof.
  induction key as [|c key IH]; intros rest; [reflexivity|].
  simpl. rewrite Ascii.eqb_refl. apply IH.
Qed.

(** A prefix found in [a ++ b] that is no longer than [a] is found in
    [a]. *)
Lemma strip_prefix_within p : forall a b r,
  Text.strip_prefix p (a ++ b) = Some r ->
  (String.length p <= String.length a)%nat ->
  exists r', Text.strip_prefix p a = Some r'.
Proof.
  induction p as [|x p IH]; intros a b r H Hlen.
  - exists a. destruct a; reflexivity.
  - destruct a as [|y a]; [cbn [String.length] in Hlen; lia|].
    cbn [append Text.strip_prefix] in *.
    destruct (Ascii.eqb x y); [|discriminate H].
    apply (IH a b r H). cbn [String.length] in Hlen. lia.
Qed.

Lemma contains_false_cons p c s :
  Text.contains p (String c s) = false ->
  Text.strip_prefix p (String c s) = None /\ Text.contains p s = false.
Proof.
  cbn [Text.contains].
  destruct (Text.strip_prefix p (String c s)); [discriminate | auto].
Qed.

Lemma length_append (a b : string) :
  String.length (a ++ b) = (String.length a + String.length b)%nat.
Proof. induction a as [|c a IH]; cbn [append String.length]; lia. Qed.

(** When [key] does not occur in [before ++ stem], where [stem] is [key]
    without its last character, no occurrence of [key] in
    [before ++ stem ++ tail] begins in [before]. *)
Lemma no_occurrence_before key stem tail : forall before,
  (String.length key <= S (String.length stem))%nat ->
  Text.contains key (before ++ stem) = false ->
  (forall pos rest, before = pos ++ rest -> rest <> "" ->
     Text.strip_prefix key (rest ++ stem ++ tail) = None).
Proof.
  intros before Hlen Hno pos.
  revert before Hno. induction pos as [|c pos IH]; intros before Hno rest E Hrest.
  - cbn [append] in E. subst before.
    destruct rest as [|c rest]; [contradiction|].
    cbn [append] in Hno. apply contains_false_cons in Hno.
    destruct Hno as [Hno _].
    destruct (Text.strip_prefix key (String c rest ++ stem ++ tail))
      as [r|] eqn:Ematch; [|reflexivity].
    exfalso.
    assert (Ematch' : Text.strip_prefix key ((String c rest ++ stem) ++ tail)
                      = Some r).
    { rewrite <- Ematch. f_equal. apply string_app_assoc. }
    apply strip_prefix_within in Ematch'.
    + destruct Ematch' as (r' & Hr'). cbn [append] in Hr'. congruence.
    + rewrite length_append. cbn [String.length]. lia.
  - subst before. cbn [append] in Hno. apply contains_false_cons in Hno.
    destruct Hno as [_ Hno]. apply (IH _ Hno rest eq_refl Hrest).
Qed.

(** The searches skip a text in which the key does not begin. *)
Lemma search_digits_skip key stem tail : forall before,
  (String.length key <= S (String.length stem))%nat ->
  Text.contains key (before ++ stem) = false ->
  Text.search_digits key (before ++ stem ++ tail)
  = Text.search_digits key (stem ++ tail).
Proof.
  induction before as [|c before IH]; intros Hlen Hno; [reflexivity|].
  pose proof (no_occurrence_before key stem tail (String c before) Hlen Hno
                "" (String c before) eq_refl ltac:(discriminate)) as Hhere.
  cbn [append] in Hhere |- *. cbn [Text.search_digits]. rewrite Hhere.
  cbn [append] in Hno. apply contains_false_cons in Hno.
  apply IH; [exact Hlen | apply Hno].
Qed.

Lemma search_rest_skip key stem tail : forall before,
  (String.length key <= S (String.length stem))%nat ->
  Text.contains key (before ++ stem) = false ->
  Text.search_rest key (before ++ stem ++ tail)
  = Text.search_rest key (stem ++ tail).
Proof.
  induction before as [|c before IH]; intros Hlen Hno; [reflexivity|].
  pose proof (no_occurrence_before key stem tail (String c before) Hlen Hno
                "" (String c before) eq_refl ltac:(discriminate)) as Hhere.
  cbn [append] in Hhere |- *. cbn [Text.search_rest]. rewrite Hhere.
  cbn [append] in Hno. apply contains_false_cons in Hno.
  apply IH; [exact Hlen | apply Hno].
Qed.

(** An ASCII character is one byte. *)
Lemma chars_ascii c r :
  (N_of_ascii c < 128)%N ->
  Text.chars (String c r) = (N_of_ascii c, String c "") :: Text.chars r.
Proof.
  intros H. cbn [Text.chars]. cbv zeta.
  destruct (N.ltb_spec (N_of_ascii c) 194) as [_|H1]; [|lia].
  destruct (N.ltb_spec (N_of_ascii c) 128) as [_|H2]; [reflexivity | lia].
Qed.

(** Blanks before a number are skipped. *)
Lemma lstrip_blanks k : forall text,
  Text.lstrip_chars
    (Text.chars (string_of_list_ascii (repeat " "%char k) ++ text))
  = Text.lstrip_chars (Text.chars text).
Proof.
  induction k as [|k IH]; intros text; [reflexivity|].
  cbn [repeat string_of_list_ascii append].
  rewrite chars_ascii by (vm_compute; reflexivity).
  cbn [Text.lstrip_chars].
  change (Text.is_space (N_of_ascii " ")) with true. cbv iota. apply IH.
Qed.

(** Reading the digits of a decimal numeral, most significant first. *)
Lemma read_digits_numeral d : forall rest,
  exists group,
    Text.read_digits (Text.chars (NilEmpty.string_of_uint d ++ rest))
    = (group ++ Text.read_digits (Text.chars rest))%list
    /\ List.length group = String.length (NilEmpty.string_of_uint d)
    /\ (forall acc,
          fold_left (fun acc d => 10 * acc + d) group (Z.pos acc)
          = Z.pos (Pos.of_uint_acc d acc))
    /\ fold_left (fun acc d => 10 * acc + d) group 0
       = Z.of_N (Pos.of_uint d)
    /\ (d <> Decimal.Nil -> group <> []
        /\ Text.lstrip_chars
             (Text.chars (NilEmpty.string_of_uint d ++ rest))
           = Text.chars (NilEmpty.string_of_uint d ++ rest)).
Proof.
  induction d as [|d IH|d IH|d IH|d IH|d IH|d IH|d IH|d IH|d IH|d IH];
    intros rest;
    [exists []; cbn [NilEmpty.string_of_uint append app List.length
                      String.length fold_left Pos.of_uint_acc Pos.of_uint];
     repeat split; contradiction
    | destruct (IH rest) as (group & Hread & Hlen & Hacc & Hzero & _) ..];
    cbn [NilEmpty.string_of_uint append];
    rewrite chars_ascii by (vm_compute; reflexivity);
    cbn [Text.read_digits Text.lstrip_chars];
    match goal with
    | |- context [Text.decimal_value (N_of_ascii ?c)] =>
        let v := eval vm_compute in (Text.decimal_value (N_of_ascii c)) in
        change (Text.decimal_value (N_of_ascii c)) with v
    end;
    match goal with
    | |- context [Text.is_space (N_of_ascii ?c)] =>
        change (Text.is_space (N_of_ascii c)) with false
    end;
    cbv iota; rewrite Hread;
    match goal with
    | |- exists g, ?v :: (?l ++ ?r)%list = (g ++ ?r)%list /\ _ =>
        exists (v :: l)
    end;
    (split; [reflexivity|]);
    (split; [cbn [List.length String.length]; rewrite Hlen; reflexivity|]);
    (split; [intros acc; cbn [fold_left Pos.of_uint_acc];
             rewrite <- Hacc; f_equal; lia|]);
    (split; [cbn [fold_left Pos.of_uint];
             first [ exact Hzero
                   | match goal with
                     | |- fold_left _ _ ?v = _ =>
                         let p := eval vm_compute in v in
                         change v with p
                     end; apply Hacc ]
            | intros _; split; [discriminate | reflexivity]]).
Qed.

Lemma string_of_uint_nonnil d :
  d <> Decimal.Nil -> NilZero.string_of_uint d = NilEmpty.string_of_uint d.
Proof. destruct d; intros H; [contradiction | reflexivity ..]. Qed.

(** Reading back a printed number. *)
Lemma read_printed_number n rest :
  0 <= n ->
  Text.read_digits (Text.chars rest) = [] ->
  exists group,
    Text.read_digits (Text.lstrip_chars
                        (Text.chars (Text.str_of_int n ++ rest)))
    = group
    /\ group <> []
    /\ List.length group = String.length (Text.str_of_int n)
    /\ fold_left (fun acc d => 10 * acc + d) group 0 = n.
Proof.
  intros Hn Hrest. unfold Text.str_of_int.
  assert (Hnumeral : exists d,
            NilZero.string_of_int (Z.to_int n) = NilEmpty.string_of_uint d
            /\ d <> Decimal.Nil /\ Z.of_N (Pos.of_uint d) = n).
  { destruct n as [|p|p]; [| |lia].
    - exists (Decimal.D0 Decimal.Nil).
      split; [reflexivity | split; [discriminate | reflexivity]].
    - exists (Pos.to_uint p).
      pose proof (DecimalPos.Unsigned.to_uint_nonnil p) as Hnil.
      cbn [Z.to_int NilZero.string_of_int].
      split; [apply string_of_uint_nonnil; exact Hnil|].
      split; [exact Hnil|].
      rewrite DecimalPos.Unsigned.of_to. reflexivity. }
  destruct Hnumeral as (d & -> & Hnil & Hvalue).
  destruct (read_digits_numeral d rest)
    as (group & Hread & Hlen & _ & Hzero & Hfirst).
  destruct (Hfirst Hnil) as [Hgroup Hstrip].
  exists group. rewrite Hstrip, Hread, Hrest, app_nil_r.
  split; [reflexivity | split; [exact Hgroup | split; [exact Hlen|]]].
  rewrite Hzero. exact Hvalue.
Qed.

Lemma search_digits_here key text after d ds :
  Text.strip_prefix key text = Some after ->
  Text.read_digits (Text.lstrip_chars (Text.chars after)) = d :: ds ->
  Text.search_digits key text = Some (d :: ds).
Proof.
  intros Hkey Hread. destruct text; cbn [Text.search_digits];
    rewrite Hkey, Hread; reflexivity.
Qed.

(** The number of a field [key <blanks> <n>] that is the first occurrence
    of [key]. *)
Lemma search_number_field key stem colon before k n rest :
  key = stem ++ String colon "" ->
  Text.contains key (before ++ stem) = false ->
  0 <= n ->
  (String.length (Text.str_of_int n) <= 4300)%nat ->
  Text.read_digits (Text.chars rest) = [] ->
  Text.search_number key
    (before ++ key ++ string_of_list_ascii (repeat " "%char k)
     ++ Text.str_of_int n ++ rest)
  = Ok (Some n).
Proof.
  intros Hkey Hno Hn Hlen Hrest.
  destruct (read_printed_number n rest Hn Hrest)
    as (group & Hread & Hgroup & Hlength & Hvalue).
  set (after := string_of_list_ascii (repeat " "%char k)
                ++ Text.str_of_int n ++ rest).
  assert (Hdigits : Text.search_digits key (before ++ key ++ after)
                    = Some group).
  { assert (E : before ++ key ++ after
                = before ++ stem ++ (String colon "" ++ after)).
    { rewrite Hkey, string_app_assoc. reflexivity. }
    rewrite E, search_digits_skip; [| rewrite Hkey, length_append;
                                       cbn [String.length]; lia | exact Hno].
    assert (E' : stem ++ String colon "" ++ after = key ++ after).
    { rewrite Hkey, string_app_assoc. reflexivity. }
    rewrite E'.
    destruct group as [|d ds]; [contradiction|].
    apply (search_digits_here key _ after); [apply strip_prefix_app|].
    unfold after. rewrite lstrip_blanks. exact Hread. }
  unfold Text.search_number, Text.int_of_digits, Text.max_str_digits.
  rewrite Hdigits, Hlength.
  destruct (Nat.leb_spec (String.length (Text.str_of_int n)) 4300);
    [rewrite Hvalue; reflexivity | lia].
Qed.

(** The message of a field [key <m>] that is the first occurrence of
    [key]. *)
Lemma search_rest_field key stem colon before m :
  key = stem ++ String colon "" ->
  Text.contains key (before ++ stem) = false ->
  m <> "" ->
  Text.search_rest key (before ++ key ++ m) = Some (Text.strip m).
Proof.
  intros Hkey Hno Hm.
  assert (E : before ++ key ++ m = before ++ stem ++ (String colon "" ++ m)).
  { rewrite Hkey, string_app_assoc. reflexivity. }
  rewrite E, search_rest_skip; [| rewrite Hkey, length_append;
                                  cbn [String.length]; lia | exact Hno].
  assert (E' : stem ++ String colon "" ++ m = key ++ m).
  { rewrite Hkey, string_app_assoc. reflexivity. }
  rewrite E'. destruct m as [|c m]; [contradiction|].
  pose proof (strip_prefix_app key (String c m)) as Hhere.
  destruct (key ++ String c m) eqn:Etext; cbn [Text.search_rest];
    rewrite Hhere; reflexivity.
Qed.

End ReplyFacts.

(** X17.  When the reply of the chat service carries no
    [offer_amount:] number, the chat-backed buyer opens with its local
    fallback and with the reply's message, or [Let's begin.] if there is
    none: for a market price between 0 and [2^48] and a budget of at
    least 80% of it, the offer is 80% of the market price rounded down,
    or that less one, and within the budget. *)
Theorem chat_opening_fallback context w text :
  0 <= base_market_price (product context) < 2 ^ 48 ->
  4 * base_market_price (product context) <= 5 * your_budget context ->
  printable_opening context ->
  chat_replies w (chats_used w) = ChatReturns text ->
  Text.search_number "offer_amount:" text = Ok None ->
  exists offer w',
    BuyerAgentTeam.generate_opening_offer context w
      = Ok (offer, message_from_reply text "Let's begin.", w')
    /\ 4 * base_market_price (product context) - 5 <= 5 * offer
       <= 4 * base_market_price (product context)
    /\ offer <= your_budget context.
Proof.
  intros Hm Hbudget Hprint Hreply Hnone.
  destruct (PyFloatValues.int_mul_trunc_near
              (base_market_price (product context)) PyFloat.f0_8
              ltac:(lia) PyFloatValues.literal_f0_8)
    as (z & Hz & Hup & Hlo).
  cbv [num den PyFloat.f0_8] in Hup, Hlo.
  destruct (BuyerAgentTeamFacts.chat_opening_returns context w text z
              Hreply Hprint Hz) as (w' & _ & Hrun).
  rewrite Hnone in Hrun. cbn [counter_from_reply] in Hrun.
  exists z, w'. split; [exact Hrun | lia].
Qed.

(** Witness: the Alphonso product with a budget of 216000. *)
Lemma chat_opening_fallback_witness :
  exists offer w',
    BuyerAgentTeam.generate_opening_offer (alphonso_context 216000 1 [])
      (constant_world 0 (ChatReturns "no numbers here"))
      = Ok (offer, "Let's begin."%string, w')
    /\ 143999 <= offer <= 144000.
Proof.
  destruct (chat_opening_fallback (alphonso_context 216000 1 [])
              (constant_world 0 (ChatReturns "no numbers here"))
              "no numbers here")
    as (offer & w' & Hrun & Hnear & _);
    [simpl; lia | simpl; lia | solve_printable | reflexivity
    | vm_compute; reflexivity |].
  exists offer, w'. split; [exact Hrun|].
  cbn [alphonso_context product base_market_price alphonso] in Hnear. lia.
Defined.

(** X18.  A reply is understood wherever its fields stand in the text
    of the response: when the first [offer_amount:] of the text is
    followed by blanks and the decimal numeral of [n >= 0], of at most
    4300 digits and not followed by another digit, and [m] is what
    follows the first [message:], the opening offer of the chat-backed
    buyer is [min(n, budget)] and its message is [m] stripped of
    surrounding white space (for a market price of at most 1000 bits and
    numbers that the prompt can print). *)
Theorem chat_opening_reads_reply context w before k n rest ahead m :
  0 <= n ->
  (String.length (Text.str_of_int n) <= 4300)%nat ->
  PyFloat.fits 1000 (base_market_price (product context)) ->
  printable_opening context ->
  Text.contains "offer_amount:" (before ++ "offer_amount") = false ->
  Text.read_digits (Text.chars rest) = [] ->
  Text.contains "message:" (ahead ++ "message") = false ->
  m <> ""%string ->
  (before ++ "offer_amount:" ++ string_of_list_ascii (repeat " "%char k)
   ++ Text.str_of_int n ++ rest)%string
  = (ahead ++ "message:" ++ m)%string ->
  chat_replies w (chats_used w)
    = ChatReturns (ahead ++ "message:" ++ m) ->
  exists w',
    BuyerAgentTeam.generate_opening_offer context w
    = Ok (Z.min n (your_budget context), Text.strip m, w').
Proof.
  intros Hn Hlen Hfits Hprint Hfirst Hrest Hfirst' Hm Hshape Hreply.
  destruct (PyFloatFacts.int_mul_trunc_defined
              (base_market_price (product context)) PyFloat.f0_8 1000 0
              ltac:(lia) ltac:(lia) Hfits PyFloatFacts.small_f0_8)
    as (fallback & Hfallback & _).
  destruct (BuyerAgentTeamFacts.chat_opening_returns context w _ fallback
              Hreply Hprint Hfallback) as (w' & _ & Hrun).
  exists w'. rewrite Hrun. unfold message_from_reply.
  rewrite (ReplyFacts.search_rest_field "message:" "message" ":" ahead m
             eq_refl Hfirst' Hm).
  rewrite <- Hshape.
  rewrite (ReplyFacts.search_number_field "offer_amount:" "offer_amount" ":"
             before k n rest eq_refl Hfirst Hn Hlen Hrest).
  reflexivity.
Qed.

(** Witness: a reply as [str] shows a response object, with an offer
    above the budget. *)
Lemma chat_opening_reads_reply_witness :
  exists w',
    BuyerAgentTeam.generate_opening_offer (alphonso_context 100000 1 [])
      (constant_world 0
         (ChatReturns
            "message=Message(role='assistant', content='offer_amount: 120000\nmessage: Take it.')"))
    = Ok (100000, "Take it.')"%string, w').
Proof.
  apply (chat_opening_reads_reply (alphonso_context 100000 1 [])
           (constant_world 0
              (ChatReturns
                 "message=Message(role='assistant', content='offer_amount: 120000\nmessage: Take it.')"))
           "message=Message(role='assistant', content='"%string 1 120000
           "\nmessage: Take it.')"%string
           "message=Message(role='assistant', content='offer_amount: 120000\n"%string
           " Take it.')"%string).
  - lia.
  - vm_compute. lia.
  - apply (PyFloatFacts.fits_mono 18); [lia | reflexivity].
  - solve_printable.
  - vm_compute. reflexivity.
  - vm_compute. reflexivity.
  - vm_compute. reflexivity.
  - discriminate.
  - reflexivity.
  - reflexivity.
Defined.

(* ===================================================================== *)
(** * The texts of the deterministic buyer *)
(* ===================================================================== *)

Lemma contains_here p s rest :
  Text.strip_prefix p s = Some rest -> Text.contains p s = true.
Proof. intros H. destruct s; cbn [Text.contains]; rewrite H; reflexivity. Qed.

Lemma contains_later p c s :
  Text.contains p s = true -> Text.contains p (String c s) = true.
Proof.
  intros H. cbn [Text.contains].
  destruct (Text.strip_prefix p (String c s)); [reflexivity | exact H].
Qed.

Lemma contains_app (p a b : string) :
  Text.contains p (a ++ p ++ b)%string = true.
Proof.
  induction a as [|c a IH].
  - cbn [append]. apply (contains_here p _ b).
    apply ReplyFacts.strip_prefix_app.
  - cbn [append]. apply contains_later. exact IH.
Qed.

Lemma strip_prefix_longer p : forall s rest t,
  Text.strip_prefix p s = Some rest ->
  Text.strip_prefix p (s ++ t)%string = Some (rest ++ t)%string.
Proof.
  induction p as [|a p IH]; intros s rest t H.
  - cbn [Text.strip_prefix] in *. inversion H. reflexivity.
  - destruct s as [|b s]; [discriminate H|].
    cbn [Text.strip_prefix append] in *.
    destruct (Ascii.eqb a b); [apply IH; exact H | discriminate H].
Qed.

Lemma contains_prefix p t : forall s,
  Text.contains p s = true -> Text.contains p (s ++ t)%string = true.
Proof.
  induction s as [|c s IH]; intros H.
  - cbn [Text.contains] in H.
    destruct (Text.strip_prefix p EmptyString) as [rest|] eqn:E;
      [|discriminate H].
    apply (contains_here p _ (rest ++ t)%string).
    apply strip_prefix_longer. exact E.
  - cbn [Text.contains] in H.
    destruct (Text.strip_prefix p (String c s)) as [rest|] eqn:E.
    + apply (contains_here p _ (rest ++ t)%string).
      apply strip_prefix_longer. exact E.
    + cbn [append]. apply contains_later. apply IH. exact H.
Qed.

(** The text of a counter-offer names the offer, and one draw is
    consumed for it. *)
Lemma mirror_and_frame_names_price seller_message counter_offer w text w' :
  NegotiationAgent.mirror_and_frame seller_message counter_offer w
    = Ok (text, w') ->
  Text.contains (rupees counter_offer) text = true
  /\ chats_used w' = chats_used w
  /\ chat_replies w' = chat_replies w
  /\ random_draws w' = random_draws w
  /\ draws_used w' = S (draws_used w).
Proof.
  unfold NegotiationAgent.mirror_and_frame, random_choice. intros H.
  match type of H with
  | Ok (?t, ?w1) = _ =>
      assert (Htext : t = text) by congruence;
      assert (Hw : w1 = w') by congruence
  end.
  clear H. subst w'. split; [|repeat split].
  rewrite <- Htext. clear Htext.
  match goal with
  | |- Text.contains _ (nth ?i _ _) = true => generalize i
  end.
  intros i. destruct i as [|[|[|[|i]]]]; cbn [nth];
    match goal with
    | |- Text.contains _ (?a ++ (?b ++ ?c))%string = true =>
        rewrite <- (string_app_assoc a b c)
    end; apply contains_app.
Qed.

(** X19.  Every message of the deterministic buyer names the price
    it carries: the opening message and every response contain the
    rupee sign followed by the offer returned with it.  The opening offer
    leaves the world untouched; a response never consults the chat
    service and consumes one random draw when it counters, none when it
    accepts. *)
Theorem deterministic_messages_name_the_price context :
  (forall w offer msg w',
     NegotiationAgent.generate_opening_offer context w
       = Ok (offer, msg, w') ->
     Text.contains (rupees offer) msg = true /\ w' = w)
  /\ (forall seller_price seller_message w status offer msg w',
        NegotiationAgent.respond_to_seller_offer context seller_price
          seller_message w = Ok (status, offer, msg, w') ->
        Text.contains (rupees offer) msg = true
        /\ chats_used w' = chats_used w
        /\ chat_replies w' = chat_replies w
        /\ random_draws w' = random_draws w
        /\ draws_used w'
           = (draws_used w
              + if DealStatus_eqb status ACCEPTED then 0 else 1)%nat).
Proof.
  split.
  - intros w offer msg w' H.
    unfold NegotiationAgent.generate_opening_offer in H.
    apply bind_Ok in H. destruct H as (price & w1 & Hanchor & H).
    apply lift_Ok in Hanchor. destruct Hanchor as [_ ->].
    apply ret_Ok in H. destruct H as [H ->]. injection H as -> ->.
    split; [|reflexivity].
    apply (contains_app (rupees price) "I'll begin with "%string).
  - intros sp sm w status offer msg w' H.
    unfold NegotiationAgent.respond_to_seller_offer in H.
    apply bind_Ok in H. destruct H as (batna & w1 & Hbatna & H).
    apply lift_Ok in Hbatna. destruct Hbatna as [_ ->].
    apply bind_Ok in H. destruct H as (below & w2 & Hbelow & H).
    apply lift_Ok in Hbelow. destruct Hbelow as [_ ->].
    destruct below.
    + apply ret_Ok in H. destruct H as [H ->]. injection H as -> -> ->.
      split; [apply (contains_app (rupees sp) "Agreed. "%string)|].
      cbn [DealStatus_eqb]. repeat split. lia.
    + apply bind_Ok in H. destruct H as (counter & w3 & Hcounter & H).
      apply lift_Ok in Hcounter. destruct Hcounter as [_ ->].
      apply bind_Ok in H. destruct H as (text & w4 & Hframe & H).
      apply ret_Ok in H. destruct H as [H ->]. injection H as -> -> ->.
      apply mirror_and_frame_names_price in Hframe.
      destruct Hframe as (Hnamed & H1 & H2 & H3 & H4).
      cbn [DealStatus_eqb].
      split; [|repeat split; try assumption; lia].
      destruct (8 <=? current_round context);
        [apply contains_prefix|]; exact Hnamed.
Qed.

(** Witness: a counter in round 2 of a session on the Alphonso product. *)
Lemma deterministic_messages_name_the_price_witness :
  exists status offer msg w',
    NegotiationAgent.respond_to_seller_offer
      (alphonso_context 216000 2 [117000]) 200000
      "Best price for this quality" offline_world
    = Ok (status, offer, msg, w')
    /\ Text.contains (rupees offer) msg = true
    /\ draws_used w' = 1%nat.
Proof.
  assert (Hrun : exists status offer msg w',
            NegotiationAgent.respond_to_seller_offer
              (alphonso_context 216000 2 [117000]) 200000
              "Best price for this quality" offline_world
            = Ok (status, offer, msg, w') /\ status = ONGOING)
    by (do 4 eexists; split; vm_compute; reflexivity).
  destruct Hrun as (status & offer & msg & w' & Hrun & Hstatus).
  exists status, offer, msg, w'. split; [exact Hrun|].
  destruct (proj2 (deterministic_messages_name_the_price
                     (alphonso_context 216000 2 [117000]))
              _ _ _ _ _ _ _ Hrun) as (Hnamed & _ & _ & _ & Hdraws).
  split; [exact Hnamed|]. rewrite Hdraws, Hstatus. reflexivity.
Defined.

(* ===================================================================== *)
(** * A counter-offer without an earlier offer *)
(* ===================================================================== *)

(** X20.  [concession_pattern] without an earlier offer of
    the buyer starts from the budget: for a seller price between 0 and
    [2^1000] the counter-offer is [min(your_budget, seller_price - 1)] in
    every round, whatever the concession. *)
Theorem concession_on_an_empty_history context seller_price :
  your_offers context = [] ->
  0 <= seller_price < 2 ^ 1000 ->
  NegotiationAgent.concession_pattern context seller_price
  = Ok (Z.min (your_budget context) (seller_price - 1)).
Proof.
  intros Hempty Hsp.
  unfold NegotiationAgent.concession_pattern. rewrite Hempty.
  assert (Hfits : PyFloat.fits 1000 seller_price)
    by (unfold PyFloat.fits; lia).
  assert (Hcon : forall c bits,
            PyFloat.small_constant bits c -> -8 <= bits <= 8 ->
            exists concession,
              PyFloat.int_mul_trunc seller_price c = Ok concession
              /\ 0 <= concession).
  { intros c bits Hc Hbits.
    destruct (PyFloatFacts.int_mul_trunc_defined seller_price c 1000 bits
                ltac:(lia) Hbits Hfits Hc) as (z & Hz & _ & Hpos & _).
    exists z. split; [exact Hz | apply Hpos; lia]. }
  destruct (current_round context <? 3);
    [destruct (Hcon _ _ PyFloatFacts.small_f0_05 ltac:(lia)) as (z & -> & Hz)
    |destruct (current_round context <? 7);
       [destruct (Hcon _ _ PyFloatFacts.small_f0_1 ltac:(lia))
          as (z & -> & Hz)
       |destruct (Hcon _ _ PyFloatFacts.small_f0_15 ltac:(lia))
          as (z & -> & Hz)]];
    cbn [bind_res]; f_equal; lia.
Qed.

(** Witness: a first response on the Alphonso product to a price of
    200000 with a budget of 216000. *)
Lemma concession_on_an_empty_history_witness :
  NegotiationAgent.concession_pattern (alphonso_context 216000 1 []) 200000
  = Ok 199999.
Proof.
  apply (concession_on_an_empty_history (alphonso_context 216000 1 []) 200000);
    [reflexivity | lia].
Defined.

(* ===================================================================== *)
(** * How often the chat service is consulted *)
(* ===================================================================== *)

(** One call of the service that returns. *)
Lemma ollama_chat_consumes_one w text w' :
  ollama_chat w = Ok (text, w') ->
  chat_replies w (chats_used w) = ChatReturns text
  /\ chats_used w' = S (chats_used w)
  /\ chat_replies w' = chat_replies w
  /\ random_draws w' = random_draws w
  /\ draws_used w' = draws_used w.
Proof.
  unfold ollama_chat. destruct (chat_replies w (chats_used w)) as [| |reply];
    intros H; [discriminate H | discriminate H |].
  inversion H; subst. simpl. repeat split.
Qed.

(** Each turn of the chat-backed buyer is one call of the service. *)
Lemma chat_buyer_turn_consults_once round_num c s w x w' :
  buyer_turn BuyerAgentTeam.YourBuyerAgent round_num c s w = Ok (x, w') ->
  (exists text, chat_replies w (chats_used w) = ChatReturns text)
  /\ chats_used w' = S (chats_used w)
  /\ chat_replies w' = chat_replies w
  /\ random_draws w' = random_draws w
  /\ draws_used w' = draws_used w.
Proof.
  unfold buyer_turn. intros H.
  assert (Hcall : exists text w1, ollama_chat w = Ok (text, w1) /\ w' = w1).
  { destruct (round_num =? 0).
    - apply bind_Ok in H. destruct H as ([offer msg] & w1 & Hopen & H).
      apply ret_Ok in H. destruct H as [_ ->].
      cbn [generate_opening_offer BuyerAgentTeam.YourBuyerAgent] in Hopen.
      unfold BuyerAgentTeam.generate_opening_offer in Hopen.
      apply BuyerAgentTeamFacts.chat_call_Ok in Hopen.
      destruct Hopen as (text & w2 & _ & _ & Hchat & Hopen).
      apply bind_Ok in Hopen. destruct Hopen as (fb & w3 & Hfb & Hopen).
      apply lift_Ok in Hfb. destruct Hfb as [_ ->].
      apply bind_Ok in Hopen. destruct Hopen as (parsed & w4 & Hp & Hopen).
      apply lift_Ok in Hp. destruct Hp as [_ ->].
      apply ret_Ok in Hopen. destruct Hopen as [_ ->]. eauto.
    - cbn [respond_to_seller_offer BuyerAgentTeam.YourBuyerAgent] in H.
      unfold BuyerAgentTeam.respond_to_seller_offer in H.
      apply BuyerAgentTeamFacts.chat_call_Ok in H.
      destruct H as (text & w2 & _ & _ & Hchat & H).
      apply bind_Ok in H. destruct H as (fb & w3 & Hfb & H).
      apply lift_Ok in Hfb. destruct Hfb as [_ ->].
      apply bind_Ok in H. destruct H as (accept & w4 & Hacc & H).
      apply lift_Ok in Hacc. destruct Hacc as [_ ->].
      exists text, w2. split; [exact Hchat|].
      destruct accept;
        [apply ret_Ok in H; destruct H as [_ ->]; reflexivity|].
      apply bind_Ok in H. destruct H as (parsed & w5 & Hp & H).
      apply lift_Ok in Hp. destruct Hp as [_ ->].
      destruct ((10 <=? current_round c) && (seller_price s <=? your_budget c));
        apply ret_Ok in H; destruct H as [_ ->]; reflexivity. }
  destruct Hcall as (text & w1 & Hchat & ->).
  apply ollama_chat_consumes_one in Hchat.
  destruct Hchat as (Hreply & H1 & H2 & H3 & H4). eauto 8.
Qed.

(** The round counter after a round. *)
Lemma round_step_counter buyer_agent seller round_num s w s' broke w' :
  round_step buyer_agent seller round_num s w s' broke w' ->
  current_round (context s') = round_num + 1
  /\ exists x,
       buyer_turn buyer_agent round_num
         (set_round (context s) (round_num + 1)) s w = Ok (x, w').
Proof.
  intros H. inversion H; subst; (split; [reflexivity | eauto]).
Qed.

(** The rounds of a chat-backed session, counted with the calls. *)
Lemma chat_rounds_consult seller n : forall k s w s' w',
  for_rounds BuyerAgentTeam.YourBuyerAgent seller
    (map Z.of_nat (seq k n)) s w = Ok (s', w') ->
  current_round (context s) = Z.of_nat k ->
  exists m,
    (m <= n)%nat /\ (0 < n -> 1 <= m)%nat
    /\ current_round (context s') = Z.of_nat (k + m)
    /\ chats_used w' = (chats_used w + m)%nat
    /\ chat_replies w' = chat_replies w
    /\ random_draws w' = random_draws w
    /\ draws_used w' = draws_used w
    /\ forall i, (i < m)%nat ->
         exists text,
           chat_replies w (chats_used w + i) = ChatReturns text.
Proof.
  induction n as [|n IH]; intros k s w s' w' Hrun Hround.
  - simpl in Hrun. inversion Hrun; subst. exists 0%nat.
    rewrite !Nat.add_0_r.
    split; [lia|]. split; [lia|]. split; [exact Hround|].
    do 4 (split; [reflexivity|]). intros i Hi. lia.
  - simpl in Hrun. apply for_rounds_cons in Hrun.
    destruct Hrun as (s1 & broke & w1 & Hstep & Hrest).
    apply round_step_counter in Hstep.
    destruct Hstep as (Hcounter & x & Hturn).
    apply chat_buyer_turn_consults_once in Hturn.
    destruct Hturn as ((text & Hreply) & Hused & Hreplies & Hdraws & Hdrawn).
    destruct broke.
    + destruct Hrest as [-> ->]. exists 1%nat.
      split; [lia|]. split; [lia|].
      split; [rewrite Hcounter; lia|]. split; [lia|].
      do 3 (split; [assumption|]). intros i Hi. replace i with 0%nat by lia.
      rewrite Nat.add_0_r. eauto.
    + apply IH in Hrest; [|rewrite Hcounter; lia].
      destruct Hrest as (m & Hm & _ & Hc & Hu & Hr & Hd & Hdu & Hall).
      exists (S m). split; [lia|]. split; [lia|].
      split; [rewrite Hc; f_equal; lia|]. split; [lia|].
      do 3 (split; [congruence|]).
      intros i Hi. destruct i as [|i].
      * rewrite Nat.add_0_r. eauto.
      * destruct (Hall i ltac:(lia)) as (t & Ht). exists t.
        rewrite <- Ht, Hreplies, Hused. f_equal. lia.
Qed.

(** X21.  A session of the chat-backed buyer that returns has
    consulted the chat service once per round played: the number of
    calls is the [rounds] entry of the result (between 1 and 10), every
    one of these calls returned a reply, and no random draw was made. *)
Theorem chat_session_consults_once_per_round item budget seller_min w r w' :
  run_negotiation_test BuyerAgentTeam.YourBuyerAgent item budget seller_min w
    = Ok (r, w') ->
  1 <= r_rounds r <= 10
  /\ chats_used w' = (chats_used w + Z.to_nat (r_rounds r))%nat
  /\ (forall i, (i < Z.to_nat (r_rounds r))%nat ->
        exists text, chat_replies w (chats_used w + i) = ChatReturns text)
  /\ chat_replies w' = chat_replies w
  /\ random_draws w' = random_draws w
  /\ draws_used w' = draws_used w.
Proof.
  intros H. apply run_negotiation_test_Ok in H.
  destruct H as (s & Hrun & Hsum). apply summary_Ok in Hsum.
  destruct Hsum as (_ & _ & Hrounds & _).
  unfold negotiate in Hrun. apply bind_Ok in Hrun.
  destruct Hrun as (s0 & w0 & Hopen & Hloop).
  apply lift_Ok in Hopen. destruct Hopen as [Hopen ->].
  assert (H0 : current_round (context s0) = Z.of_nat 0).
  { unfold open_session in Hopen. apply bind_res_Ok in Hopen.
    destruct Hopen as ([price msg] & _ & Hs0). inversion Hs0; subst.
    reflexivity. }
  unfold range in Hloop. apply chat_rounds_consult in Hloop; [|exact H0].
  destruct Hloop as (m & Hm & Hm1 & Hc & Hu & Hr & Hd & Hdu & Hall).
  rewrite Hrounds, Hc. rewrite Nat.add_0_l, Nat2Z.id.
  split; [lia|]. split; [exact Hu|]. split; [exact Hall|].
  split; [exact Hr|]. split; [exact Hd | exact Hdu].
Qed.

(** Witness: a service that never names a number; the seller accepts in
    a late round. *)
Lemma chat_session_consults_once_per_round_witness :
  exists r w',
    run_negotiation_test BuyerAgentTeam.YourBuyerAgent alphonso 216000 144000
      (constant_world 0 (ChatReturns "no numbers here"))
    = Ok (r, w')
    /\ chats_used w' = Z.to_nat (r_rounds r)
    /\ draws_used w' = 0%nat.
Proof.
  assert (Hrun : exists r w',
            run_negotiation_test BuyerAgentTeam.YourBuyerAgent alphonso
              216000 144000
              (constant_world 0 (ChatReturns "no numbers here"))
            = Ok (r, w'))
    by (do 2 eexists; vm_compute; reflexivity).
  destruct Hrun as (r & w' & Hrun). exists r, w'. split; [exact Hrun|].
  destruct (chat_session_consults_once_per_round alphonso 216000 144000
              (constant_world 0 (ChatReturns "no numbers here")) r w' Hrun)
    as (_ & Hused & _ & _ & _ & Hdraws).
  split; [exact Hused | exact Hdraws].
Defined.
